(** * Care-home monthly calendar: the aggregation engine and the cell renderer

    A shallow embedding of [src/main.py]: the time normalizer, the activity
    placement loop, the deduplicating merge, the per-day sort
    ([seat_activity_into_calendar]) and the per-cell text loop of
    [draw_calendar_pdf].

    Text.  A Python [str] is a sequence of code points, modelled as a list of
    [N].  Whitespace ([str.strip], [\s]) is Python's full whitespace set.  The
    case mapping ([str.lower], [str.isupper]) is given on the ASCII range,
    where it follows Python; code points above 127 are treated as uncased.
    [clean_text] removes every code point above 127, so the titles of fixed
    and activity events, staff names and rendered lines are ASCII when they
    reach those functions.

    Digits.  What [\d], [str.isdigit] and [int] take for a digit depends on
    the Unicode database of the interpreter.  Modules [PyStr], [TimeNorm] and
    [Core] give the time normalizer, the sort key and the frequency with the
    ASCII digits only.  Module [Uni] gives them over the tables of a
    [runtime], for the digits of every script and with the [ValueError] of
    [int]; on ASCII text the two agree ([normalize_time_on_ascii],
    [sort_key_on_ascii], [frequency_on_ascii]).

    Outside world.  The list returned by [fetch_uk_bank_holidays] (a network
    call) is an argument of the builder; [textwrap.wrap] is a parameter of
    the cell loop. *)

From Stdlib Require Import ZArith NArith List Bool Lia String Ascii.
From Stdlib Require Import Permutation Sorted Finite.
Import ListNotations.

Open Scope N_scope.
Open Scope list_scope.

(* ================================================================= *)
(** ** Python text *)

Module PyStr.

Definition char := N.
Definition str := list char.

(** A string literal of the source. *)
Definition lit (s : string) : str :=
  map N_of_ascii (list_ascii_of_string s).

Definition str_eqb (a b : str) : bool :=
  if list_eq_dec N.eq_dec a b then true else false.

(** Option-valued strings ([None] of Python), compared with [==]. *)
Definition opt_str_eqb (a b : option str) : bool :=
  match a, b with
  | None, None => true
  | Some x, Some y => str_eqb x y
  | _, _ => false
  end.

(** [str.isspace] on one code point: the whitespace set of CPython. *)
Definition isspace (c : char) : bool :=
  ((9 <=? c) && (c <=? 13)) || ((28 <=? c) && (c <=? 32))
  || (c =? 133) || (c =? 160) || (c =? 5760)
  || ((8192 <=? c) && (c <=? 8202))
  || (c =? 8232) || (c =? 8233) || (c =? 8239) || (c =? 8287) || (c =? 12288).

(** The ASCII digits 0 to 9: what [\d], [str.isdigit] and [int] take for a
    digit among the characters of the ASCII range.  [runtime] and module
    [Uni] below have the digits of every script. *)
Definition isdigit (c : char) : bool := (48 <=? c) && (c <=? 57).

Definition isupper_char (c : char) : bool := (65 <=? c) && (c <=? 90).
Definition islower_char (c : char) : bool := (97 <=? c) && (c <=? 122).

Definition lower_char (c : char) : char :=
  if isupper_char c then c + 32 else c.

(** [s.lower()] *)
Definition lower (s : str) : str := map lower_char s.

(** [s.lstrip()] *)
Fixpoint lstrip (s : str) : str :=
  match s with
  | [] => []
  | c :: r => if isspace c then lstrip r else s
  end.

(** [s.rstrip()]: a character is kept when it is not whitespace or when
    something is kept after it. *)
Fixpoint rstrip (s : str) : str :=
  match s with
  | [] => []
  | c :: r =>
      match rstrip r with
      | [] => if isspace c then [] else [c]
      | r' => c :: r'
      end
  end.

(** [s.strip()] *)
Definition strip (s : str) : str := rstrip (lstrip s).

(** [s.replace(a, b)] for one-character [a] and [b]. *)
Definition replace_char (a b : char) (s : str) : str :=
  map (fun c => if c =? a then b else c) s.

(** [s.replace(a, empty)] for a one-character [a]: every [a] goes. *)
Definition remove_char (a : char) (s : str) : str :=
  filter (fun c => negb (c =? a)) s.

(** [s.split(sep)] for a one-character separator: always at least one field. *)
Fixpoint split (sep : char) (s : str) : list str :=
  match s with
  | [] => [[]]
  | c :: r =>
      if c =? sep then [] :: split sep r
      else match split sep r with
           | f :: fs => (c :: f) :: fs
           | [] => [[c]]
           end
  end.

(** [s.startswith(p)] *)
Fixpoint startswith (p s : str) : bool :=
  match p, s with
  | [], _ => true
  | a :: p', b :: s' => (a =? b) && startswith p' s'
  | _ :: _, [] => false
  end.

(** [s.isdigit()] on a text of ASCII characters: non-empty and every
    character a digit. *)
Definition str_isdigit (s : str) : bool :=
  match s with
  | [] => false
  | _ => forallb isdigit s
  end.

(** [s.isupper()]: at least one cased character and no lowercase one. *)
Definition str_isupper (s : str) : bool :=
  existsb isupper_char s && negb (existsb islower_char s).

(** [s.zfill(width)]: zeros go after a leading sign. *)
Definition zfill (width : nat) (s : str) : str :=
  let pad := repeat 48 (width - List.length s) in
  match s with
  | c :: r => if (c =? 43) || (c =? 45) then c :: pad ++ r else pad ++ s
  | [] => pad
  end.

(** The value of a run of decimal digits, most significant first. *)
Definition digits_value (s : str) : Z :=
  fold_left (fun acc c => (10 * acc + Z.of_N (c - 48))%Z) s 0%Z.

(** Digits of an [int] literal: underscores may separate digits, one at a
    time, never first nor last.  [prev] tells whether the previous character
    was a digit. *)
Fixpoint int_digits (prev : bool) (s : str) (acc : Z) : option Z :=
  match s with
  | [] => if prev then Some acc else None
  | c :: r =>
      if isdigit c then int_digits true r (10 * acc + Z.of_N (c - 48))%Z
      else if (c =? 95) && prev then
             match r with
             | d :: _ => if isdigit d then int_digits false r acc else None
             | [] => None
             end
           else None
  end.

(** The whitespace that [int] skips around a literal: the whitespace set
    without the four separators U+001C to U+001F. *)
Definition int_space (c : char) : bool :=
  isspace c && negb ((28 <=? c) && (c <=? 31)).

Fixpoint int_lstrip (s : str) : str :=
  match s with
  | [] => []
  | c :: r => if int_space c then int_lstrip r else s
  end.

Fixpoint int_rstrip (s : str) : str :=
  match s with
  | [] => []
  | c :: r =>
      match int_rstrip r with
      | [] => if int_space c then [] else [c]
      | r' => c :: r'
      end
  end.

(** [int(s)] in base ten on a text whose digits are ASCII digits; [None]
    stands for [ValueError].  [Uni.py_int] below reads the digits of every
    script. *)
Definition py_int (s : str) : option Z :=
  match int_rstrip (int_lstrip s) with
  | [] => None
  | c :: r =>
      if c =? 45 then option_map Z.opp (int_digits false r 0%Z)
      else if c =? 43 then int_digits false r 0%Z
      else int_digits false (c :: r) 0%Z
  end.

End PyStr.

Import PyStr.

(* ================================================================= *)
(** ** The time normalizer *)

Module TimeNorm.

(** [$] without MULTILINE: the end of the text, or just before a final
    newline. *)
Definition at_end (s : str) : bool :=
  match s with
  | [] => true
  | [c] => c =? 10
  | _ => false
  end.

(** [(\d{2})] followed by [$]. *)
Definition match_minute (s : str) : option str :=
  match s with
  | a :: b :: rest =>
      if isdigit a && isdigit b && at_end rest then Some [a; b] else None
  | _ => None
  end.

(** [(?::?(\d{2}))?$] as the backtracking matcher tries it: the group with
    its colon, the group without the colon, then no group at all.  The result
    is the second capture. *)
Definition match_tail (s : str) : option (option str) :=
  match (match s with
         | c :: r => if c =? 58 then match_minute r else None
         | [] => None
         end) with
  | Some m => Some (Some m)
  | None =>
      match match_minute s with
      | Some m => Some (Some m)
      | None => if at_end s then Some None else None
      end
  end.

(** [time_pattern.match(s)] for [^(\d{1,2})(?::?(\d{2}))?$]: the greedy hour
    takes two digits first and falls back to one.  The result is
    [match.groups()]. *)
Definition time_pattern_match (s : str) : option (str * option str) :=
  match (match s with
         | a :: b :: r =>
             if isdigit a && isdigit b
             then option_map (pair [a; b]) (match_tail r) else None
         | _ => None
         end) with
  | Some g => Some g
  | None =>
      match s with
      | a :: r =>
          if isdigit a then option_map (pair [a]) (match_tail r) else None
      | [] => None
      end
  end.

(** [t.strip().lower()], then every dot becomes a colon and every space is
    removed (the two [replace] calls). *)
Definition clean_time (t : str) : str :=
  remove_char 32 (replace_char 46 58 (lower (strip t))).

(** [normalize_time] with [\d] restricted to the ASCII digits; the argument
    is [None] when the value is [None] or not a [str].  On a text of ASCII
    characters this is [normalize_time]; [Uni.normalize_time] below is
    [normalize_time] on every text. *)
Definition normalize_time (t : option str) : option str :=
  match t with
  | None => None
  | Some [] => None
  | Some t =>
      match time_pattern_match (clean_time t) with
      | Some (hour, minute) =>
          Some (zfill 2 hour ++ [58]
                  ++ match minute with Some m => m | None => lit "00" end)
      | None => None
      end
  end.

End TimeNorm.

Import TimeNorm.

(* ================================================================= *)
(** ** Dates: [datetime.date] and [calendar] *)

Module Cal.

Local Open Scope Z_scope.

Record date := mkdate { year : Z; month : Z; day : Z }.

Definition date_eqb (a b : date) : bool :=
  (year a =? year b) && (month a =? month b) && (day a =? day b).

(** Dates compare as the tuples (year, month, day). *)
Definition date_leb (a b : date) : bool :=
  (year a <? year b)
  || ((year a =? year b)
      && ((month a <? month b)
          || ((month a =? month b) && (day a <=? day b)))).

(** [calendar.isleap] *)
Definition isleap (y : Z) : bool :=
  (y mod 4 =? 0) && (negb (y mod 100 =? 0) || (y mod 400 =? 0)).

(** [calendar.mdays] *)
Definition mdays : list Z := [0; 31; 28; 31; 30; 31; 30; 31; 31; 30; 31; 30; 31].

(** [calendar.monthrange(year, month)[1]], for a month in 1..12. *)
Definition days_in_month (y m : Z) : Z :=
  nth (Z.to_nat m) mdays 0 + (if (m =? 2) && isleap y then 1 else 0).

(** [date.toordinal]: day 1 is 1 January of year 1. *)
Definition days_before_year (y : Z) : Z :=
  let y1 := y - 1 in y1 * 365 + y1 / 4 - y1 / 100 + y1 / 400.

Definition days_before_month (y m : Z) : Z :=
  nth (Z.to_nat m) [-1; 0; 31; 59; 90; 120; 151; 181; 212; 243; 273; 304; 334] 0
  + (if (2 <? m) && isleap y then 1 else 0).

Definition toordinal (d : date) : Z :=
  days_before_year (year d) + days_before_month (year d) (month d) + day d.

(** [date.weekday]: Monday is 0. *)
Definition weekday (d : date) : Z := (toordinal d + 6) mod 7.

(** [calendar.day_name[i]] in the English locale. *)
Definition day_name (i : Z) : str :=
  nth (Z.to_nat i)
      [lit "Monday"; lit "Tuesday"; lit "Wednesday"; lit "Thursday";
       lit "Friday"; lit "Saturday"; lit "Sunday"] [].

(** The day after [d]. *)
Definition next_day (d : date) : date :=
  if day d <? days_in_month (year d) (month d)
  then mkdate (year d) (month d) (day d + 1)
  else if month d <? 12 then mkdate (year d) (month d + 1) 1
       else mkdate (year d + 1) 1 1.

(** [d + dt.timedelta(days=i)] for a non-negative [i]. *)
Fixpoint add_days (d : date) (i : nat) : date :=
  match i with
  | O => d
  | S j => next_day (add_days d j)
  end.

(** [dt.date(year, month, 1)] raises [ValueError] outside these ranges. *)
Definition valid_year_month (y m : Z) : bool :=
  (1 <=? y) && (y <=? 9999) && (1 <=? m) && (m <=? 12).

(** [month_date_range]; [None] stands for the exception on an invalid year
    or month. *)
Definition month_date_range (y m : Z) : option (date * date) :=
  if valid_year_month y m
  then Some (mkdate y m 1, mkdate y m (days_in_month y m))
  else None.

End Cal.

Import Cal.

(* ================================================================= *)
(** ** [clean_text] *)

Module Text.

(** [s.replace(bad, good)] for a one-character [bad]. *)
Definition replace1 (bad : char) (good : str) (s : str) : str :=
  flat_map (fun c => if c =? bad then good else [c]) s.

(** The [replacements] table, in the order of the dict. *)
Definition replacements : list (char * str) :=
  [ (8211, lit "-"); (8212, lit "-");
    (8216, lit "'"); (8217, lit "'");
    (8220, [34]); (8221, [34]);
    (8230, lit "..."); (160, lit " ") ].

(** [clean_text] on a [str]: the replacements one after the other, the
    removal of every run of non-ASCII characters, then [strip]. *)
Definition clean_text (s : str) : str :=
  let s1 := fold_left (fun acc br => replace1 (fst br) (snd br) acc)
                      replacements s in
  strip (filter (fun c => c <=? 127) s1).

End Text.

Import Text.

(* ================================================================= *)
(** ** The day map and its events *)

Module Core.

(** The ["notes"] field: the four literals the builder writes. *)
Inductive notes := Holiday | StaffShift | Fixed | Activity.

Definition notes_text (n : notes) : str :=
  match n with
  | Holiday => lit "Holiday"
  | StaffShift => lit "staff shift"
  | Fixed => lit "fixed"
  | Activity => lit "activity"
  end.

(** An entry of a day's list: [{"time", "title", "notes"}]. *)
Record event := mkevent
  { ev_time : option str; ev_title : str; ev_notes : notes }.

(** An entry of [fixed_rules] or [activities]:
    [{"date", "time", "title", "notes"}]. *)
Record dated := mkdated
  { d_date : date; d_time : option str; d_title : str; d_notes : notes }.

(** The dict [daymap], in insertion order. *)
Definition daymap := list (date * list event).

Definition keys (dm : daymap) : list date := map fst dm.

(** [d in daymap] *)
Definition mem (d : date) (dm : daymap) : bool :=
  existsb (date_eqb d) (keys dm).

(** [daymap[d]] for a key of the map (the empty list stands for a missing
    key, which no caller looks up). *)
Fixpoint get (d : date) (dm : daymap) : list event :=
  match dm with
  | [] => []
  | (k, evs) :: r => if date_eqb d k then evs else get d r
  end.

(** [daymap[d].append(e)] for a key of the map. *)
Fixpoint append_to (d : date) (e : event) (dm : daymap) : daymap :=
  match dm with
  | [] => []
  | (k, evs) :: r =>
      if date_eqb d k then (k, evs ++ [e]) :: r
      else (k, evs) :: append_to d e r
  end.

(** [{first + dt.timedelta(days=i): [] for i in range((last - first).days + 1)}] *)
Definition empty_daymap (first last : date) : daymap :=
  map (fun i => (add_days first i, @nil event))
      (seq 0 (Z.to_nat (toordinal last - toordinal first + 1))).

(* ----------------------------------------------------------------- *)
(** *** 1. Holidays *)

(** An entry of a holiday list: [{"date", "title", "notes": "Holiday"}]. *)
Record holiday := mkholiday { h_date : date; h_title : str }.

(** [fetch_awareness_days] *)
Definition fetch_awareness_days (y m : Z) : list holiday :=
  let static_list :=
    [ mkholiday (mkdate y 11 1) (lit "World Vegan Day");
      mkholiday (mkdate y 11 1) (lit "All Saints' Day");
      mkholiday (mkdate y 11 2) (lit "All Souls" ++ [8217] ++ lit " Day");
      mkholiday (mkdate y 11 5) (lit "Bonfire Night (UK)");
      mkholiday (mkdate y 11 11) (lit "Remembrance Day (UK)");
      mkholiday (mkdate y 11 13) (lit "World Kindness Day");
      mkholiday (mkdate y 11 14) (lit "World Diabetes Day");
      mkholiday (mkdate y 11 16) (lit "International Day for Tolerance");
      mkholiday (mkdate y 11 19) (lit "International Men" ++ [8217] ++ lit "s Day");
      mkholiday (mkdate y 11 20) (lit "Universal Children" ++ [8217] ++ lit "s Day");
      mkholiday (mkdate y 11 25)
        (lit "International Day for the Elimination of Violence Against Women");
      mkholiday (mkdate y 11 30)
        (lit "St Andrew" ++ [8217] ++ lit "s Day (Scotland)") ] in
  filter (fun ev => (year (h_date ev) =? y)%Z && (month (h_date ev) =? m)%Z)
         static_list.

(** One turn of the holiday loop; the state is [seen_holidays] and the map. *)
Definition holiday_step (st : list (date * str) * daymap) (ev : holiday)
  : list (date * str) * daymap :=
  let '(seen, dm) := st in
  let d := h_date ev in
  let title_norm := lower (strip (clean_text (h_title ev))) in
  if existsb (fun p => date_eqb (fst p) d && str_eqb (snd p) title_norm) seen
  then (seen, dm)
  else
    let seen' := (d, title_norm) :: seen in
    if mem d dm
    then (seen', append_to d (mkevent None (h_title ev) Holiday) dm)
    else (seen', dm).

(** The holiday stage.  [bank] is what [fetch_uk_bank_holidays(year, month)]
    returned (a network call). *)
Definition add_holidays (bank : list holiday) (y m : Z) (dm : daymap) : daymap :=
  snd (fold_left holiday_step (bank ++ fetch_awareness_days y m) ([], dm)).

(* ----------------------------------------------------------------- *)
(** *** 2. Staff shifts *)

(** A row of the rota: [r_date] is [pd.to_datetime(r.get("date")).date()],
    or [None] when that raises; the other fields are the [str(...)] of the
    cells. *)
Record rota_row := mkrota
  { r_date : option date; r_staff : str; r_shift_start : str; r_shift_end : str }.

(** [s] without its longest suffix of characters satisfying [p]. *)
Definition rdrop (p : char -> bool) (s : str) : str :=
  rev (let fix go (l : str) : str :=
         match l with
         | [] => []
         | c :: r => if p c then go r else l
         end in go (rev s)).

(** [re.sub] of [\s*\d+$] by the empty text, on stripped text: a final run
    of digits goes, with the whitespace before it. *)
Definition drop_numeric_suffix (staff : str) : str :=
  let t := rdrop isdigit staff in
  if (List.length t =? List.length staff)%nat then staff else rdrop isspace t.

Definition shift_title (r : rota_row) : str :=
  let staff := drop_numeric_suffix (clean_text (r_staff r)) in
  let start := strip (r_shift_start r) in
  let end_ := strip (r_shift_end r) in
  let shift_time :=
    match start, end_ with
    | _ :: _, _ :: _ => lit "(" ++ start ++ [32; 8211; 32] ++ end_ ++ lit ")"
    | _, _ => []
    end in
  strip (staff ++ [32] ++ shift_time).

Definition shift_step (dm : daymap) (r : rota_row) : daymap :=
  match r_date r with
  | None => dm
  | Some d =>
      if mem d dm then
        match shift_title r with
        | [] => dm
        | display => append_to d (mkevent None display StaffShift) dm
        end
      else dm
  end.

Definition add_shifts (rota_df : option (list rota_row)) (dm : daymap) : daymap :=
  match rota_df with
  | None => dm
  | Some rows => fold_left shift_step rows dm
  end.

(* ----------------------------------------------------------------- *)
(** *** 3. Fixed weekly rules *)

(** A rule: [{"weekday", "time", "title"}]; [rule_time] is [None] when the
    key is absent or its value is not a [str]. *)
Record rule := mkrule
  { rule_weekday : Z; rule_time : option str; rule_title : str }.

Definition fixed_rules_of (rules : list rule) (dm : daymap) : list dated :=
  flat_map (fun rl =>
    flat_map (fun d =>
      if (weekday d =? rule_weekday rl)%Z
      then [mkdated d (rule_time rl) (clean_text (rule_title rl)) Fixed]
      else []) (keys dm)) rules.

(* ----------------------------------------------------------------- *)
(** *** 4. Regular activities *)

(** A row of the activities table: [a_name] is
    [r.get("name")], else [r.get("activity_name")], else the empty text (the
    [or] chain of the source); the other fields are the
    [str(...)] of the cells. *)
Record activity_row := mkactivity
  { a_name : str; a_preferred_days : str;
    a_preferred_time : str; a_frequency : str }.

(** [[p.strip()[:3].lower() for p in pref_days if p.strip()]] over
    [str(...).split(";")] *)
Definition pref_days_of (r : activity_row) : list str :=
  map (fun p => lower (firstn 3 (strip p)))
      (filter (fun p => match strip p with [] => false | _ => true end)
              (split 59 (a_preferred_days r))).

(** [int(...) if str(...).isdigit() else 0] on a cell of ASCII characters
    within the length [int] reads: the [int] of a digit string is its
    decimal value.  [Uni.frequency_of] below is the expression on every
    cell, with the [ValueError] of [int]. *)
Definition frequency_of (r : activity_row) : nat :=
  if str_isdigit (a_frequency r)
  then Z.to_nat (digits_value (a_frequency r))
  else 0%nat.

(** [calendar.day_name[d.weekday()][:3].lower()] *)
Definition dow3 (d : date) : str := lower (firstn 3 (day_name (weekday d))).

(** [dow3 in pref_days] *)
Definition day_matches (prefs : list str) (d : date) : bool :=
  existsb (str_eqb (dow3 d)) prefs.

Definition activity_event (r : activity_row) (d : date) : dated :=
  mkdated d (Some (strip (a_preferred_time r))) (clean_text (a_name r)) Activity.

(** The placement loop of one row over the dates it visits; [placed] is the
    counter, and leaving the recursion is the [break]. *)
Fixpoint place_from (r : activity_row) (freq placed : nat) (ds : list date)
  : list dated :=
  match ds with
  | [] => []
  | d :: rest =>
      if negb (freq =? 0)%nat && (freq <=? placed)%nat then []
      else if day_matches (pref_days_of r) d
           then activity_event r d :: place_from r freq (S placed) rest
           else place_from r freq placed rest
  end.

(** [sorted(...)] on dates: a stable insertion sort. *)
Fixpoint insert_date (d : date) (l : list date) : list date :=
  match l with
  | [] => [d]
  | x :: r => if date_leb d x then d :: l else x :: insert_date d r
  end.

Definition sorted_dates (l : list date) : list date :=
  fold_right insert_date [] l.

Definition place_activity (r : activity_row) (dm : daymap) : list dated :=
  place_from r (frequency_of r) 0 (sorted_dates (keys dm)).

Definition activities_of (activities_df : option (list activity_row))
  (dm : daymap) : list dated :=
  match activities_df with
  | None => []
  | Some rows => flat_map (fun r => place_activity r dm) rows
  end.

(* ----------------------------------------------------------------- *)
(** *** 5. Merge, normalize times, deduplicate, sort *)

(** [ev["time"] = normalize_time(ev.get("time"))] *)
Definition normalize_event (ev : dated) : dated :=
  mkdated (d_date ev) (normalize_time (d_time ev)) (d_title ev) (d_notes ev).

(** Truth value of a time: [None] and the empty string are false. *)
Definition truthy (t : option str) : bool :=
  match t with
  | Some (_ :: _) => true
  | _ => false
  end.

(** [e["title"].lower().strip()] *)
Definition title_key (t : str) : str := strip (lower t).

(** [e.get("time") and len(e.get("time")) == 5] *)
Definition proper_time (t : option str) : bool :=
  truthy t && match t with
              | Some s => (List.length s =? 5)%nat
              | None => false
              end.

(** One turn of the merge loop. *)
Definition seat_event (dm : daymap) (ev : dated) : daymap :=
  let d := d_date ev in
  if negb (mem d dm) then dm
  else
    let title_norm := title_key (d_title ev) in
    let time_norm := d_time ev in
    let duplicates :=
      filter (fun e => str_eqb (title_key (ev_title e)) title_norm) (get d dm) in
    let has_exact := existsb (fun e => opt_str_eqb (ev_time e) time_norm) duplicates in
    let has_proper := existsb (fun e => proper_time (ev_time e)) duplicates in
    let skip :=
      match duplicates with
      | [] => false
      | _ => has_exact || (has_proper && negb (truthy time_norm))
      end in
    if skip then dm
    else append_to d (mkevent time_norm (d_title ev) (d_notes ev)) dm.

(** A clock time [dt.time(h, m)], compared as the pair (hour, minute). *)
Definition clock := (Z * Z)%type.

Definition end_of_day : clock := (23, 59)%Z.

(** The [try] block of [sort_key]: [h, m = map(int, t.split(":"))] then
    [dt.time(h, m)]; [None] stands for any exception. *)
Definition parse_clock (t : str) : option clock :=
  match split 58 t with
  | [a; b] =>
      match py_int a, py_int b with
      | Some h, Some m =>
          if ((0 <=? h) && (h <=? 23) && (0 <=? m) && (m <=? 59))%Z
          then Some (h, m) else None
      | _, _ => None
      end
  | _ => None
  end.

(** [sort_key] *)
Definition sort_key (e : event) : clock :=
  if negb (truthy (ev_time e)) then end_of_day
  else match ev_time e with
       | Some t =>
           match parse_clock t with
           | Some c => c
           | None => end_of_day
           end
       | None => end_of_day
       end.

(** [0 if e["notes"] == "Holiday" else 1 if e["notes"] == "staff shift" else 2] *)
Definition category_priority (e : event) : Z :=
  match ev_notes e with
  | Holiday => 0
  | StaffShift => 1
  | _ => 2
  end%Z.

(** The key of the per-day sort. *)
Definition key_of (e : event) : Z * clock := (category_priority e, sort_key e).

(** [<] on the key tuples. *)
Definition key_ltb (a b : Z * clock) : bool :=
  let '(p1, (h1, m1)) := a in
  let '(p2, (h2, m2)) := b in
  ((p1 <? p2) || ((p1 =? p2) && ((h1 <? h2) || ((h1 =? h2) && (m1 <? m2)))))%Z.

(** [list.sort(key=...)]: a stable sort, here by insertion.  An element goes
    before the first one that is not smaller than it. *)
Fixpoint insert_event (x : event) (l : list event) : list event :=
  match l with
  | [] => [x]
  | y :: r =>
      if key_ltb (key_of y) (key_of x) then y :: insert_event x r
      else x :: l
  end.

Definition py_sort (l : list event) : list event :=
  fold_right insert_event [] l.

Definition sort_days (dm : daymap) : daymap :=
  map (fun kv => (fst kv, py_sort (snd kv))) dm.

(** The map before the final sort. *)
Definition merged_daymap (bank : list holiday) (y m : Z)
  (activities_df : option (list activity_row))
  (rota_df : option (list rota_row)) (rules : list rule)
  (include_holidays : bool) (first last : date) : daymap :=
  let dm0 := empty_daymap first last in
  let dm1 := if include_holidays then add_holidays bank y m dm0 else dm0 in
  let dm2 := add_shifts rota_df dm1 in
  let fixed_rules := fixed_rules_of rules dm2 in
  let activities := activities_of activities_df dm2 in
  let all_events := map normalize_event (fixed_rules ++ activities) in
  fold_left seat_event all_events dm2.

(** [seat_activity_into_calendar]; [None] stands for the exception of
    [month_date_range]. *)
Definition seat_activity_into_calendar (bank : list holiday) (y m : Z)
  (activities_df : option (list activity_row))
  (rota_df : option (list rota_row)) (rules : list rule)
  (include_holidays : bool) : option daymap :=
  match month_date_range y m with
  | None => None
  | Some (first, last) =>
      Some (sort_days (merged_daymap bank y m activities_df rota_df rules
                                     include_holidays first last))
  end.

End Core.

Import Core.

(** A run of one or two digits. *)
Definition hour_digits (h : str) : Prop :=
  (List.length h = 1 \/ List.length h = 2)%nat /\ forallb isdigit h = true.

(** A run of exactly two digits. *)
Definition minute_digits (m : str) : Prop :=
  List.length m = 2%nat /\ forallb isdigit m = true.

(** The texts of the shape [^(\d{1,2})(?::?(\d{2}))?] with their two
    captures: an hour alone, an hour and a minute with a colon between them,
    or an hour and a minute with nothing between them. *)
Inductive time_shape : str -> str -> option str -> Prop :=
| shape_hour h :
    hour_digits h -> time_shape h h None
| shape_colon h m :
    hour_digits h -> minute_digits m -> time_shape (h ++ [58] ++ m) h (Some m)
| shape_joined h m :
    hour_digits h -> minute_digits m -> time_shape (h ++ m) h (Some m).

(** The canonical text built from the two captures. *)
Definition canonical (hour : str) (minute : option str) : str :=
  zfill 2 hour ++ [58] ++ match minute with Some m => m | None => lit "00" end.

(** A stripped text is empty or ends with a character that is not
    whitespace. *)
Definition ends_solid (s : str) : Prop :=
  s = [] \/ exists p c, s = p ++ [c] /\ isspace c = false.

(** The time normalizer as the specification words it: the text is stripped,
    lowercased and its dots become colons; it is accepted when it is a one-
    or two-digit hour, alone or followed by a colon and a two-digit minute. *)
Definition spec_clean (t : str) : str :=
  replace_char 46 58 (lower (strip t)).

Definition spec_shape (s : str) : option (str * option str) :=
  match s with
  | [a] => if isdigit a then Some ([a], None) else None
  | [a; b] => if isdigit a && isdigit b then Some ([a; b], None) else None
  | [a; c; m1; m2] =>
      if isdigit a && (c =? 58) && isdigit m1 && isdigit m2
      then Some ([a], Some [m1; m2]) else None
  | [a; b; c; m1; m2] =>
      if isdigit a && isdigit b && (c =? 58) && isdigit m1 && isdigit m2
      then Some ([a; b], Some [m1; m2]) else None
  | _ => None
  end.

Definition spec_normalize_time (t : str) : option str :=
  match spec_shape (spec_clean t) with
  | Some (hour, minute) => Some (canonical hour minute)
  | None => None
  end.

(** The dates of a month, from day 1 to its last day. *)
Definition month_dates (y m : Z) : list date :=
  map (fun i => mkdate y m (Z.of_nat i + 1))
      (seq 0 (Z.to_nat (days_in_month y m))).

(** A plain non-negative digit string: not empty, ASCII digits only. *)
Definition plain_digit_string (s : str) : Prop :=
  s <> [] /\ Forall (fun c => 48 <= c <= 57) s.


(** [<=] on the keys of the per-day sort. *)
Definition key_le (a b : event) : Prop := key_ltb (key_of b) (key_of a) = false.

Definition key_eqb (a b : Z * clock) : bool :=
  negb (key_ltb a b) && negb (key_ltb b a).


(* ================================================================= *)
(** ** The text loop of a day cell in [draw_calendar_pdf] *)

Module Render.

Local Open Scope Z_scope.

(** Lengths are in tenths of a millimetre, exactly; the source computes them
    in points as floats.  The comparisons of the cell loop are between values
    that differ by more than a millimetre, so rounding does not change
    them. *)
Definition page_height : Z := 2970.
Definition top : Z := 370.
Definition bottom : Z := 10.
Definition rows : Z := 5.
Definition bar_y : Z := page_height - top + 60.
Definition bar_gap : Z := 15.
Definition top_of_grid : Z := bar_y - bar_gap.
Definition grid_h : Z := top_of_grid - bottom.
Definition row_h : Z := grid_h / rows.
Definition line_spacing : Z := 40.

(** What the loop puts on the canvas; [y] is the baseline, measured from the
    lower edge of the cell ([text_y - y] of the source). *)
Inductive draw_op :=
| DrawHoliday (y : Z) (text : str)
| DrawStaff (y : Z) (text : str)
| DrawTimed (y : Z) (time_part rest : str)
| DrawPlain (y : Z) (text : str).

Definition op_y (o : draw_op) : Z :=
  match o with
  | DrawHoliday y _ | DrawStaff y _ | DrawTimed y _ _ | DrawPlain y _ => y
  end.

(** The cursor [text_y] (from the lower edge of the cell) and the
    operations so far. *)
Definition state := (Z * list draw_op)%type.

(** [re.match] of the time pattern of the cell loop on [subline].  The
    first capture is [\d{1,2}:\d{2}\s?(?:am|pm|AM|PM)?]; after one more
    optional whitespace character the second capture is the rest of the
    line.  The result is the two captures. *)
Definition time_match (s : str) : option (str * str) :=
  let after_clock (clock : str) (r : str) : option (str * str) :=
    let '(sp, r1) := match r with
                     | c :: r' => if isspace c then ([c], r') else ([], r)
                     | [] => ([], r)
                     end in
    let '(ap, r2) := match r1 with
                     | a :: b :: r' =>
                         if existsb (str_eqb [a; b])
                              [lit "am"; lit "pm"; lit "AM"; lit "PM"]
                         then ([a; b], r') else ([], r1)
                     | _ => ([], r1)
                     end in
    let r3 := match r2 with
              | c :: r' => if isspace c then r' else r2
              | [] => r2
              end in
    let fix dot_star (l : str) : str :=
      match l with
      | [] => []
      | c :: r' => if (c =? 10)%N then [] else c :: dot_star r'
      end in
    Some (clock ++ sp ++ ap, dot_star r3) in
  match s with
  | a :: b :: c :: d :: e :: r =>
      if isdigit a && isdigit b && (c =? 58)%N && isdigit d && isdigit e
      then after_clock [a; b; c; d; e] r
      else if isdigit a && (b =? 58)%N && isdigit c && isdigit d
           then after_clock [a; b; c; d] (e :: r)
           else None
  | [a; b; c; d] =>
      if isdigit a && (b =? 58)%N && isdigit c && isdigit d
      then after_clock [a; b; c; d] []
      else None
  | _ => None
  end.

Section Cell.

(** [textwrap.wrap(text, width=w)], a function of the standard library. *)
Variable wrap : nat -> str -> list str.

(** One turn of the loop over [wrapped_holiday]. *)
Definition draw_holiday (st : state) (wh0 : str) : state :=
  match strip wh0 with
  | [] => st
  | wh => (fst st - line_spacing, snd st ++ [DrawHoliday (fst st) wh])
  end.

(** The loop over [wrapped_lines]; returning without the recursive call is
    the [break]. *)
Fixpoint draw_sublines (subs : list str) (st : state) : state :=
  match subs with
  | [] => st
  | sub0 :: rest =>
      match strip sub0 with
      | [] => draw_sublines rest st
      | subline =>
          if str_isupper subline then
            draw_sublines rest (fold_left draw_holiday (wrap 28 subline) st)
          else if startswith (lit "staff:") (lower subline) then
            draw_sublines rest
              (fst st - line_spacing, snd st ++ [DrawStaff (fst st) subline])
          else
            let op := match time_match subline with
                      | Some (time_part, rest_text) =>
                          DrawTimed (fst st) time_part rest_text
                      | None => DrawPlain (fst st) subline
                      end in
            let text_y := fst st - line_spacing in
            if text_y <? 40 then (text_y, snd st ++ [op])
            else draw_sublines rest (text_y, snd st ++ [op])
      end
  end.

(** One turn of the loop over [lines]. *)
Definition draw_line (st : state) (line0 : str) : state :=
  match strip (clean_text line0) with
  | [] => st
  | line => draw_sublines (wrap 31 line) st
  end.

(** The text of one cell of height [h]: the cursor starts 6 mm under the
    upper edge. *)
Definition draw_cell (h : Z) (text : str) : list draw_op :=
  snd (fold_left draw_line (split 10%N text) (h - 60, [])).

End Cell.

(** [textwrap.wrap] on a text that is a single word no longer than the
    width: the word itself. *)
Definition wrap_word (width : nat) (s : str) : list str :=
  match s with
  | [] => []
  | _ => [s]
  end.

(** A cell text of [n] lines, each the one-letter word [c]. *)
Definition letter_lines (c : char) (n : nat) : str :=
  match n with
  | O => []
  | S k => c :: List.concat (repeat [10%N; c] k)
  end.

End Render.

(* ================================================================= *)
(** ** Inputs of the worked examples *)


Definition coffee_row : activity_row :=
  mkactivity (lit "Coffee & Chat") (lit "Mon;Wed;Fri;Sun") (lit "11:00") (lit "12").

(** A Thursday with a Film Night activity at 18:00. *)
Definition film_day : date := mkdate 2025 11 6.

Definition film_map : daymap :=
  [(film_day, [mkevent (Some (lit "18:00")) (lit "Film Night") Activity])].


(** November 2025, with nothing on any day. *)
Definition november_2025 : daymap :=
  empty_daymap (mkdate 2025 11 1) (mkdate 2025 11 30).

(** Two entries of the shift stage: the times are joined by the dash
    U+2013 that the stage writes. *)
Definition lucy_shift : event :=
  mkevent None (lit "LUCY (09:00 " ++ [8211] ++ lit " 16:30)") StaffShift.

Definition elizabeth_shift : event :=
  mkevent None (lit "Elizabeth (09:00 " ++ [8211] ++ lit " 16:30)") StaffShift.

(** December 2025, with nothing on any day, and a bank-holiday list that
    names Christmas Day twice. *)
Definition december_2025 : daymap :=
  empty_daymap (mkdate 2025 12 1) (mkdate 2025 12 31).

Definition festive_bank : list holiday :=
  [ mkholiday (mkdate 2025 12 25) (lit "Christmas Day");
    mkholiday (mkdate 2025 12 26) (lit "Boxing Day");
    mkholiday (mkdate 2025 12 25) (lit "CHRISTMAS DAY ") ].

(** A row whose frequency cell reads -3. *)
Definition minus_three_row : activity_row :=
  mkactivity (lit "Coffee & Chat") (lit "Mon;Wed;Fri;Sun") (lit "11:00") (lit "-3").

(* ================================================================= *)
(** ** The script around the builder: the rules text and the preview text *)

Module UI.

(** [str.upper] on one code point (ASCII). *)
Definition upper_char (c : char) : char :=
  if islower_char c then c - 32 else c.

(** [s.upper()] *)
Definition upper (s : str) : str := map upper_char s.

(** The line boundaries of [str.splitlines]. *)
Definition is_linebreak (c : char) : bool :=
  ((10 <=? c) && (c <=? 13)) || ((28 <=? c) && (c <=? 30))
  || (c =? 133) || (c =? 8232) || (c =? 8233).

(** [s.splitlines()]: a carriage return followed by a line feed is one
    boundary; a final boundary opens no further line. *)
Fixpoint splitlines (s : str) : list str :=
  match s with
  | [] => []
  | c :: r =>
      if is_linebreak c then
        [] :: match r with
              | d :: r' =>
                  if (c =? 13) && (d =? 10) then splitlines r' else splitlines r
              | [] => []
              end
      else match splitlines r with
           | [] => [[c]]
           | l :: ls => (c :: l) :: ls
           end
  end.

(** [l.index(x)]; [None] stands for [ValueError]. *)
Fixpoint index_of (x : str) (l : list str) : option nat :=
  match l with
  | [] => None
  | y :: r => if str_eqb y x then Some O else option_map S (index_of x r)
  end.

Definition day_codes : list str :=
  [lit "mon"; lit "tue"; lit "wed"; lit "thu"; lit "fri"; lit "sat"; lit "sun"].

(** The body of the loop over the lines of the rules text: the rules the
    line adds, or [None] when [index] raises. *)
Definition rule_of_line (line : str) : option (list rule) :=
  match map strip (split 58 line) with
  | title_txt :: p1 :: rest =>
      let day := lower (firstn 3 p1) in
      let time := match rest with p2 :: _ => p2 | [] => [] end in
      match index_of day day_codes with
      | Some w => Some [mkrule (Z.of_nat w) (Some time) title_txt]
      | None => None
      end
  | _ => Some []
  end.

Fixpoint rules_of_lines (lines : list str) : option (list rule) :=
  match lines with
  | [] => Some []
  | l :: r =>
      match rule_of_line l with
      | None => None
      | Some a =>
          match rules_of_lines r with
          | None => None
          | Some b => Some (a ++ b)
          end
      end
  end.

(** The list [rules] built from [fixed_rules_text]. *)
Definition parse_rules (fixed_rules_text : str) : option (list rule) :=
  rules_of_lines (splitlines fixed_rules_text).

(** The line of the preview for one entry of a day.  The value of the time
    key is formatted as it is: [None] gives the word None. *)
Definition preview_line (ev : event) : str :=
  match ev_notes ev with
  | Holiday => upper (ev_title ev)
  | StaffShift => lit "Staff: " ++ ev_title ev
  | Fixed | Activity =>
      strip (match ev_time ev with Some t => t | None => lit "None" end
             ++ [32] ++ ev_title ev)
  end.

(** [sep.join(l)] *)
Fixpoint join (sep : str) (l : list str) : str :=
  match l with
  | [] => []
  | [x] => x
  | x :: r => x ++ sep ++ join sep r
  end.

(** The text stored for a day of the preview. *)
Definition preview_text (events : list event) : str :=
  join [10] (map preview_line events).

End UI.

Import UI.

(* ================================================================= *)
(** ** The grid of day cells in [draw_calendar_pdf] *)

Module Grid.

Local Open Scope Z_scope.

(** Slices of seven: [[days[i:i+7] for i in range(0, len(days), 7)]]. *)
Fixpoint chunks (fuel : nat) (l : list Z) : list (list Z) :=
  match fuel with
  | O => []
  | S f =>
      match l with
      | [] => []
      | _ => firstn 7 l :: chunks f (skipn 7 l)
      end
  end.

(** [calendar.monthcalendar(year, month)] with Monday as the first day of
    the week: zeros before day 1 and after the last day fill the weeks. *)
Definition monthcalendar (y m : Z) : list (list Z) :=
  let day1 := weekday (mkdate y m 1) in
  let ndays := days_in_month y m in
  let days :=
    repeat 0 (Z.to_nat (day1 mod 7))
    ++ map (fun i => Z.of_nat i) (seq 1 (Z.to_nat ndays))
    ++ repeat 0 (Z.to_nat ((0 - day1 - ndays) mod 7)) in
  chunks (List.length days) days.

(** [enumerate(l)] *)
Definition enumerate {A : Type} (l : list A) : list (Z * A) :=
  combine (map Z.of_nat (seq 0 (List.length l))) l.

(** The cells the two loops draw: the day with its [r_idx] and [c_idx]. *)
Definition day_cells (y m : Z) : list (Z * Z * Z) :=
  flat_map (fun rw =>
    flat_map (fun cd =>
      if snd cd =? 0 then [] else [(snd cd, fst rw, fst cd)])
      (enumerate (snd rw)))
    (enumerate (monthcalendar y m)).

(** [y = bottom + (rows - 1 - r_idx) * row_h], the lower edge of a cell, in
    tenths of a millimetre from the lower edge of the page. *)
Definition cell_y (r_idx : Z) : Z :=
  Render.bottom + (Render.rows - 1 - r_idx) * Render.row_h.

End Grid.

Import Grid.

(* ================================================================= *)
(** ** Notions used by the further properties *)

(** Two entries with the same lowercase-trimmed title and the same time. *)
Definition same_slot (a b : event) : Prop :=
  title_key (ev_title a) = title_key (ev_title b) /\ ev_time a = ev_time b.

(** Each entry of [added] differs in title or time from everything before
    it, in [prev] and in [added]. *)
Fixpoint fresh (prev added : list event) : Prop :=
  match added with
  | [] => True
  | e :: r => (forall x, In x prev -> ~ same_slot x e) /\ fresh (prev ++ [e]) r
  end.

(** The key of the holiday stage for a title. *)
Definition holiday_key (t : str) : str := lower (strip (clean_text t)).

(** An ASCII letter. *)
Definition isalpha_char (c : char) : bool := isupper_char c || islower_char c.

(** An existing entry of the candidate's day with the candidate's
    lowercase-trimmed title. *)
Definition dup_of (dm : daymap) (ev : dated) (e : event) : Prop :=
  In e (get (d_date ev) dm)
  /\ title_key (ev_title e) = title_key (d_title ev).

(** The test of the merge loop that discards a candidate. *)
Definition discards (dm : daymap) (ev : dated) : Prop :=
  (exists e, dup_of dm ev e /\ ev_time e = d_time ev)
  \/ ((exists e s, dup_of dm ev e /\ ev_time e = Some s /\ List.length s = 5%nat)
      /\ truthy (d_time ev) = false).

(** The merge loop would leave the map as it is on this candidate. *)
Definition settled (dm : daymap) (ev : dated) : Prop :=
  mem (d_date ev) dm = false \/ discards dm ev.

(** [dm'] has the keys of [dm] and, day by day, the entries of [dm] followed
    by further ones. *)
Definition extends (dm dm' : daymap) : Prop :=
  (forall d, mem d dm' = mem d dm)
  /\ forall d, exists added, get d dm' = get d dm ++ added.

(** [(d, key) in seen_holidays] *)
Definition seen_has (seen : list (date * str)) (d : date) (k : str) : bool :=
  existsb (fun p => date_eqb (fst p) d && str_eqb (snd p) k) seen.


(** An entry of the holiday stage: the holiday note and no time. *)
Definition holiday_entry (e : event) : Prop :=
  ev_notes e = Holiday /\ ev_time e = None.

(** An entry of the shift stage: the staff-shift note, no time and a title
    that is not empty. *)
Definition shift_entry (e : event) : Prop :=
  ev_notes e = StaffShift /\ ev_time e = None /\ ev_title e <> [].

(** An entry of the merge loop in the builder: a fixed or an activity
    event. *)
Definition merged_entry (e : event) : Prop :=
  ev_notes e = Fixed \/ ev_notes e = Activity.

(** The cursor and the baselines so far form the progression that starts
    6 mm under the upper edge of a cell of height [h] and goes down 4 mm a
    line. *)
Definition placed (h : Z) (st : Render.state) : Prop :=
  map Render.op_y (snd st)
  = map (fun i => (h - 60 - 40 * Z.of_nat i)%Z) (seq 0 (List.length (snd st)))
  /\ fst st = (h - 60 - 40 * Z.of_nat (List.length (snd st)))%Z.

(** A sub-line that the cell loop treats as timed or plain text. *)
Definition plain_or_timed (s : str) : Prop :=
  str_isupper (strip s) = false
  /\ startswith (lit "staff:") (lower (strip s)) = false.

(* ================================================================= *)
(** ** Digits of every script *)

(** What the interpreter contributes to [\d], [str.isdigit] and [int]: two
    tables of the Unicode database and one setting.

    - [decimal c] is the value of [c] as a decimal digit (general category
      Nd), if it is one: [\d] in a [str] pattern matches exactly these
      characters and [int] reads them by this value;
    - [digit_class c] is [str.isdigit] on the one character [c]: the decimal
      digits and the other digit characters, such as the superscripts;
    - [int_max_str_digits] is the limit on the number of digits of an [int]
      literal read from text (4300 by default where the interpreter has the
      limit, never under 640), or [None] where there is none.

    The laws are facts of every version of the database: on the ASCII range
    the digits are 0 to 9, a decimal digit is below ten and is a digit
    character, no digit character is whitespace, U+0660 to U+0669 are the
    Arabic-Indic digits zero to nine, and superscript two is a digit
    character with no decimal value. *)
Record runtime := mkruntime
  { decimal : char -> option N;
    digit_class : char -> bool;
    int_max_str_digits : option nat;
    decimal_ascii :
      forall c, c < 128 -> decimal c = if isdigit c then Some (c - 48) else None;
    decimal_below_ten : forall c v, decimal c = Some v -> v <= 9;
    decimal_not_space : forall c v, decimal c = Some v -> isspace c = false;
    digit_class_ascii : forall c, c < 128 -> digit_class c = isdigit c;
    digit_class_decimal : forall c v, decimal c = Some v -> digit_class c = true;
    digit_class_not_space : forall c, digit_class c = true -> isspace c = false;
    decimal_arabic_indic : forall i, i <= 9 -> decimal (1632 + i) = Some i;
    digit_class_superscript_two : digit_class 178 = true;
    decimal_superscript_two : decimal 178 = None;
    int_max_str_digits_floor :
      forall n, int_max_str_digits = Some n -> (640 <= n)%nat }.

(** The tables cut down to the ASCII digits, the Arabic-Indic digits and the
    superscripts two, three and one, with the default limit: enough to run
    the definitions below on texts in these characters. *)
Definition small_decimal (c : char) : option N :=
  if isdigit c then Some (c - 48)
  else if (1632 <=? c) && (c <=? 1641) then Some (c - 1632)
  else None.

Definition small_digit_class (c : char) : bool :=
  isdigit c || ((1632 <=? c) && (c <=? 1641))
  || (c =? 178) || (c =? 179) || (c =? 185).

Definition small_runtime : runtime.
Proof.
  refine (mkruntime small_decimal small_digit_class (Some 4300%nat)
                    _ _ _ _ _ _ _ _ _ _);
    unfold small_decimal, small_digit_class, isdigit, isspace.
  - abstract (intros c Hc;
      destruct ((48 <=? c) && (c <=? 57)) eqn:E; [reflexivity|];
      destruct ((1632 <=? c) && (c <=? 1641)) eqn:E2; [|reflexivity];
      apply andb_true_iff in E2; destruct E2 as [E2 _];
      apply N.leb_le in E2; lia).
  - abstract (intros c v;
      destruct ((48 <=? c) && (c <=? 57)) eqn:E;
      [ apply andb_true_iff in E; destruct E as [E1 E2];
        apply N.leb_le in E1; apply N.leb_le in E2;
        intros H; injection H as <-; lia
      | destruct ((1632 <=? c) && (c <=? 1641)) eqn:E2; [|discriminate];
        apply andb_true_iff in E2; destruct E2 as [E1 E2];
        apply N.leb_le in E1; apply N.leb_le in E2;
        intros H; injection H as <-; lia ]).
  - abstract (intros c v H;
      assert (R : (48 <= c <= 57) \/ (1632 <= c <= 1641));
      [ destruct ((48 <=? c) && (c <=? 57)) eqn:E;
        [ apply andb_true_iff in E; destruct E as [E1 E2];
          apply N.leb_le in E1; apply N.leb_le in E2; left; lia
        | destruct ((1632 <=? c) && (c <=? 1641)) eqn:E2; [|discriminate];
          apply andb_true_iff in E2; destruct E2 as [E1 E2];
          apply N.leb_le in E1; apply N.leb_le in E2; right; lia ]
      | repeat (apply orb_false_iff; split);
        try (apply N.eqb_neq; lia);
        apply andb_false_iff;
        destruct (N.le_gt_cases 9 c);
        try (right; apply N.leb_gt; lia);
        try (left; apply N.leb_gt; lia) ]).
  - abstract (intros c Hc;
      replace ((1632 <=? c) && (c <=? 1641)) with false
        by (symmetry; apply andb_false_iff; left; apply N.leb_gt; lia);
      replace (c =? 178) with false by (symmetry; apply N.eqb_neq; lia);
      replace (c =? 179) with false by (symmetry; apply N.eqb_neq; lia);
      replace (c =? 185) with false by (symmetry; apply N.eqb_neq; lia);
      rewrite !orb_false_r; reflexivity).
  - abstract (intros c v H;
      destruct ((48 <=? c) && (c <=? 57)); [reflexivity|];
      destruct ((1632 <=? c) && (c <=? 1641)); [reflexivity|discriminate]).
  - abstract (intros c H;
      assert (R : (48 <= c <= 57) \/ (1632 <= c <= 1641)
                  \/ c = 178 \/ c = 179 \/ c = 185);
      [ destruct ((48 <=? c) && (c <=? 57)) eqn:E;
        [ apply andb_true_iff in E; destruct E as [E1 E2];
          apply N.leb_le in E1; apply N.leb_le in E2; left; lia |];
        destruct ((1632 <=? c) && (c <=? 1641)) eqn:E2;
        [ apply andb_true_iff in E2; destruct E2 as [E1 E2];
          apply N.leb_le in E1; apply N.leb_le in E2; right; left; lia |];
        cbn [orb] in H;
        destruct (c =? 178) eqn:E3; [apply N.eqb_eq in E3; tauto|];
        destruct (c =? 179) eqn:E4; [apply N.eqb_eq in E4; tauto|];
        destruct (c =? 185) eqn:E5; [apply N.eqb_eq in E5; tauto|];
        discriminate
      | repeat (apply orb_false_iff; split);
        try (apply N.eqb_neq; lia);
        apply andb_false_iff;
        destruct (N.le_gt_cases 9 c);
        try (right; apply N.leb_gt; lia);
        try (left; apply N.leb_gt; lia) ]).
  - abstract (intros i Hi;
      replace ((48 <=? 1632 + i) && (1632 + i <=? 57)) with false
        by (symmetry; apply andb_false_iff; right; apply N.leb_gt; lia);
      replace ((1632 <=? 1632 + i) && (1632 + i <=? 1641)) with true
        by (symmetry; apply andb_true_iff; split; apply N.leb_le; lia);
      f_equal; lia).
  - reflexivity.
  - reflexivity.
  - abstract (intros n H; injection H as <-; lia).
Defined.

Module Uni.

Section Tables.

Variable U : runtime.

(** [\d] on one character. *)
Definition is_decimal (c : char) : bool :=
  match decimal U c with
  | Some _ => true
  | None => false
  end.

(** [s.isdigit()]: non-empty and every character a digit character. *)
Definition str_isdigit (s : str) : bool :=
  match s with
  | [] => false
  | _ => forallb (digit_class U) s
  end.

(* ----------------------------------------------------------------- *)
(** *** [int] of a text *)

(** The first pass of [int] on a text: a character under 127 is kept,
    whitespace becomes a space, a decimal digit becomes the ASCII digit of
    its value, and anything else a question mark, which no literal
    contains. *)
Definition to_ascii (c : char) : char :=
  if c <? 127 then c
  else if isspace c then 32
  else match decimal U c with
       | Some v => 48 + v
       | None => 63
       end.

(** The whitespace that the second pass skips around the literal: tab to
    carriage return, and the space. *)
Definition c_isspace (c : char) : bool :=
  ((9 <=? c) && (c <=? 13)) || (c =? 32).

Fixpoint skip_spaces (s : str) : str :=
  match s with
  | c :: r => if c_isspace c then skip_spaces r else s
  | [] => []
  end.

(** The digits of the literal, with their count: underscores may separate
    digits, one at a time, never first nor last; after the last digit only
    whitespace may follow.  [prev] tells whether the previous character was a
    digit. *)
Fixpoint int_digits (prev : bool) (s : str) (acc : Z) (n : nat)
  : option (Z * nat) :=
  match s with
  | [] => if prev then Some (acc, n) else None
  | c :: r =>
      if isdigit c
      then int_digits true r (10 * acc + Z.of_N (c - 48))%Z (S n)
      else if (c =? 95) && prev then
             match r with
             | d :: _ => if isdigit d then int_digits false r acc n else None
             | [] => None
             end
           else if prev && forallb c_isspace s then Some (acc, n)
           else None
  end.

(** The count of digits is within the limit of the interpreter. *)
Definition within_limit (n : nat) : bool :=
  match int_max_str_digits U with
  | Some m => (n <=? m)%nat
  | None => true
  end.

(** [int(s)] in base ten for a text [s]; [None] stands for [ValueError]. *)
Definition py_int (s : str) : option Z :=
  match skip_spaces (map to_ascii s) with
  | [] => None
  | c :: r =>
      let body := if (c =? 45) || (c =? 43) then r else c :: r in
      match int_digits false body 0%Z 0%nat with
      | Some (v, n) =>
          if within_limit n
          then Some (if c =? 45 then (- v)%Z else v)
          else None
      | None => None
      end
  end.

(* ----------------------------------------------------------------- *)
(** *** 4. Regular activities *)

(** [int(r.get("frequency", 0)) if str(r.get("frequency", "")).isdigit()
    else 0]; [None] stands for the [ValueError] of [int]. *)
Definition frequency_of (r : activity_row) : option nat :=
  if str_isdigit (a_frequency r)
  then option_map Z.to_nat (py_int (a_frequency r))
  else Some 0%nat.

(** The turn of the activities loop for one row: the frequency is read
    before the placement loop starts. *)
Definition place_activity (r : activity_row) (dm : daymap)
  : option (list dated) :=
  match frequency_of r with
  | Some freq => Some (place_from r freq 0 (sorted_dates (keys dm)))
  | None => None
  end.

(** The activities loop: the first row whose frequency cannot be read ends
    it with the exception. *)
Fixpoint place_rows (rows : list activity_row) (dm : daymap)
  : option (list dated) :=
  match rows with
  | [] => Some []
  | r :: rest =>
      match place_activity r dm with
      | Some evs =>
          match place_rows rest dm with
          | Some more => Some (evs ++ more)
          | None => None
          end
      | None => None
      end
  end.

Definition activities_of (activities_df : option (list activity_row))
  (dm : daymap) : option (list dated) :=
  match activities_df with
  | None => Some []
  | Some rows => place_rows rows dm
  end.

(* ----------------------------------------------------------------- *)
(** *** The time normalizer *)

(** [(\d{2})] followed by [$]. *)
Definition match_minute (s : str) : option str :=
  match s with
  | a :: b :: rest =>
      if is_decimal a && is_decimal b && at_end rest then Some [a; b] else None
  | _ => None
  end.

(** [(?::?(\d{2}))?$] as the backtracking matcher tries it: the group with
    its colon, the group without the colon, then no group at all.  The result
    is the second capture. *)
Definition match_tail (s : str) : option (option str) :=
  match (match s with
         | c :: r => if c =? 58 then match_minute r else None
         | [] => None
         end) with
  | Some m => Some (Some m)
  | None =>
      match match_minute s with
      | Some m => Some (Some m)
      | None => if at_end s then Some None else None
      end
  end.

(** [time_pattern.match(s)] for [^(\d{1,2})(?::?(\d{2}))?$]: the greedy hour
    takes two digits first and falls back to one.  The result is
    [match.groups()]. *)
Definition time_pattern_match (s : str) : option (str * option str) :=
  match (match s with
         | a :: b :: r =>
             if is_decimal a && is_decimal b
             then option_map (pair [a; b]) (match_tail r) else None
         | _ => None
         end) with
  | Some g => Some g
  | None =>
      match s with
      | a :: r =>
          if is_decimal a then option_map (pair [a]) (match_tail r) else None
      | [] => None
      end
  end.

(** [normalize_time]; the argument is [None] when the value is [None] or not
    a [str]. *)
Definition normalize_time (t : option str) : option str :=
  match t with
  | None => None
  | Some [] => None
  | Some t =>
      match time_pattern_match (clean_time t) with
      | Some (hour, minute) =>
          Some (zfill 2 hour ++ [58]
                  ++ match minute with Some m => m | None => lit "00" end)
      | None => None
      end
  end.

(** [ev["time"] = normalize_time(ev.get("time"))] *)
Definition normalize_event (ev : dated) : dated :=
  mkdated (d_date ev) (normalize_time (d_time ev)) (d_title ev) (d_notes ev).

(* ----------------------------------------------------------------- *)
(** *** The per-day sort *)

(** The [try] block of [sort_key]: [h, m = map(int, t.split(":"))] then
    [dt.time(h, m)]; [None] stands for any exception. *)
Definition parse_clock (t : str) : option clock :=
  match split 58 t with
  | [a; b] =>
      match py_int a, py_int b with
      | Some h, Some m =>
          if ((0 <=? h) && (h <=? 23) && (0 <=? m) && (m <=? 59))%Z
          then Some (h, m) else None
      | _, _ => None
      end
  | _ => None
  end.

(** [sort_key]: the [except] clause answers every exception of the [try]
    block with 23:59. *)
Definition sort_key (e : event) : clock :=
  if negb (truthy (ev_time e)) then end_of_day
  else match ev_time e with
       | Some t =>
           match parse_clock t with
           | Some c => c
           | None => end_of_day
           end
       | None => end_of_day
       end.

(** The key of the per-day sort. *)
Definition key_of (e : event) : Z * clock := (category_priority e, sort_key e).

(** [list.sort(key=...)]: a stable sort, here by insertion.  An element goes
    before the first one that is not smaller than it. *)
Fixpoint insert_event (x : event) (l : list event) : list event :=
  match l with
  | [] => [x]
  | y :: r =>
      if key_ltb (key_of y) (key_of x) then y :: insert_event x r
      else x :: l
  end.

Definition py_sort (l : list event) : list event :=
  fold_right insert_event [] l.

Definition sort_days (dm : daymap) : daymap :=
  map (fun kv => (fst kv, py_sort (snd kv))) dm.

(** [<=] on the keys of the per-day sort. *)
Definition key_le (a b : event) : Prop :=
  key_ltb (key_of b) (key_of a) = false.

(** [seat_activity_into_calendar]; [None] stands for an exception: the one
    of [month_date_range], or the [ValueError] of a frequency. *)
Definition seat_activity_into_calendar (bank : list holiday) (y m : Z)
  (activities_df : option (list activity_row))
  (rota_df : option (list rota_row)) (rules : list rule)
  (include_holidays : bool) : option daymap :=
  match month_date_range y m with
  | None => None
  | Some (first, last) =>
      let dm0 := empty_daymap first last in
      let dm1 := if include_holidays then add_holidays bank y m dm0 else dm0 in
      let dm2 := add_shifts rota_df dm1 in
      let fixed_rules := fixed_rules_of rules dm2 in
      match activities_of activities_df dm2 with
      | None => None
      | Some activities =>
          let all_events := map normalize_event (fixed_rules ++ activities) in
          Some (sort_days (fold_left seat_event all_events dm2))
      end
  end.

(* ----------------------------------------------------------------- *)
(** *** The shape of an accepted time *)

(** A run of one or two decimal digits. *)
Definition hour_digits (h : str) : Prop :=
  (List.length h = 1 \/ List.length h = 2)%nat /\ forallb is_decimal h = true.

(** A run of exactly two decimal digits. *)
Definition minute_digits (m : str) : Prop :=
  List.length m = 2%nat /\ forallb is_decimal m = true.

(** The texts of the shape [^(\d{1,2})(?::?(\d{2}))?] with their two
    captures: an hour alone, an hour and a minute with a colon between them,
    or an hour and a minute with nothing between them. *)
Inductive time_shape : str -> str -> option str -> Prop :=
| shape_hour h :
    hour_digits h -> time_shape h h None
| shape_colon h m :
    hour_digits h -> minute_digits m -> time_shape (h ++ [58] ++ m) h (Some m)
| shape_joined h m :
    hour_digits h -> minute_digits m -> time_shape (h ++ m) h (Some m).

(** The value of a run of decimal digits, most significant first. *)
Definition decimal_value (s : str) : Z :=
  fold_left (fun acc c =>
               (10 * acc + match decimal U c with
                           | Some v => Z.of_N v
                           | None => 0
                           end)%Z) s 0%Z.

(** A text read by [int] as a plain number: decimal digits only, at least
    one and no more than the interpreter reads. *)
Definition decimal_string (s : str) : Prop :=
  s <> [] /\ forallb is_decimal s = true
  /\ within_limit (List.length s) = true.

(** A text that [str.isdigit] rejects: empty, or with a character that is
    not a digit character. *)
Definition not_digits (s : str) : Prop :=
  s = [] \/ Exists (fun c => digit_class U c = false) s.

End Tables.

End Uni.

(** The cells of the frequency examples: Arabic-Indic three, superscript
    two. *)
Definition arabic_three_row : activity_row :=
  mkactivity (lit "Coffee & Chat") (lit "Mon;Wed;Fri;Sun") (lit "11:00") [1635].

Definition superscript_two_row : activity_row :=
  mkactivity (lit "Coffee & Chat") (lit "Mon;Wed;Fri;Sun") (lit "11:00") [178].

(** Four entries of one day, as the merge loop leaves them: no time, a
    time of 99:00, a time of 10:00 and a time of 23:59. *)
Definition odd_day : list event :=
  [ mkevent None (lit "Walk") Fixed;
    mkevent (Some (lit "99:00")) (lit "Late Tea") Activity;
    mkevent (Some (lit "10:00")) (lit "Quiz") Activity;
    mkevent (Some (lit "23:59")) (lit "Night Round") Activity ].

(** Two Thursday rules, the first with a time cell of 99, and November 6,
    2025, a Thursday. *)
Definition odd_rules : list rule :=
  [ mkrule 3 (Some (lit "99")) (lit "Late Tea");
    mkrule 3 (Some (lit "10:00")) (lit "Quiz") ].
(* ================================================================= *)
(** ** Basic facts and worked examples *)

Lemma str_eqb_spec (a b : str) : reflect (a = b) (str_eqb a b).
Proof.
  unfold str_eqb. destruct (list_eq_dec N.eq_dec a b); constructor; assumption.
Qed.

Lemma str_eqb_eq (a b : str) : str_eqb a b = true <-> a = b.
Proof. destruct (str_eqb_spec a b); split; congruence. Qed.

Lemma str_eqb_refl (a : str) : str_eqb a a = true.
Proof. apply str_eqb_eq. reflexivity. Qed.

Lemma opt_str_eqb_eq (a b : option str) : opt_str_eqb a b = true <-> a = b.
Proof.
  destruct a as [x|], b as [y|]; simpl; try (split; congruence).
  rewrite str_eqb_eq. split; congruence.
Qed.

Lemma date_eqb_eq (a b : date) : date_eqb a b = true <-> a = b.
Proof.
  destruct a as [y1 m1 d1], b as [y2 m2 d2]; unfold date_eqb; simpl.
  rewrite !andb_true_iff, !Z.eqb_eq.
  split; [intros [[-> ->] ->]; reflexivity | intros H; inversion H; auto].
Qed.

Lemma date_eqb_refl (a : date) : date_eqb a a = true.
Proof. apply date_eqb_eq. reflexivity. Qed.

Lemma date_eqb_neq (a b : date) : date_eqb a b = false <-> a <> b.
Proof.
  rewrite <- date_eqb_eq. destruct (date_eqb a b); split; congruence.
Qed.

Example ex_nt1 : normalize_time (Some (lit "2:30")) = Some (lit "02:30").
Proof. reflexivity. Qed.

Example ex_nt2 : normalize_time (Some (lit "14.45")) = Some (lit "14:45").
Proof. reflexivity. Qed.

Example ex_nt3 : normalize_time (Some (lit "2:30pm")) = None.
Proof. reflexivity. Qed.

Example ex_nt4 : normalize_time (Some []) = None.
Proof. reflexivity. Qed.

Example ex_nt5 : normalize_time (Some (lit "1445")) = Some (lit "14:45").
Proof. reflexivity. Qed.

Example ex_nt6 : normalize_time (Some (lit "230")) = Some (lit "02:30").
Proof. reflexivity. Qed.

Example ex_nt7 : normalize_time (Some (lit " 1 4 : 4 5 ")) = Some (lit "14:45").
Proof. reflexivity. Qed.

Example ex_nt8 : normalize_time (Some (lit "99")) = Some (lit "99:00").
Proof. reflexivity. Qed.

Example ex_weekday_2025_11_06 : weekday (mkdate 2025 11 6) = 3%Z.
Proof. reflexivity. Qed.

Example ex_weekday_2024_02_29 : weekday (mkdate 2024 2 29) = 3%Z.
Proof. reflexivity. Qed.

Example ex_weekday_2000_01_01 : weekday (mkdate 2000 1 1) = 5%Z.
Proof. reflexivity. Qed.

Example ex_clean_text :
  clean_text (lit "  All Souls" ++ [8217] ++ lit " Day" ++ [8230; 160])
  = lit "All Souls' Day...".
Proof. reflexivity. Qed.

(* ================================================================= *)
(** ** Facts about the text functions *)

Section TextFacts.

Lemma isdigit_range (c : char) : isdigit c = true <-> 48 <= c <= 57.
Proof. unfold isdigit. rewrite andb_true_iff, !N.leb_le. tauto. Qed.

Lemma isdigit_not_space (c : char) : isdigit c = true -> isspace c = false.
Proof.
  intros H. apply isdigit_range in H. unfold isspace.
  repeat (apply orb_false_intro);
    try (apply andb_false_iff; rewrite !N.leb_gt; lia);
    apply N.eqb_neq; lia.
Qed.

Lemma isdigit_neq (c k : char) :
  isdigit c = true -> k < 48 \/ 57 < k -> (c =? k) = false.
Proof. intros H Hk. apply isdigit_range in H. apply N.eqb_neq. lia. Qed.

Lemma isdigit_lower (c : char) : isdigit c = true -> lower_char c = c.
Proof.
  intros H. apply isdigit_range in H. unfold lower_char, isupper_char.
  replace (65 <=? c) with false by (symmetry; apply N.leb_gt; lia).
  reflexivity.
Qed.

Lemma lower_char_not_space (c : char) :
  isspace c = false -> isspace (lower_char c) = false.
Proof.
  intros H. unfold lower_char. destruct (isupper_char c) eqn:U; [|exact H].
  unfold isupper_char in U. apply andb_true_iff in U. rewrite !N.leb_le in U.
  unfold isspace.
  repeat (apply orb_false_intro);
    try (apply andb_false_iff; rewrite !N.leb_gt; lia);
    apply N.eqb_neq; lia.
Qed.

Lemma rstrip_ends_solid (s : str) : ends_solid (rstrip s).
Proof.
  induction s as [|c r IH]; simpl; [left; reflexivity|].
  destruct (rstrip r) as [|x r'] eqn:E.
  - destruct (isspace c) eqn:W; [left; reflexivity|].
    right. exists [], c. auto.
  - right. destruct IH as [IH|[p [c0 [IH W]]]]; [discriminate|].
    exists (c :: p), c0. rewrite IH. auto.
Qed.

Lemma strip_ends_solid (s : str) : ends_solid (strip s).
Proof. apply rstrip_ends_solid. Qed.

Lemma clean_time_ends_solid (t : str) : ends_solid (clean_time t).
Proof.
  unfold clean_time.
  destruct (strip_ends_solid t) as [E|[p [c [E W]]]]; rewrite E.
  - left. reflexivity.
  - right. unfold lower, replace_char, remove_char.
    rewrite !map_app, filter_app. simpl.
    apply lower_char_not_space in W.
    set (c1 := lower_char c) in *.
    destruct (c1 =? 46) eqn:E46.
    + simpl. eexists _, 58. split; reflexivity.
    + destruct (c1 =? 32) eqn:E32.
      * apply N.eqb_eq in E32. rewrite E32 in W. discriminate.
      * simpl. eexists _, c1. split; [reflexivity | exact W].
Qed.

Lemma clean_time_no_final_newline (t p : str) : clean_time t <> p ++ [10].
Proof.
  intros H. destruct (clean_time_ends_solid t) as [E|[q [c [E W]]]].
  - rewrite E in H. destruct p; discriminate.
  - rewrite E in H. apply app_inj_tail in H. destruct H as [_ ->].
    discriminate.
Qed.

Lemma lstrip_solid (s : str) : forallb (fun c => negb (isspace c)) s = true -> lstrip s = s.
Proof.
  destruct s as [|c r]; simpl; [reflexivity|].
  intros H. apply andb_true_iff in H. destruct H as [H _].
  destruct (isspace c); [discriminate | reflexivity].
Qed.

Lemma rstrip_solid (s : str) : forallb (fun c => negb (isspace c)) s = true -> rstrip s = s.
Proof.
  induction s as [|c r IH]; simpl; [reflexivity|].
  intros H. apply andb_true_iff in H. destruct H as [Hc Hr].
  rewrite (IH Hr). destruct r; [|reflexivity].
  destruct (isspace c); [discriminate | reflexivity].
Qed.

Lemma strip_solid (s : str) : forallb (fun c => negb (isspace c)) s = true -> strip s = s.
Proof.
  intros H. unfold strip. rewrite (lstrip_solid s H). apply rstrip_solid, H.
Qed.

Lemma digits_solid (s : str) :
  forallb isdigit s = true -> forallb (fun c => negb (isspace c)) s = true.
Proof.
  rewrite !forallb_forall. intros H c Hc.
  rewrite (isdigit_not_space c (H c Hc)). reflexivity.
Qed.

(** Cleaning leaves a run of digits as it is. *)
Lemma clean_time_digits (s : str) : forallb isdigit s = true -> clean_time s = s.
Proof.
  intros H. unfold clean_time. rewrite (strip_solid s (digits_solid s H)).
  rewrite forallb_forall in H.
  unfold lower, replace_char, remove_char.
  rewrite map_map.
  induction s as [|c r IH]; simpl; [reflexivity|].
  assert (Hc : isdigit c = true) by (apply H; left; reflexivity).
  rewrite (isdigit_lower c Hc).
  rewrite (isdigit_neq c 46 Hc) by lia. simpl.
  rewrite (isdigit_neq c 32 Hc) by lia. simpl.
  f_equal. apply IH. intros x Hx. apply H. right. exact Hx.
Qed.

End TextFacts.

(* ================================================================= *)
(** ** What the time pattern accepts *)

Section TimePattern.

Lemma at_end_cases (s : str) : at_end s = true -> s = [] \/ s = [10].
Proof.
  destruct s as [|c [|d r]]; simpl; intros H; try discriminate.
  - left; reflexivity.
  - right. apply N.eqb_eq in H. subst. reflexivity.
Qed.

Lemma match_minute_sound (s m : str) :
  match_minute s = Some m ->
  minute_digits m /\ exists tail, at_end tail = true /\ s = m ++ tail.
Proof.
  destruct s as [|a [|b r]]; simpl; try discriminate.
  destruct (isdigit a) eqn:Da; simpl; [|discriminate].
  destruct (isdigit b) eqn:Db; simpl; [|discriminate].
  destruct (at_end r) eqn:Er; [|discriminate].
  intros H. inversion H; subst. split.
  - split; [reflexivity|]. simpl. rewrite Da, Db. reflexivity.
  - exists r. auto.
Qed.

Lemma match_tail_sound (s : str) (mo : option str) :
  match_tail s = Some mo ->
  exists tail, at_end tail = true /\
    match mo with
    | None => s = tail
    | Some m => minute_digits m /\ (s = [58] ++ m ++ tail \/ s = m ++ tail)
    end.
Proof.
  unfold match_tail.
  destruct (match s with
            | [] => None
            | c :: r => if c =? 58 then match_minute r else None
            end) as [m|] eqn:E1.
  - intros H; inversion H; subst; clear H.
    destruct s as [|c r]; [discriminate|].
    destruct (c =? 58) eqn:Ec; [|discriminate].
    apply N.eqb_eq in Ec; subst c.
    apply match_minute_sound in E1. destruct E1 as [Hm [tail [Ht ->]]].
    exists tail. auto.
  - destruct (match_minute s) as [m|] eqn:E2.
    + intros H; inversion H; subst; clear H.
      apply match_minute_sound in E2. destruct E2 as [Hm [tail [Ht ->]]].
      exists tail. auto.
    + destruct (at_end s) eqn:E3; [|discriminate].
      intros H; inversion H; subst. exists s. auto.
Qed.

(** A successful match reads the text as one of the three shapes, followed
    by what [$] tolerates. *)
Lemma time_pattern_match_sound (s hour : str) (minute : option str) :
  time_pattern_match s = Some (hour, minute) ->
  exists body tail,
    s = body ++ tail /\ at_end tail = true /\ time_shape body hour minute.
Proof.
  unfold time_pattern_match.
  assert (K : forall (h r : str), hour_digits h ->
            option_map (pair h) (match_tail r) = Some (hour, minute) ->
            exists body tail, h ++ r = body ++ tail /\ at_end tail = true
                              /\ time_shape body hour minute).
  { intros h r Hh H.
    destruct (match_tail r) as [mo|] eqn:E; [|discriminate].
    simpl in H. inversion H; subst; clear H.
    apply match_tail_sound in E. destruct E as [tail [Ht E]].
    destruct minute as [m|].
    - destruct E as [Hm [-> | ->]].
      + exists (hour ++ [58] ++ m), tail. rewrite <- !app_assoc.
        repeat split; auto. apply shape_colon; assumption.
      + exists (hour ++ m), tail. rewrite <- !app_assoc.
        repeat split; auto. apply shape_joined; assumption.
    - subst r. exists hour, tail. repeat split; auto.
      apply shape_hour; assumption. }
  destruct (match s with
            | a :: b :: r =>
                if isdigit a && isdigit b
                then option_map (pair [a; b]) (match_tail r) else None
            | _ => None
            end) as [g|] eqn:E1.
  - intros H; inversion H; subst; clear H.
    destruct s as [|a [|b r]]; try discriminate.
    destruct (isdigit a) eqn:Da; simpl in E1; [|discriminate].
    destruct (isdigit b) eqn:Db; simpl in E1; [|discriminate].
    apply (K [a; b] r); [|exact E1].
    split; [right; reflexivity|]. simpl. rewrite Da, Db. reflexivity.
  - destruct s as [|a r]; [discriminate|].
    destruct (isdigit a) eqn:Da; [|discriminate].
    intros H. apply (K [a] r); [|exact H].
    split; [left; reflexivity|]. simpl. rewrite Da. reflexivity.
Qed.

(** Every text of one of the three shapes is matched, with those captures. *)
Lemma time_pattern_match_complete (s hour : str) (minute : option str) :
  time_shape s hour minute -> time_pattern_match s = Some (hour, minute).
Proof.
  assert (D10 : forall c, isdigit c = true -> (c =? 10) = false)
    by (intros; apply isdigit_neq; [assumption | lia]).
  assert (D58 : forall c, isdigit c = true -> (c =? 58) = false)
    by (intros; apply isdigit_neq; [assumption | lia]).
  assert (N58 : isdigit 58 = false) by reflexivity.
  intros H. destruct H as [h [Hl Hd] | h m [Hl Hd] [Hml Hmd] | h m [Hl Hd] [Hml Hmd]].
  - destruct h as [|a [|b [|c r]]]; simpl in Hl; try lia;
      simpl in Hd; rewrite ?andb_true_iff in Hd.
    + destruct Hd as [Da _].
      unfold time_pattern_match, match_tail; simpl. rewrite Da. reflexivity.
    + destruct Hd as [Da [Db _]].
      unfold time_pattern_match, match_tail; simpl. rewrite Da, Db. reflexivity.
  - destruct m as [|c [|d [|x mr]]]; simpl in Hml; try lia.
    simpl in Hmd; rewrite ?andb_true_iff in Hmd. destruct Hmd as [Dc [Dd _]].
    destruct h as [|a [|b [|y r]]]; simpl in Hl; try lia;
      simpl in Hd; rewrite ?andb_true_iff in Hd.
    + destruct Hd as [Da _].
      unfold time_pattern_match, match_tail, match_minute; simpl.
      rewrite Da, Dc, Dd. reflexivity.
    + destruct Hd as [Da [Db _]].
      unfold time_pattern_match, match_tail, match_minute; simpl.
      rewrite Da, Db, Dc, Dd. reflexivity.
  - destruct m as [|c [|d [|x mr]]]; simpl in Hml; try lia.
    simpl in Hmd; rewrite ?andb_true_iff in Hmd. destruct Hmd as [Dc [Dd _]].
    destruct h as [|a [|b [|y r]]]; simpl in Hl; try lia;
      simpl in Hd; rewrite ?andb_true_iff in Hd.
    + destruct Hd as [Da _].
      unfold time_pattern_match, match_tail, match_minute; simpl.
      rewrite Da, Dc, Dd. simpl. rewrite (D58 d Dd), (D10 d Dd), (D58 c Dc).
      reflexivity.
    + destruct Hd as [Da [Db _]].
      unfold time_pattern_match, match_tail, match_minute; simpl.
      rewrite Da, Db. simpl. rewrite (D58 c Dc), Dc, Dd. reflexivity.
Qed.

Lemma zfill_hour (h : str) :
  hour_digits h -> List.length (zfill 2 h) = 2%nat /\ forallb isdigit (zfill 2 h) = true.
Proof.
  intros [Hl Hd].
  destruct h as [|a [|b [|c r]]]; simpl in Hl; try lia;
    simpl in Hd; rewrite ?andb_true_iff in Hd.
  - destruct Hd as [Da _]. unfold zfill. simpl.
    rewrite (isdigit_neq a 43 Da), (isdigit_neq a 45 Da) by lia. simpl.
    rewrite Da. auto.
  - destruct Hd as [Da [Db _]]. unfold zfill. simpl.
    rewrite (isdigit_neq a 43 Da), (isdigit_neq a 45 Da) by lia. simpl.
    rewrite Da, Db. auto.
Qed.


(** The normalizer on a non-empty text, through its cleaned form. *)
Lemma normalize_time_unfold (t : str) :
  normalize_time (Some t) =
  match time_pattern_match (clean_time t) with
  | Some (hour, minute) => Some (canonical hour minute)
  | None => None
  end.
Proof.
  destruct t as [|c r]; [reflexivity|]. reflexivity.
Qed.



End TimePattern.

(* ================================================================= *)
(** ** The key set of the day map *)

Section Keys.

Lemma keys_append_to (d : date) (e : event) (dm : daymap) :
  keys (append_to d e dm) = keys dm.
Proof.
  unfold keys. induction dm as [|[k evs] r IH]; simpl; [reflexivity|].
  destruct (date_eqb d k); simpl; [reflexivity|].
  f_equal. exact IH.
Qed.

Lemma mem_append_to (d d' : date) (e : event) (dm : daymap) :
  mem d' (append_to d e dm) = mem d' dm.
Proof. unfold mem. rewrite keys_append_to. reflexivity. Qed.



Lemma keys_shift_step (dm : daymap) (r : rota_row) :
  keys (shift_step dm r) = keys dm.
Proof.
  unfold shift_step. destruct (r_date r) as [d|]; [|reflexivity].
  destruct (mem d dm); [|reflexivity].
  destruct (shift_title r); [reflexivity | apply keys_append_to].
Qed.

Lemma keys_add_shifts (rota_df : option (list rota_row)) (dm : daymap) :
  keys (add_shifts rota_df dm) = keys dm.
Proof.
  destruct rota_df as [rows|]; simpl; [|reflexivity].
  revert dm. induction rows as [|r rows IH]; intros dm; cbn [fold_left]; [reflexivity|].
  rewrite IH. apply keys_shift_step.
Qed.








Lemma days_in_month_pos (y m : Z) :
  valid_year_month y m = true -> (28 <= days_in_month y m <= 31)%Z.
Proof.
  unfold valid_year_month. rewrite !andb_true_iff, !Z.leb_le.
  intros [[[_ _] H1] H2]. unfold days_in_month.
  assert (Hm : (m = 1 \/ m = 2 \/ m = 3 \/ m = 4 \/ m = 5 \/ m = 6 \/ m = 7
               \/ m = 8 \/ m = 9 \/ m = 10 \/ m = 11 \/ m = 12)%Z) by lia.
  repeat (destruct Hm as [->|Hm]); try subst m; simpl;
    try lia; destruct (isleap y); simpl; lia.
Qed.

End Keys.

(* ================================================================= *)
(** ** The per-day sort *)

Section SortFacts.

Lemma key_ltb_spec (a b : Z * clock) :
  key_ltb a b = true <->
  (fst a < fst b
   \/ (fst a = fst b
       /\ (fst (snd a) < fst (snd b)
           \/ (fst (snd a) = fst (snd b) /\ snd (snd a) < snd (snd b)))))%Z.
Proof.
  destruct a as [p1 [h1 m1]], b as [p2 [h2 m2]]. unfold key_ltb. simpl.
  rewrite !orb_true_iff, !andb_true_iff, !orb_true_iff, !andb_true_iff,
    !Z.ltb_lt, !Z.eqb_eq.
  tauto.
Qed.

Lemma key_ltb_false (a b : Z * clock) :
  key_ltb a b = false <->
  ~ (fst a < fst b
     \/ (fst a = fst b
         /\ (fst (snd a) < fst (snd b)
             \/ (fst (snd a) = fst (snd b) /\ snd (snd a) < snd (snd b)))))%Z.
Proof.
  rewrite <- key_ltb_spec. destruct (key_ltb a b); split; congruence.
Qed.

Lemma key_le_trans (a b c : event) : key_le a b -> key_le b c -> key_le a c.
Proof.
  unfold key_le. rewrite !key_ltb_false. lia.
Qed.

Lemma key_le_of_lt (a b : event) :
  key_ltb (key_of a) (key_of b) = true -> key_le a b.
Proof.
  unfold key_le. rewrite key_ltb_false, key_ltb_spec. lia.
Qed.

Lemma insert_event_perm (x : event) (l : list event) :
  Permutation (x :: l) (insert_event x l).
Proof.
  induction l as [|y r IH]; cbn [insert_event]; [apply Permutation_refl|].
  destruct (key_ltb (key_of y) (key_of x)); [|apply Permutation_refl].
  eapply perm_trans; [apply perm_swap|]. apply perm_skip, IH.
Qed.

Lemma py_sort_perm (l : list event) : Permutation l (py_sort l).
Proof.
  induction l as [|x r IH]; [apply perm_nil|].
  cbn [py_sort fold_right]. fold (py_sort r).
  eapply perm_trans; [apply perm_skip, IH | apply insert_event_perm].
Qed.

Lemma insert_event_sorted (x : event) (l : list event) :
  StronglySorted key_le l -> StronglySorted key_le (insert_event x l).
Proof.
  induction 1 as [|y r Hs IH Hy]; cbn [insert_event].
  - constructor; constructor.
  - destruct (key_ltb (key_of y) (key_of x)) eqn:E.
    + constructor; [exact IH|].
      rewrite Forall_forall in *. intros z Hz.
      apply (Permutation_in _ (Permutation_sym (insert_event_perm x r))) in Hz.
      destruct Hz as [<-|Hz]; [apply key_le_of_lt, E | apply Hy, Hz].
    + constructor; [constructor; assumption|].
      constructor; [exact E|].
      rewrite Forall_forall in *. intros z Hz.
      apply key_le_trans with y; [exact E | apply Hy, Hz].
Qed.

Lemma py_sort_sorted (l : list event) : StronglySorted key_le (py_sort l).
Proof.
  induction l as [|x r IH]; [constructor|].
  cbn [py_sort fold_right]. fold (py_sort r). apply insert_event_sorted, IH.
Qed.




Lemma sort_key_untimed (e : event) : ev_time e = None -> sort_key e = end_of_day.
Proof. intros H. unfold sort_key. rewrite H. reflexivity. Qed.

Lemma sort_key_unparsed (e : event) (t : str) :
  ev_time e = Some t -> parse_clock t = None -> sort_key e = end_of_day.
Proof.
  intros H P. unfold sort_key. rewrite H, P.
  destruct (negb (truthy (Some t))); reflexivity.
Qed.



End SortFacts.

(* ================================================================= *)
(** ** Reading and extending a day *)

Section DayFacts.

Lemma mem_true_iff (d : date) (dm : daymap) :
  mem d dm = true <-> In d (keys dm).
Proof.
  unfold mem. rewrite existsb_exists. split.
  - intros [k [Hk E]]. apply date_eqb_eq in E. subst. exact Hk.
  - intros H. exists d. split; [exact H | apply date_eqb_refl].
Qed.

Lemma get_append_same (d : date) (e : event) (dm : daymap) :
  mem d dm = true -> get d (append_to d e dm) = get d dm ++ [e].
Proof.
  unfold mem, keys.
  induction dm as [|[k evs] r IH]; simpl; [discriminate|].
  destruct (date_eqb d k) eqn:E; simpl; rewrite E; [reflexivity|].
  exact IH.
Qed.

Lemma get_append_other (d d' : date) (e : event) (dm : daymap) :
  d' <> d -> get d' (append_to d e dm) = get d' dm.
Proof.
  intros Hne. induction dm as [|[k evs] r IH]; simpl; [reflexivity|].
  destruct (date_eqb d k) eqn:E; simpl.
  - apply date_eqb_eq in E. subst k.
    apply date_eqb_neq in Hne. rewrite Hne. reflexivity.
  - destruct (date_eqb d' k); [reflexivity | exact IH].
Qed.











End DayFacts.

(* ================================================================= *)
(** ** The placement loop *)

Section Placement.

Lemma place_from_unbounded (r : activity_row) (placed : nat) (ds : list date) :
  place_from r 0 placed ds
  = map (activity_event r) (filter (day_matches (pref_days_of r)) ds).
Proof.
  revert placed. induction ds as [|d rest IH]; intros placed; [reflexivity|].
  cbn [place_from filter]. simpl negb. cbn [andb].
  destruct (day_matches (pref_days_of r) d); cbn [map]; rewrite IH; reflexivity.
Qed.







End Placement.

(* ================================================================= *)
(** ** The time normalizer: what it accepts and what it returns *)

Lemma remove_char_solid (a : char) (s : str) :
  forallb (fun c => negb (c =? a)) s = true -> remove_char a s = s.
Proof.
  unfold remove_char. induction s as [|c r IH]; cbn [forallb filter]; [reflexivity|].
  intros H. apply andb_true_iff in H. destruct H as [Hc Hr].
  rewrite Hc, (IH Hr). reflexivity.
Qed.

(** Where the worded shape accepts, the normalizer answers the same text:
    the normalizer accepts more, never less. *)
Lemma spec_shape_refined (t r : str) :
  spec_normalize_time t = Some r -> normalize_time (Some t) = Some r.
Proof.
  unfold spec_normalize_time. rewrite normalize_time_unfold.
  assert (E : clean_time t = remove_char 32 (spec_clean t)) by reflexivity.
  rewrite E. clear E.
  assert (K : forall c, isdigit c = true -> negb (c =? 32) = true)
    by (intros c Hc; rewrite (isdigit_neq c 32 Hc) by lia; reflexivity).
  destruct (spec_clean t) as [|a [|b [|c [|d [|e [|x s]]]]]]; cbn [spec_shape];
    try discriminate.
  - destruct (isdigit a) eqn:Da; [|discriminate].
    intros H; inversion H; subst; clear H.
    rewrite remove_char_solid by (cbn [forallb]; rewrite (K a Da); reflexivity).
    rewrite (time_pattern_match_complete [a] [a] None); [reflexivity|].
    apply shape_hour. split; [left; reflexivity | simpl; rewrite Da; reflexivity].
  - destruct (isdigit a) eqn:Da; [|discriminate].
    destruct (isdigit b) eqn:Db; [|discriminate]. cbn [andb].
    intros H; inversion H; subst; clear H.
    rewrite remove_char_solid
      by (cbn [forallb]; rewrite (K a Da), (K b Db); reflexivity).
    rewrite (time_pattern_match_complete [a; b] [a; b] None); [reflexivity|].
    apply shape_hour. split; [right; reflexivity | simpl; rewrite Da, Db; reflexivity].
  - destruct (isdigit a) eqn:Da; [|discriminate].
    destruct (b =? 58) eqn:Eb; [|discriminate].
    destruct (isdigit c) eqn:Dc; [|discriminate].
    destruct (isdigit d) eqn:Dd; [|discriminate]. cbn [andb].
    apply N.eqb_eq in Eb. subst b.
    intros H; inversion H; subst; clear H.
    rewrite remove_char_solid
      by (cbn [forallb]; rewrite (K a Da), (K c Dc), (K d Dd); reflexivity).
    replace (time_pattern_match _) with (Some ([a], Some [c; d]));
      [reflexivity|].
    symmetry. apply time_pattern_match_complete.
    apply (shape_colon [a] [c; d]); split; simpl; rewrite ?Da, ?Dc, ?Dd; auto.
  - destruct (isdigit a) eqn:Da; [|discriminate].
    destruct (isdigit b) eqn:Db; [|discriminate].
    destruct (c =? 58) eqn:Ec; [|discriminate].
    destruct (isdigit d) eqn:Dd; [|discriminate].
    destruct (isdigit e) eqn:De; [|discriminate]. cbn [andb].
    apply N.eqb_eq in Ec. subst c.
    intros H; inversion H; subst; clear H.
    rewrite remove_char_solid
      by (cbn [forallb]; rewrite (K a Da), (K b Db), (K d Dd), (K e De); reflexivity).
    replace (time_pattern_match _) with (Some ([a; b], Some [d; e]));
      [reflexivity|].
    symmetry. apply time_pattern_match_complete.
    apply (shape_colon [a; b] [d; e]); split; simpl;
      rewrite ?Da, ?Db, ?Dd, ?De; auto.
Qed.

(** C8.  A run of three digits is read as a one-digit hour and a two-digit
    minute, a run of four digits as a two-digit hour and a two-digit minute:
    the colon of the pattern is optional. *)
Theorem digit_only_times (a b c d : char) :
  isdigit a = true -> isdigit b = true -> isdigit c = true -> isdigit d = true ->
  normalize_time (Some [b; c; d]) = Some [48; b; 58; c; d]
  /\ normalize_time (Some [a; b; c; d]) = Some [a; b; 58; c; d].
Proof.
  intros Da Db Dc Dd.
  assert (Z2 : forall x y, isdigit x = true -> zfill 2 [x; y] = [x; y]).
  { intros x y Dx. unfold zfill. simpl.
    rewrite (isdigit_neq x 43 Dx), (isdigit_neq x 45 Dx) by lia. reflexivity. }
  assert (Z1 : forall x, isdigit x = true -> zfill 2 [x] = [48; x]).
  { intros x Dx. unfold zfill. simpl.
    rewrite (isdigit_neq x 43 Dx), (isdigit_neq x 45 Dx) by lia. reflexivity. }
  split; rewrite normalize_time_unfold.
  - rewrite clean_time_digits by (simpl; rewrite Db, Dc, Dd; reflexivity).
    rewrite (time_pattern_match_complete [b; c; d] [b] (Some [c; d])).
    + unfold canonical. rewrite (Z1 b Db). reflexivity.
    + apply (shape_joined [b] [c; d]); split; simpl;
        rewrite ?Db, ?Dc, ?Dd; auto.
  - rewrite clean_time_digits by (simpl; rewrite Da, Db, Dc, Dd; reflexivity).
    rewrite (time_pattern_match_complete [a; b; c; d] [a; b] (Some [c; d])).
    + unfold canonical. rewrite (Z2 a b Da). reflexivity.
    + apply (shape_joined [a; b] [c; d]); split; simpl;
        rewrite ?Da, ?Db, ?Dc, ?Dd; auto.
Qed.

(** 1445 gives 14:45 and 230 gives 02:30, through the theorem. *)
Lemma digit_only_times_witness :
  normalize_time (Some (lit "230")) = Some (lit "02:30")
  /\ normalize_time (Some (lit "1445")) = Some (lit "14:45").
Proof.
  split.
  - apply (digit_only_times 49 50 51 48); reflexivity.
  - apply (digit_only_times 49 52 52 53); reflexivity.
Defined.

(* ================================================================= *)
(** ** Deduplication on insertion *)

Section Dedup.

Lemma existsb_filter {A} (p f : A -> bool) (l : list A) :
  existsb f (filter p l) = true <-> exists e, In e l /\ p e = true /\ f e = true.
Proof.
  rewrite existsb_exists. split.
  - intros [e [Hin Hf]]. apply filter_In in Hin. exists e. tauto.
  - intros [e [Hin [Hp Hf]]]. exists e. split; [apply filter_In; tauto | exact Hf].
Qed.

Lemma proper_time_spec (t : option str) :
  proper_time t = true <-> exists s, t = Some s /\ List.length s = 5%nat.
Proof.
  unfold proper_time. destruct t as [[|c s]|]; simpl.
  - split; [discriminate | intros [s [H L]]; inversion H; subst; discriminate].
  - rewrite Nat.eqb_eq. split.
    + intros H. exists (c :: s). split; [reflexivity | simpl; lia].
    + intros [s' [H L]]. inversion H; subst. simpl in L. lia.
  - split; [discriminate | intros [s [H _]]; discriminate].
Qed.

(** The test of the merge loop, read as a proposition. *)
Lemma seat_event_cases (dm : daymap) (ev : dated) :
  mem (d_date ev) dm = true ->
  let d := d_date ev in
  let dup e := In e (get d dm)
               /\ title_key (ev_title e) = title_key (d_title ev) in
  let exact := exists e, dup e /\ ev_time e = d_time ev in
  let proper := exists e s, dup e /\ ev_time e = Some s /\ List.length s = 5%nat in
  (exact \/ (proper /\ truthy (d_time ev) = false) -> seat_event dm ev = dm)
  /\ (~ (exact \/ (proper /\ truthy (d_time ev) = false)) ->
      seat_event dm ev
      = append_to d (mkevent (d_time ev) (d_title ev) (d_notes ev)) dm).
Proof.
  intros Hmem d dup exact proper. subst d. unfold seat_event. rewrite Hmem.
  cbn [negb].
  set (dups := filter (fun e => str_eqb (title_key (ev_title e))
                                        (title_key (d_title ev)))
                      (get (d_date ev) dm)).
  set (has_exact := existsb (fun e => opt_str_eqb (ev_time e) (d_time ev)) dups).
  set (has_proper := existsb (fun e => proper_time (ev_time e)) dups).
  assert (Hskip : match dups with
                  | [] => false
                  | _ :: _ => has_exact || (has_proper && negb (truthy (d_time ev)))
                  end = has_exact || (has_proper && negb (truthy (d_time ev)))).
  { unfold has_exact, has_proper. destruct dups; reflexivity. }
  rewrite Hskip.
  assert (He : has_exact = true <-> exact).
  { unfold has_exact, dups. rewrite existsb_filter. unfold exact, dup. split.
    - intros [e [Hin [Ht Hx]]]. exists e.
      apply str_eqb_eq in Ht. apply opt_str_eqb_eq in Hx. auto.
    - intros [e [[Hin Ht] Hx]]. exists e.
      rewrite str_eqb_eq, opt_str_eqb_eq. auto. }
  assert (Hp : has_proper = true <-> proper).
  { unfold has_proper, dups. rewrite existsb_filter. unfold proper, dup. split.
    - intros [e [Hin [Ht Hx]]]. apply proper_time_spec in Hx.
      destruct Hx as [s [Hs Hl]]. exists e, s. apply str_eqb_eq in Ht. auto.
    - intros [e [s [[Hin Ht] [Hs Hl]]]]. exists e.
      rewrite str_eqb_eq, proper_time_spec. eauto. }
  split.
  - intros [Hx | [Hpr Ht]].
    + apply He in Hx. rewrite Hx. reflexivity.
    + apply Hp in Hpr. rewrite Hpr, Ht. rewrite orb_true_r. reflexivity.
  - intros Hn.
    destruct has_exact eqn:E1; [exfalso; apply Hn; left; apply He; reflexivity|].
    destruct has_proper eqn:E2; [|reflexivity].
    destruct (truthy (d_time ev)) eqn:E3; [reflexivity|].
    exfalso. apply Hn. right. split; [apply Hp; reflexivity | reflexivity].
Qed.

End Dedup.



(* ================================================================= *)
(** ** The order within a day *)




(* ================================================================= *)
(** ** Activity placement *)



(** The frequency with the ASCII digits, on the cells of the examples. *)
Example frequency_examples :
  map (fun s => frequency_of (mkactivity [] [] [] s))
      [lit "-3"; []; lit "abc"; lit "3.0"; lit "12"; lit "007"]
  = [0; 0; 0; 0; 12; 7]%nat.
Proof. reflexivity. Qed.

(* ================================================================= *)
(** ** The key set *)



(* ================================================================= *)
(** ** Without holidays *)



(* ================================================================= *)
(** ** The text of a day cell *)

Section CellFacts.

Import Render.

Lemma split_cons_sep (sep : char) (r : str) :
  split sep (sep :: r) = [] :: split sep r.
Proof. cbn [split]. rewrite N.eqb_refl. reflexivity. Qed.

Lemma split_cons_other (sep c : char) (r : str) :
  (c =? sep) = false ->
  split sep (c :: r)
  = match split sep r with
    | f :: fs => (c :: f) :: fs
    | [] => [[c]]
    end.
Proof. intros H. cbn [split]. rewrite H. reflexivity. Qed.

Lemma split_letter_lines (c : char) (k : nat) :
  (c =? 10) = false ->
  split 10 (letter_lines c (S k)) = repeat [c] (S k).
Proof.
  intros Hc. unfold letter_lines.
  induction k as [|k IH].
  - rewrite split_cons_other by exact Hc. reflexivity.
  - change (c :: List.concat (repeat [10; c] (S k)))
      with (c :: 10 :: c :: List.concat (repeat [10; c] k)).
    rewrite split_cons_other by exact Hc.
    rewrite split_cons_sep, IH. reflexivity.
Qed.

(** A line that is the one-letter word [a] is drawn wherever the cursor
    stands, and the cursor moves down one line. *)
Lemma draw_line_letter (st : state) :
  draw_line wrap_word st [97]
  = ((fst st - line_spacing)%Z, snd st ++ [DrawPlain (fst st) [97]]).
Proof.
  unfold draw_line. change (strip (clean_text [97])) with [97].
  cbn [wrap_word draw_sublines]. change (strip [97]) with [97].
  change (str_isupper [97]) with false.
  change (startswith (lit "staff:") (lower [97])) with false.
  change (time_match [97]) with (@None (str * str)).
  cbn iota. destruct (fst st - line_spacing <? 40)%Z; reflexivity.
Qed.

Lemma draw_letter_lines (n : nat) (st : state) :
  List.length (snd (fold_left (draw_line wrap_word) (repeat [97] n) st))
  = (List.length (snd st) + n)%nat.
Proof.
  revert st. induction n as [|n IH]; intros st; cbn [repeat fold_left].
  - lia.
  - rewrite IH, draw_line_letter. cbn [snd]. rewrite length_app. simpl. lia.
Qed.

End CellFacts.

(** C6 does not hold of the cell loop.  The test of the cursor against the
    lower margin is made only after a timed or plain sub-line, and its
    [break] leaves only the loop over the sub-lines of the current line: the
    next line of the cell text is drawn all the same.  A cell text of
    thirteen one-word lines is drawn in full in the 52.7 mm cell: the cursor
    is under the budget (below 4 mm) after the eleventh line, the twelfth is
    drawn at 2.7 mm and the thirteenth 1.3 mm under the lower edge of the
    cell.  The same holds for holiday-styled lines, and however many lines
    the text has, all of them are drawn. *)
Theorem cell_text_is_not_truncated :
  map Render.op_y
      (Render.draw_cell Render.wrap_word Render.row_h (Render.letter_lines 97 13))
  = [467; 427; 387; 347; 307; 267; 227; 187; 147; 107; 67; 27; -13]%Z
  /\ map Render.op_y
      (Render.draw_cell Render.wrap_word Render.row_h (Render.letter_lines 65 13))
     = [467; 427; 387; 347; 307; 267; 227; 187; 147; 107; 67; 27; -13]%Z
  /\ forall (h : Z) (n : nat),
      List.length
        (Render.draw_cell Render.wrap_word h (Render.letter_lines 97 (S n)))
      = S n.
Proof.
  split; [reflexivity|]. split; [reflexivity|].
  intros h n. unfold Render.draw_cell.
  rewrite split_letter_lines by reflexivity.
  rewrite draw_letter_lines. reflexivity.
Qed.

(* ================================================================= *)
(** ** Further properties: cleaning and normalizing text *)

Section StripFacts.

Lemma rstrip_cons_solid (c : char) (r : str) :
  isspace c = false -> rstrip (c :: r) = c :: rstrip r.
Proof.
  intros H. cbn [rstrip]. destruct (rstrip r); [rewrite H|]; reflexivity.
Qed.

Lemma rstrip_idem (s : str) : rstrip (rstrip s) = rstrip s.
Proof.
  induction s as [|c r IH]; [reflexivity|].
  cbn [rstrip]. destruct (rstrip r) as [|x r'] eqn:E.
  - destruct (isspace c) eqn:W; [reflexivity|].
    cbn [rstrip]. rewrite W. reflexivity.
  - cbn [rstrip]. cbn [rstrip] in IH. rewrite IH. reflexivity.
Qed.

Lemma lstrip_head (s : str) :
  lstrip s = [] \/ exists c r, lstrip s = c :: r /\ isspace c = false.
Proof.
  induction s as [|c r IH]; [left; reflexivity|].
  cbn [lstrip]. destruct (isspace c) eqn:W; [exact IH|].
  right. exists c, r. auto.
Qed.

Lemma strip_head (s : str) :
  strip s = [] \/ exists c r, strip s = c :: r /\ isspace c = false.
Proof.
  unfold strip. destruct (lstrip_head s) as [E|[c [r [E W]]]]; rewrite E.
  - left. reflexivity.
  - right. rewrite (rstrip_cons_solid c r W). eauto.
Qed.

Lemma strip_idem (s : str) : strip (strip s) = strip s.
Proof.
  destruct (strip_head s) as [E|[c [r [E W]]]].
  - rewrite E. reflexivity.
  - unfold strip at 1. rewrite E. cbn [lstrip]. rewrite W.
    rewrite <- E. unfold strip. apply rstrip_idem.
Qed.

Lemma strip_cons_solid (c : char) (r : str) :
  isspace c = false -> strip (c :: r) = c :: rstrip r.
Proof.
  intros W. unfold strip. cbn [lstrip]. rewrite W.
  apply rstrip_cons_solid, W.
Qed.

Lemma lstrip_forall (P : char -> Prop) (s : str) :
  Forall P s -> Forall P (lstrip s).
Proof.
  induction 1 as [|c r Hc Hr IH]; [constructor|].
  cbn [lstrip]. destruct (isspace c); [exact IH | constructor; assumption].
Qed.

Lemma rstrip_forall (P : char -> Prop) (s : str) :
  Forall P s -> Forall P (rstrip s).
Proof.
  induction 1 as [|c r Hc Hr IH]; [constructor|].
  cbn [rstrip]. destruct (rstrip r) as [|x r'].
  - destruct (isspace c); constructor; [assumption | constructor].
  - constructor; assumption.
Qed.

Lemma strip_forall (P : char -> Prop) (s : str) :
  Forall P s -> Forall P (strip s).
Proof. intros H. apply rstrip_forall, lstrip_forall, H. Qed.

Lemma replace1_absent (bad : char) (good s : str) :
  Forall (fun c => c <> bad) s -> replace1 bad good s = s.
Proof.
  unfold replace1. induction 1 as [|c r Hc Hr IH]; [reflexivity|].
  cbn [flat_map]. apply N.eqb_neq in Hc. rewrite Hc, IH. reflexivity.
Qed.

End StripFacts.

(** X1.  [clean_text] answers ASCII text that neither begins nor ends with
    whitespace, and cleaning a cleaned text changes nothing. *)
Theorem clean_text_ascii_trimmed_idempotent (s : str) :
  Forall (fun c => c <= 127) (clean_text s)
  /\ (clean_text s = []
      \/ exists c r, clean_text s = c :: r /\ isspace c = false)
  /\ (clean_text s = []
      \/ exists p c, clean_text s = p ++ [c] /\ isspace c = false)
  /\ clean_text (clean_text s) = clean_text s.
Proof.
  assert (A : Forall (fun c => c <= 127) (clean_text s)).
  { unfold clean_text. apply strip_forall.
    apply Forall_forall. intros c Hc. apply filter_In in Hc.
    apply N.leb_le, Hc. }
  split; [exact A|].
  split; [apply strip_head|].
  split; [apply strip_ends_solid|].
  set (t := clean_text s) in *. unfold clean_text.
  assert (R : fold_left (fun acc br => replace1 (fst br) (snd br) acc)
                        replacements t = t).
  { unfold replacements. cbn [fold_left fst snd].
    assert (K : forall bad good, 127 < bad -> replace1 bad good t = t).
    { intros bad good Hb. apply replace1_absent.
      eapply Forall_impl; [|exact A]. intros c Hc. simpl in Hc. lia. }
    rewrite !K by lia. reflexivity. }
  rewrite R.
  assert (F : filter (fun c => c <=? 127) t = t).
  { clear R. induction A as [|c r Hc Hr IH]; [reflexivity|].
    cbn [filter]. apply N.leb_le in Hc. rewrite Hc, IH. reflexivity. }
  rewrite F. unfold t, clean_text. apply strip_idem.
Qed.

Section CanonicalTime.

(** The five characters of a canonical time. *)
Lemma canonical_chars (body hour : str) (minute : option str) :
  time_shape body hour minute ->
  exists a b c d,
    canonical hour minute = [a; b; 58; c; d]
    /\ isdigit a = true /\ isdigit b = true
    /\ isdigit c = true /\ isdigit d = true.
Proof.
  intros H.
  assert (Hh : hour_digits hour) by (destruct H; assumption).
  destruct (zfill_hour hour Hh) as [Zl Zd].
  destruct (zfill 2 hour) as [|a [|b [|x r]]] eqn:Ez; simpl in Zl; try lia.
  simpl in Zd. rewrite !andb_true_iff in Zd. destruct Zd as [Da [Db _]].
  unfold canonical. rewrite Ez.
  assert (M : exists c d, match minute with Some m => m | None => lit "00" end = [c; d]
                          /\ isdigit c = true /\ isdigit d = true).
  { destruct H as [h Hd | h m Hd [Hl Hm] | h m Hd [Hl Hm]].
    - exists 48, 48. repeat split.
    - destruct m as [|c [|d [|x r]]]; simpl in Hl; try lia.
      simpl in Hm. rewrite !andb_true_iff in Hm. exists c, d. tauto.
    - destruct m as [|c [|d [|x r]]]; simpl in Hl; try lia.
      simpl in Hm. rewrite !andb_true_iff in Hm. exists c, d. tauto. }
  destruct M as [c [d [Em [Dc Dd]]]].
  exists a, b, c, d. split; [|tauto].
  cbn [app]. do 3 f_equal. exact Em.
Qed.

Lemma clean_time_canonical (a b c d : char) :
  isdigit a = true -> isdigit b = true -> isdigit c = true -> isdigit d = true ->
  clean_time [a; b; 58; c; d] = [a; b; 58; c; d].
Proof.
  intros Da Db Dc Dd. unfold clean_time.
  rewrite strip_solid
    by (cbn [forallb];
        rewrite (isdigit_not_space a Da), (isdigit_not_space b Db),
          (isdigit_not_space c Dc), (isdigit_not_space d Dd);
        reflexivity).
  unfold lower, replace_char. cbn [map].
  rewrite (isdigit_lower a Da), (isdigit_lower b Db),
    (isdigit_lower c Dc), (isdigit_lower d Dd).
  change (lower_char 58) with 58.
  rewrite (isdigit_neq a 46 Da), (isdigit_neq b 46 Db),
    (isdigit_neq c 46 Dc), (isdigit_neq d 46 Dd) by lia.
  change (58 =? 46) with false. cbn iota.
  apply remove_char_solid. cbn [forallb].
  rewrite (isdigit_neq a 32 Da), (isdigit_neq b 32 Db),
    (isdigit_neq c 32 Dc), (isdigit_neq d 32 Dd) by lia.
  reflexivity.
Qed.

End CanonicalTime.

(* ================================================================= *)
(** ** Further properties: the merge loop *)

Section MergeFacts.

Lemma discards_dec (dm : daymap) (ev : dated) : discards dm ev \/ ~ discards dm ev.
Proof.
  unfold discards, dup_of.
  set (l := get (d_date ev) dm).
  set (p := fun e => str_eqb (title_key (ev_title e)) (title_key (d_title ev))).
  assert (A : (exists e, (In e l /\ title_key (ev_title e) = title_key (d_title ev))
                         /\ ev_time e = d_time ev)
              <-> existsb (fun e => opt_str_eqb (ev_time e) (d_time ev)) (filter p l) = true).
  { rewrite existsb_filter. unfold p. split.
    - intros [e [[Hin Ht] Hx]]. exists e. rewrite str_eqb_eq, opt_str_eqb_eq. auto.
    - intros [e [Hin [Ht Hx]]]. exists e.
      apply str_eqb_eq in Ht. apply opt_str_eqb_eq in Hx. auto. }
  assert (B : (exists e s, (In e l /\ title_key (ev_title e) = title_key (d_title ev))
                           /\ ev_time e = Some s /\ List.length s = 5%nat)
              <-> existsb (fun e => proper_time (ev_time e)) (filter p l) = true).
  { rewrite existsb_filter. unfold p. split.
    - intros [e [s [[Hin Ht] [Hs Hl]]]]. exists e.
      rewrite str_eqb_eq, proper_time_spec. eauto.
    - intros [e [Hin [Ht Hx]]]. apply proper_time_spec in Hx.
      destruct Hx as [s [Hs Hl]]. exists e, s. apply str_eqb_eq in Ht. auto. }
  rewrite A, B.
  destruct (existsb (fun e => opt_str_eqb (ev_time e) (d_time ev)) (filter p l));
    [left; left; reflexivity|].
  destruct (existsb (fun e => proper_time (ev_time e)) (filter p l));
    [|right; intros [H|[H _]]; discriminate].
  destruct (truthy (d_time ev));
    [right; intros [H|[_ H]]; discriminate | left; right; split; reflexivity].
Qed.

(** One turn of the merge loop either leaves the map or appends the
    candidate's entry to its day. *)
Lemma seat_event_dichotomy (dm : daymap) (ev : dated) :
  (settled dm ev /\ seat_event dm ev = dm)
  \/ (mem (d_date ev) dm = true /\ ~ discards dm ev
      /\ seat_event dm ev
         = append_to (d_date ev)
             (mkevent (d_time ev) (d_title ev) (d_notes ev)) dm).
Proof.
  destruct (mem (d_date ev) dm) eqn:Hmem.
  - destruct (seat_event_cases dm ev Hmem) as [Hs Ha].
    destruct (discards_dec dm ev) as [D|D].
    + left. split; [right; exact D | apply Hs, D].
    + right. split; [reflexivity|]. split; [exact D | apply Ha, D].
  - left. split; [left; exact Hmem|].
    unfold seat_event. rewrite Hmem. reflexivity.
Qed.

Lemma seat_event_settled (dm : daymap) (ev : dated) :
  settled dm ev -> seat_event dm ev = dm.
Proof.
  intros H. destruct (seat_event_dichotomy dm ev) as [[_ E]|[Hm [D _]]];
    [exact E|].
  destruct H as [H|H]; [congruence | contradiction].
Qed.

Lemma extends_refl (dm : daymap) : extends dm dm.
Proof.
  split; [reflexivity|]. intros d. exists []. rewrite app_nil_r. reflexivity.
Qed.

Lemma extends_trans (a b c : daymap) : extends a b -> extends b c -> extends a c.
Proof.
  intros [M1 G1] [M2 G2]. split.
  - intros d. rewrite M2. apply M1.
  - intros d. destruct (G1 d) as [x Hx]. destruct (G2 d) as [y Hy].
    exists (x ++ y). rewrite Hy, Hx, app_assoc. reflexivity.
Qed.

Lemma extends_append_to (d : date) (e : event) (dm : daymap) :
  mem d dm = true -> extends dm (append_to d e dm).
Proof.
  intros Hm. split; [intros k; apply mem_append_to|].
  intros k. destruct (date_eqb k d) eqn:E.
  - apply date_eqb_eq in E. subst k. exists [e]. apply get_append_same, Hm.
  - apply date_eqb_neq in E. exists [].
    rewrite app_nil_r. apply get_append_other, E.
Qed.

Lemma extends_seat_event (dm : daymap) (ev : dated) : extends dm (seat_event dm ev).
Proof.
  destruct (seat_event_dichotomy dm ev) as [[_ E]|[Hm [_ E]]]; rewrite E.
  - apply extends_refl.
  - apply extends_append_to, Hm.
Qed.

Lemma extends_merge (evs : list dated) (dm : daymap) :
  extends dm (fold_left seat_event evs dm).
Proof.
  revert dm. induction evs as [|ev evs IH]; intros dm; cbn [fold_left].
  - apply extends_refl.
  - eapply extends_trans; [apply extends_seat_event | apply IH].
Qed.

Lemma settled_mono (dm dm' : daymap) (ev : dated) :
  extends dm dm' -> settled dm ev -> settled dm' ev.
Proof.
  intros [M G] [H|H]; [left; rewrite M; exact H|].
  right. destruct (G (d_date ev)) as [added Ha].
  assert (K : forall e, dup_of dm ev e -> dup_of dm' ev e).
  { intros e [Hin Ht]. split; [|exact Ht].
    rewrite Ha. apply in_or_app. left. exact Hin. }
  destruct H as [[e [Hd Hx]]|[[e [s [Hd Hx]]] Hu]].
  - left. exists e. auto.
  - right. split; [exists e, s; auto | exact Hu].
Qed.

Lemma settled_after_seat (dm : daymap) (ev : dated) :
  settled (seat_event dm ev) ev.
Proof.
  destruct (seat_event_dichotomy dm ev) as [[S E]|[Hm [_ E]]]; rewrite E.
  - exact S.
  - right. left.
    exists (mkevent (d_time ev) (d_title ev) (d_notes ev)).
    split; [|reflexivity]. split; [|reflexivity].
    rewrite get_append_same by exact Hm. apply in_or_app. right. left. reflexivity.
Qed.

Lemma settled_after_merge (evs : list dated) (dm : daymap) (ev : dated) :
  In ev evs -> settled (fold_left seat_event evs dm) ev.
Proof.
  revert dm. induction evs as [|e0 evs IH]; intros dm Hin; [destruct Hin|].
  cbn [fold_left]. destruct Hin as [->|Hin]; [|apply IH, Hin].
  eapply settled_mono; [apply extends_merge | apply settled_after_seat].
Qed.

Lemma merge_settled (evs : list dated) (dm : daymap) :
  (forall ev, In ev evs -> settled dm ev) -> fold_left seat_event evs dm = dm.
Proof.
  induction evs as [|e0 evs IH]; intros H; [reflexivity|].
  cbn [fold_left]. rewrite seat_event_settled by (apply H; left; reflexivity).
  apply IH. intros ev Hin. apply H. right. exact Hin.
Qed.

Lemma fresh_app (prev a b : list event) :
  fresh prev a -> fresh (prev ++ a) b -> fresh prev (a ++ b).
Proof.
  revert prev. induction a as [|e a IH]; intros prev Ha Hb.
  - rewrite app_nil_r in Hb. exact Hb.
  - cbn [fresh app] in *. destruct Ha as [H1 H2]. split; [exact H1|].
    apply IH; [exact H2|]. rewrite <- app_assoc. exact Hb.
Qed.

Lemma seat_event_fresh (dm : daymap) (ev : dated) (d : date) :
  exists added,
    get d (seat_event dm ev) = get d dm ++ added /\ fresh (get d dm) added.
Proof.
  destruct (seat_event_dichotomy dm ev) as [[_ E]|[Hm [D E]]]; rewrite E.
  - exists []. rewrite app_nil_r. split; [reflexivity | exact I].
  - destruct (date_eqb d (d_date ev)) eqn:Ed.
    + apply date_eqb_eq in Ed. subst d.
      exists [mkevent (d_time ev) (d_title ev) (d_notes ev)].
      split; [apply get_append_same, Hm|].
      cbn [fresh]. split; [|exact I].
      intros x Hx [Ht Hq]. apply D. left. exists x.
      split; [split; [exact Hx | exact Ht] | exact Hq].
    + apply date_eqb_neq in Ed. exists [].
      rewrite app_nil_r. split; [apply get_append_other, Ed | exact I].
Qed.

End MergeFacts.

(** X3.  The merge loop only appends: each day's list after the loop is the
    list before it followed by the entries the loop added, and none of those
    has both the lowercase-trimmed title and the time of an entry that
    precedes it on that day. *)
Theorem merge_appends_fresh_entries (evs : list dated) (dm : daymap) (d : date) :
  exists added,
    get d (fold_left seat_event evs dm) = get d dm ++ added
    /\ fresh (get d dm) added.
Proof.
  revert dm. induction evs as [|ev evs IH]; intros dm; cbn [fold_left].
  - exists []. rewrite app_nil_r. split; [reflexivity | exact I].
  - destruct (seat_event_fresh dm ev d) as [a [Ea Fa]].
    destruct (IH (seat_event dm ev)) as [b [Eb Fb]].
    exists (a ++ b). rewrite Eb, Ea, app_assoc. split; [reflexivity|].
    apply fresh_app; [exact Fa|]. rewrite <- Ea. exact Fb.
Qed.

(** X4.  Handing the merge loop again events it has already processed
    changes nothing: a candidate that was appended is now an exact repeat,
    and one that was discarded is discarded again. *)
Theorem merge_absorbs_repeats (evs again : list dated) (dm : daymap) :
  incl again evs ->
  fold_left seat_event (evs ++ again) dm = fold_left seat_event evs dm.
Proof.
  intros H. rewrite fold_left_app. apply merge_settled.
  intros ev Hin. apply settled_after_merge, H, Hin.
Qed.

(** Film Night at 19:00 submitted twice is entered once. *)
Lemma merge_absorbs_repeats_witness :
  get film_day
      (fold_left seat_event
         ([mkdated film_day (Some (lit "19:00")) (lit "Film Night") Fixed]
            ++ [mkdated film_day (Some (lit "19:00")) (lit "Film Night") Fixed])
         film_map)
  = [ mkevent (Some (lit "18:00")) (lit "Film Night") Activity;
      mkevent (Some (lit "19:00")) (lit "Film Night") Fixed ].
Proof.
  rewrite (merge_absorbs_repeats
             [mkdated film_day (Some (lit "19:00")) (lit "Film Night") Fixed]
             [mkdated film_day (Some (lit "19:00")) (lit "Film Night") Fixed]
             film_map).
  - reflexivity.
  - intros x Hx. exact Hx.
Defined.

(* ================================================================= *)
(** ** Further properties: the stages before the merge *)

Section StageFacts.

Lemma mem_of_keys (dm dm' : daymap) (d : date) :
  keys dm' = keys dm -> mem d dm' = mem d dm.
Proof. unfold mem. intros ->. reflexivity. Qed.

Lemma holiday_fold (evs : list holiday) (seen : list (date * str))
  (dm0 : daymap) (d : date) :
  exists hs,
    get d (snd (fold_left holiday_step evs (seen, dm0))) = get d dm0 ++ hs
    /\ Forall holiday_entry hs
    /\ NoDup (map (fun e => holiday_key (ev_title e)) hs)
    /\ (forall e, In e hs -> seen_has seen d (holiday_key (ev_title e)) = false)
    /\ (forall e, In e hs ->
          exists h, In h evs /\ h_date h = d /\ h_title h = ev_title e).
Proof.
  revert seen dm0. induction evs as [|ev evs IH]; intros seen dm0.
  - exists []. cbn [fold_left snd]. rewrite app_nil_r.
    repeat split; try constructor; intros e [].
  - cbn [fold_left]. unfold holiday_step at 2.
    fold (holiday_key (h_title ev)).
    fold (seen_has seen (h_date ev) (holiday_key (h_title ev))).
    destruct (seen_has seen (h_date ev) (holiday_key (h_title ev))) eqn:Hs.
    + destruct (IH seen dm0) as [hs [E [F [N [S Src]]]]].
      exists hs. repeat split; try assumption.
      intros e He. destruct (Src e He) as [h [Hh R]]. exists h. split; [right; exact Hh | exact R].
    + set (seen' := (h_date ev, holiday_key (h_title ev)) :: seen).
      assert (Sub : forall k t, seen_has seen' k t = false -> seen_has seen k t = false).
      { intros k t H. unfold seen_has, seen' in *. cbn [existsb] in H.
        apply orb_false_iff in H. apply H. }
      destruct (mem (h_date ev) dm0) eqn:Hm.
      * destruct (IH seen' (append_to (h_date ev)
                              (mkevent None (h_title ev) Holiday) dm0))
          as [hs [E [F [N [S Src]]]]].
        destruct (date_eqb d (h_date ev)) eqn:Ed.
        -- apply date_eqb_eq in Ed. subst d.
           exists (mkevent None (h_title ev) Holiday :: hs).
           rewrite E, get_append_same by exact Hm. rewrite <- app_assoc.
           split; [reflexivity|].
           split; [constructor; [split; reflexivity | exact F]|].
           split.
           { cbn [map]. constructor; [|exact N].
             intros Hin. apply in_map_iff in Hin. destruct Hin as [e [Ek He]].
             specialize (S e He). rewrite Ek in S.
             unfold seen_has, seen' in S. cbn [existsb fst snd] in S.
             rewrite date_eqb_refl, str_eqb_refl in S. discriminate. }
           split.
           { intros e [<-|He]; [exact Hs | apply Sub, S, He]. }
           intros e [<-|He].
           { exists ev. split; [left; reflexivity | split; reflexivity]. }
           destruct (Src e He) as [h [Hh R]]. exists h. split; [right; exact Hh | exact R].
        -- apply date_eqb_neq in Ed.
           exists hs. rewrite E, get_append_other by exact Ed.
           repeat split; try assumption.
           ++ intros e He. apply Sub, S, He.
           ++ intros e He. destruct (Src e He) as [h [Hh R]].
              exists h. split; [right; exact Hh | exact R].
      * destruct (IH seen' dm0) as [hs [E [F [N [S Src]]]]].
        exists hs. repeat split; try assumption.
        -- intros e He. apply Sub, S, He.
        -- intros e He. destruct (Src e He) as [h [Hh R]].
           exists h. split; [right; exact Hh | exact R].
Qed.

Lemma shift_title_entry (dm : daymap) (r : rota_row) (d : date) :
  exists ss,
    get d (shift_step dm r) = get d dm ++ ss
    /\ Forall (fun e => shift_entry e /\ r_date r = Some d
                        /\ ev_title e = shift_title r) ss.
Proof.
  unfold shift_step.
  destruct (r_date r) as [d0|] eqn:Er;
    [|exists []; rewrite app_nil_r; split; [reflexivity | constructor]].
  destruct (mem d0 dm) eqn:Hm;
    [|exists []; rewrite app_nil_r; split; [reflexivity | constructor]].
  destruct (shift_title r) as [|c t] eqn:Et;
    [exists []; rewrite app_nil_r; split; [reflexivity | constructor]|].
  destruct (date_eqb d d0) eqn:Ed.
  - apply date_eqb_eq in Ed. subst d0.
    exists [mkevent None (c :: t) StaffShift].
    split; [apply get_append_same, Hm|].
    constructor; [|constructor].
    split; [|split; reflexivity].
    split; [reflexivity|]. split; [reflexivity | discriminate].
  - apply date_eqb_neq in Ed. exists [].
    rewrite app_nil_r. split; [apply get_append_other, Ed | constructor].
Qed.

Lemma shift_fold (rows : list rota_row) (dm : daymap) (d : date) :
  exists ss,
    get d (fold_left shift_step rows dm) = get d dm ++ ss
    /\ Forall (fun e => shift_entry e
                        /\ exists r, In r rows /\ r_date r = Some d
                                     /\ ev_title e = shift_title r) ss.
Proof.
  revert dm. induction rows as [|r rows IH]; intros dm; cbn [fold_left].
  - exists []. rewrite app_nil_r. split; [reflexivity | constructor].
  - destruct (shift_title_entry dm r d) as [a [Ea Fa]].
    destruct (IH (shift_step dm r)) as [b [Eb Fb]].
    exists (a ++ b). rewrite Eb, Ea, app_assoc. split; [reflexivity|].
    apply Forall_app. split.
    + eapply Forall_impl; [|exact Fa]. intros e [H1 [H2 H3]].
      split; [exact H1|]. exists r. split; [left; reflexivity | auto].
    + eapply Forall_impl; [|exact Fb]. intros e [H1 [r0 [H2 H3]]].
      split; [exact H1|]. exists r0. split; [right; exact H2 | exact H3].
Qed.



Lemma insert_event_first (x : event) (l : list event) :
  Forall (key_le x) l -> insert_event x l = x :: l.
Proof.
  destruct l as [|y r]; [reflexivity|]. intros H. inversion H; subst.
  cbn [insert_event]. unfold key_le in H2. rewrite H2. reflexivity.
Qed.

(** A sorted run of entries that are not above any entry after them stays in
    front, as it is. *)
Lemma py_sort_keeps_prefix (a b : list event) :
  StronglySorted key_le a ->
  (forall x y, In x a -> In y b -> key_le x y) ->
  py_sort (a ++ b) = a ++ py_sort b.
Proof.
  induction 1 as [|x a Hs IH Hx]; intros Hab; [reflexivity|].
  cbn [app py_sort fold_right]. fold (py_sort (a ++ b)).
  rewrite IH by (intros u v Hu Hv; apply Hab; [right; exact Hu | exact Hv]).
  apply insert_event_first. apply Forall_app. split; [exact Hx|].
  apply Forall_forall. intros v Hv. apply Hab; [left; reflexivity|].
  apply (Permutation_in _ (Permutation_sym (py_sort_perm b))), Hv.
Qed.

Lemma py_sort_sorted_id (l : list event) : StronglySorted key_le l -> py_sort l = l.
Proof.
  intros H. rewrite <- (app_nil_r l) at 1.
  rewrite py_sort_keeps_prefix; [apply app_nil_r | exact H | intros x y _ []].
Qed.





End StageFacts.

Section HolidayStage.

(** Every holiday of the list dated on a key of the map is seen already or
    gets an entry with its key; a date that is no key gets none. *)
Lemma holiday_fold_complete (evs : list holiday) (seen : list (date * str))
  (dm0 : daymap) (d : date) :
  exists hs,
    get d (snd (fold_left holiday_step evs (seen, dm0))) = get d dm0 ++ hs
    /\ (mem d dm0 = true ->
        forall h, In h evs -> h_date h = d ->
          seen_has seen d (holiday_key (h_title h)) = true
          \/ exists e, In e hs
                       /\ holiday_key (ev_title e) = holiday_key (h_title h))
    /\ (mem d dm0 = false -> hs = []).
Proof.
  revert seen dm0. induction evs as [|ev evs IH]; intros seen dm0.
  - exists []. cbn [fold_left snd]. rewrite app_nil_r.
    split; [reflexivity|]. split; [intros _ h []|reflexivity].
  - cbn [fold_left]. unfold holiday_step at 2.
    fold (holiday_key (h_title ev)).
    fold (seen_has seen (h_date ev) (holiday_key (h_title ev))).
    destruct (seen_has seen (h_date ev) (holiday_key (h_title ev))) eqn:Hs.
    + destruct (IH seen dm0) as [hs [E [C O]]].
      exists hs. split; [exact E|]. split; [|exact O].
      intros Hm h [<-|Hh] Hd.
      * left. rewrite <- Hd. exact Hs.
      * apply (C Hm h Hh Hd).
    + set (seen' := (h_date ev, holiday_key (h_title ev)) :: seen).
      assert (Sup : forall k t, seen_has seen' k t = true ->
                (h_date ev = k /\ holiday_key (h_title ev) = t)
                \/ seen_has seen k t = true).
      { intros k t H. unfold seen_has, seen' in *. cbn [existsb fst snd] in H.
        apply orb_true_iff in H. destruct H as [H|H]; [left | right; exact H].
        apply andb_true_iff in H. destruct H as [H1 H2].
        apply date_eqb_eq in H1. apply str_eqb_eq in H2. auto. }
      destruct (mem (h_date ev) dm0) eqn:Hm0.
      * destruct (IH seen' (append_to (h_date ev)
                              (mkevent None (h_title ev) Holiday) dm0))
          as [hs [E [C O]]].
        rewrite mem_append_to in C, O.
        destruct (date_eqb d (h_date ev)) eqn:Ed.
        -- apply date_eqb_eq in Ed. subst d.
           exists (mkevent None (h_title ev) Holiday :: hs).
           rewrite E, get_append_same by exact Hm0. rewrite <- app_assoc.
           split; [reflexivity|]. split; [|congruence].
           intros _ h [<-|Hh] Hd.
           ++ right. exists (mkevent None (h_title ev) Holiday).
              split; [left; reflexivity | reflexivity].
           ++ destruct (C Hm0 h Hh Hd) as [S|[e [He Hk]]].
              ** destruct (Sup _ _ S) as [[_ K]|S'].
                 --- right. exists (mkevent None (h_title ev) Holiday).
                     split; [left; reflexivity | exact K].
                 --- left. exact S'.
              ** right. exists e. split; [right; exact He | exact Hk].
        -- apply date_eqb_neq in Ed.
           exists hs. rewrite E, get_append_other by exact Ed.
           split; [reflexivity|]. split; [|exact O].
           intros Hm h [<-|Hh] Hd.
           ++ exfalso. apply Ed. symmetry. exact Hd.
           ++ destruct (C Hm h Hh Hd) as [S|R]; [|right; exact R].
              destruct (Sup _ _ S) as [[K _]|S']; [|left; exact S'].
              exfalso. apply Ed. symmetry. exact K.
      * destruct (IH seen' dm0) as [hs [E [C O]]].
        exists hs. split; [exact E|]. split; [|exact O].
        intros Hm h [<-|Hh] Hd.
        -- exfalso. rewrite Hd in Hm0. congruence.
        -- destruct (C Hm h Hh Hd) as [S|R]; [|right; exact R].
           destruct (Sup _ _ S) as [[K _]|S']; [|left; exact S'].
           exfalso. rewrite K in Hm0. congruence.
Qed.

End HolidayStage.

(** X5.  The holiday stage only appends to the days of the map.  What it
    adds to a day are entries with the holiday note and no time, each with
    the title of a holiday of that date in the bank-holiday list followed by
    the awareness list, with pairwise different keys (the cleaned, trimmed,
    lowercased title); and on a day of the map each holiday of that date in
    those lists has an entry with its key.  So a title listed again for the
    same date is entered exactly once, and a date outside the map gets
    nothing. *)
Theorem holiday_stage_enters_each_title_once
  (bank : list holiday) (y m : Z) (dm : daymap) (d : date) :
  exists hs,
    get d (add_holidays bank y m dm) = get d dm ++ hs
    /\ Forall holiday_entry hs
    /\ NoDup (map (fun e => holiday_key (ev_title e)) hs)
    /\ (forall e, In e hs ->
          exists h, In h (bank ++ fetch_awareness_days y m)
                    /\ h_date h = d /\ h_title h = ev_title e)
    /\ (mem d dm = true ->
        forall h, In h (bank ++ fetch_awareness_days y m) -> h_date h = d ->
          exists e, In e hs
                    /\ holiday_key (ev_title e) = holiday_key (h_title h))
    /\ (mem d dm = false -> hs = []).
Proof.
  unfold add_holidays.
  destruct (holiday_fold (bank ++ fetch_awareness_days y m) [] dm d)
    as [hs [E [F [N [_ Src]]]]].
  destruct (holiday_fold_complete (bank ++ fetch_awareness_days y m) [] dm d)
    as [hs' [E' [C O]]].
  assert (Same : hs' = hs)
    by (rewrite E in E'; apply app_inv_head in E'; symmetry; exact E').
  subst hs'.
  exists hs. repeat split; try assumption.
  intros Hm h Hh Hd. destruct (C Hm h Hh Hd) as [S|R]; [discriminate S | exact R].
Qed.

(** Christmas Day listed twice for 25 December 2025, the second time in
    capitals with a space after it: the day gets one entry, the first
    title. *)
Lemma holiday_stage_witness :
  get (mkdate 2025 12 25) (add_holidays festive_bank 2025 12 december_2025)
  = [mkevent None (lit "Christmas Day") Holiday]
  /\ exists hs,
       get (mkdate 2025 12 25) (add_holidays festive_bank 2025 12 december_2025)
       = hs
       /\ NoDup (map (fun e => holiday_key (ev_title e)) hs)
       /\ exists e, In e hs /\ holiday_key (ev_title e) = lit "christmas day".
Proof.
  split; [reflexivity|].
  destruct (holiday_stage_enters_each_title_once
              festive_bank 2025 12 december_2025 (mkdate 2025 12 25))
    as [hs [E [_ [N [_ [C _]]]]]].
  exists hs. split; [exact E|]. split; [exact N|].
  apply (C eq_refl (mkholiday (mkdate 2025 12 25) (lit "CHRISTMAS DAY ")));
    [right; right; left; reflexivity | reflexivity].
Defined.

Section ShiftStage.

Lemma get_not_mem (d : date) (dm : daymap) : mem d dm = false -> get d dm = [].
Proof.
  unfold mem, keys. induction dm as [|[k evs] r IH]; [reflexivity|].
  cbn [map existsb get fst]. destruct (date_eqb d k); [discriminate | exact IH].
Qed.

End ShiftStage.

(** X6.  The shift stage only appends to the days of the map: what it adds
    to a day are entries with the staff-shift note, no time and the title of
    a rota row whose date parsed to that day, a title that is not empty and
    does not begin with whitespace; a day that is not a key of the map gets
    nothing. *)
Theorem shift_stage_appends_named_shifts
  (rows : list rota_row) (dm : daymap) (d : date) :
  exists ss,
    get d (add_shifts (Some rows) dm) = get d dm ++ ss
    /\ Forall (fun e =>
                 shift_entry e
                 /\ (exists c t, ev_title e = c :: t /\ isspace c = false)
                 /\ exists r, In r rows /\ r_date r = Some d
                              /\ ev_title e = shift_title r) ss
    /\ (mem d dm = false -> ss = []).
Proof.
  cbn [add_shifts]. destruct (shift_fold rows dm d) as [ss [E F]].
  exists ss. split; [exact E|]. split.
  - eapply Forall_impl; [|exact F].
    intros e [He [r [Hr [Hd Ht]]]]. split; [exact He|]. split.
    + destruct He as [_ [_ Hne]]. rewrite Ht in *.
      unfold shift_title in *.
      match goal with |- exists c t, strip ?x = _ /\ _ =>
        destruct (strip_head x) as [E0|[c [t [E0 W]]]] end;
        [contradiction | exists c, t; auto].
    + exists r. auto.
  - intros Hm.
    assert (Hm' : mem d (fold_left shift_step rows dm) = false).
    { rewrite <- Hm. apply mem_of_keys.
      exact (keys_add_shifts (Some rows) dm). }
    apply get_not_mem in Hm'. apply get_not_mem in Hm.
    rewrite Hm', Hm in E. destruct ss; [reflexivity | discriminate].
Qed.



(* ================================================================= *)
(** ** Further properties: weekly rules and the awareness list *)

Section WeeklyFacts.

Lemma flat_map_if {A B} (p : A -> bool) (f : A -> B) (l : list A) :
  flat_map (fun x => if p x then [f x] else []) l = map f (filter p l).
Proof.
  induction l as [|x l IH]; [reflexivity|].
  cbn [flat_map filter]. destruct (p x); cbn [map app]; rewrite IH; reflexivity.
Qed.

(** Within a month the weekday advances by one each day. *)
Lemma weekday_in_month (y m : Z) (i : Z) :
  weekday (mkdate y m (i + 1)) = ((weekday (mkdate y m 1) + i) mod 7)%Z.
Proof.
  unfold weekday, toordinal. cbn [year month day].
  rewrite Zplus_mod_idemp_l. f_equal. lia.
Qed.

Lemma weekday_range (d : date) : (0 <= weekday d <= 6)%Z.
Proof.
  unfold weekday. pose proof (Z.mod_pos_bound (toordinal d + 6) 7). lia.
Qed.

Lemma count_weekday_bounds (c n w : Z) :
  (0 <= c <= 6)%Z -> (28 <= n <= 31)%Z -> (0 <= w <= 6)%Z ->
  (4 <= List.length
          (filter (fun i => ((c + Z.of_nat i) mod 7 =? w)%Z) (seq 0 (Z.to_nat n)))
   <= 5)%nat.
Proof.
  intros Hc Hn Hw.
  assert (C : (c = 0 \/ c = 1 \/ c = 2 \/ c = 3 \/ c = 4 \/ c = 5 \/ c = 6)%Z) by lia.
  assert (N : (n = 28 \/ n = 29 \/ n = 30 \/ n = 31)%Z) by lia.
  assert (W : (w = 0 \/ w = 1 \/ w = 2 \/ w = 3 \/ w = 4 \/ w = 5 \/ w = 6)%Z) by lia.
  clear Hc Hn Hw.
  repeat (destruct C as [->|C]); try subst c;
    repeat (destruct N as [->|N]); try subst n;
      repeat (destruct W as [->|W]); try subst w;
        vm_compute; split; repeat constructor.
Qed.

End WeeklyFacts.

(** X8.  A weekly rule gives one event on each date of the month whose
    weekday is the rule's, in ascending order, with the cleaned title and the
    rule's time text.  For a valid month and a weekday from 0 to 6 that makes
    four or five events; for any other weekday number it makes none. *)
Theorem weekly_rule_occurrences (y m : Z) (rl : rule) (dm : daymap) :
  valid_year_month y m = true ->
  keys dm = month_dates y m ->
  let evs := fixed_rules_of [rl] dm in
  evs = map (fun d => mkdated d (rule_time rl) (clean_text (rule_title rl)) Fixed)
            (filter (fun d => (weekday d =? rule_weekday rl)%Z) (month_dates y m))
  /\ ((0 <= rule_weekday rl <= 6)%Z -> (4 <= List.length evs <= 5)%nat)
  /\ ((rule_weekday rl < 0 \/ 6 < rule_weekday rl)%Z -> evs = []).
Proof.
  intros Hv Hk evs.
  assert (E : evs = map (fun d => mkdated d (rule_time rl)
                                          (clean_text (rule_title rl)) Fixed)
                        (filter (fun d => (weekday d =? rule_weekday rl)%Z)
                                (month_dates y m))).
  { unfold evs, fixed_rules_of. cbn [flat_map]. rewrite app_nil_r, Hk.
    apply (flat_map_if (fun d => (weekday d =? rule_weekday rl)%Z)). }
  split; [exact E|]. rewrite E. split.
  - intros Hw. rewrite length_map. unfold month_dates.
    set (c := weekday (mkdate y m 1)).
    assert (F : forall l,
      List.length (filter (fun d => (weekday d =? rule_weekday rl)%Z)
                     (map (fun i => mkdate y m (Z.of_nat i + 1)) l))
      = List.length (filter (fun i => ((c + Z.of_nat i) mod 7 =? rule_weekday rl)%Z) l)).
    { induction l as [|i l IH]; [reflexivity|].
      cbn [map filter]. rewrite weekday_in_month. fold c.
      destruct ((c + Z.of_nat i) mod 7 =? rule_weekday rl)%Z;
        cbn [List.length]; rewrite IH; reflexivity. }
    rewrite F. apply count_weekday_bounds;
      [apply weekday_range | apply days_in_month_pos, Hv | exact Hw].
  - intros Hw.
    replace (filter (fun d => (weekday d =? rule_weekday rl)%Z) (month_dates y m))
      with (@nil date); [reflexivity|].
    symmetry. clear E Hk. induction (month_dates y m) as [|d l IH]; [reflexivity|].
    cbn [filter]. pose proof (weekday_range d).
    replace (weekday d =? rule_weekday rl)%Z with false
      by (symmetry; apply Z.eqb_neq; lia).
    exact IH.
Qed.

(** Thursdays of November 2025: the 6th, 13th, 20th and 27th. *)
Lemma weekly_rule_occurrences_witness :
  map (fun ev => day (d_date ev))
      (fixed_rules_of [mkrule 3 (Some (lit "18")) (lit "Film Night")] november_2025)
  = [6; 13; 20; 27]%Z.
Proof.
  destruct (weekly_rule_occurrences 2025 11
              (mkrule 3 (Some (lit "18")) (lit "Film Night")) november_2025)
    as [E _]; [reflexivity | reflexivity |].
  rewrite E. reflexivity.
Defined.

(** X9.  For a year that [dt.date] accepts, the awareness list has entries
    for November only: for every other month it is empty, and for November it
    holds the twelve entries of the table, all dated in that November. *)
Theorem awareness_days_only_in_november (y m : Z) :
  (1 <= y <= 9999)%Z ->
  (m <> 11%Z -> fetch_awareness_days y m = [])
  /\ (m = 11%Z ->
      List.length (fetch_awareness_days y m) = 12%nat
      /\ Forall (fun h => year (h_date h) = y /\ month (h_date h) = 11%Z
                          /\ (1 <= day (h_date h) <= 30)%Z)
                (fetch_awareness_days y m)).
Proof.
  intros _. split.
  - intros Hm. unfold fetch_awareness_days. cbn [filter h_date year month].
    rewrite Z.eqb_refl. apply Z.eqb_neq in Hm.
    replace (11 =? m)%Z with false by (symmetry; rewrite Z.eqb_sym; exact Hm).
    reflexivity.
  - intros ->. unfold fetch_awareness_days. cbn [filter h_date year month].
    rewrite Z.eqb_refl. cbn [andb Z.eqb Pos.eqb filter].
    split; [reflexivity|].
    repeat constructor; cbn [h_date year month day]; lia.
Qed.

(** October 2025 has no awareness day. *)
Lemma awareness_days_witness : fetch_awareness_days 2025 10 = [].
Proof.
  apply (awareness_days_only_in_november 2025 10); [lia | discriminate].
Defined.

(* ================================================================= *)
(** ** Further properties: the rules text *)

Section RulesText.

Lemma split_no_sep (sep : char) (a : str) :
  Forall (fun c => c <> sep) a -> split sep a = [a].
Proof.
  induction 1 as [|c a Hc Ha IH]; [reflexivity|].
  apply N.eqb_neq in Hc. rewrite (split_cons_other sep c a Hc), IH. reflexivity.
Qed.

Lemma split_app_sep (sep : char) (a b : str) :
  Forall (fun c => c <> sep) a -> split sep (a ++ sep :: b) = a :: split sep b.
Proof.
  induction 1 as [|c a Hc Ha IH]; [apply split_cons_sep|].
  apply N.eqb_neq in Hc. cbn [app].
  rewrite (split_cons_other sep c _ Hc), IH. reflexivity.
Qed.

Lemma split_nonempty (sep : char) (s : str) : split sep s <> [].
Proof.
  destruct s as [|c r]; [discriminate|]. cbn [split].
  destruct (c =? sep); [discriminate|]. destruct (split sep r); discriminate.
Qed.

Lemma index_of_some (x : str) (l : list str) (i : nat) :
  index_of x l = Some i -> (i < List.length l)%nat /\ nth_error l i = Some x.
Proof.
  revert i. induction l as [|y l IH]; intros i; [discriminate|].
  cbn [index_of]. destruct (str_eqb_spec y x) as [->|Hne].
  - intros H. inversion H; subst. split; [simpl; lia | reflexivity].
  - destruct (index_of x l) as [j|]; [|discriminate].
    intros H. inversion H; subst. destruct (IH j eq_refl) as [H1 H2].
    split; [simpl; lia | exact H2].
Qed.

Lemma index_of_none (x : str) (l : list str) :
  index_of x l = None <-> ~ In x l.
Proof.
  induction l as [|y l IH]; [split; [intros _ [] | reflexivity]|].
  cbn [index_of In]. destruct (str_eqb_spec y x) as [->|Hne].
  - split; [discriminate | intros H; exfalso; apply H; left; reflexivity].
  - destruct (index_of x l) as [j|] eqn:E.
    + split; [discriminate|]. intros H. exfalso.
      assert (K : ~ In x l) by tauto. apply IH in K. discriminate.
    + split; [|reflexivity]. intros _ [H|H]; [contradiction|].
      apply (proj1 IH eq_refl), H.
Qed.

Lemma rules_of_lines_none (lines : list str) :
  rules_of_lines lines = None <-> exists l, In l lines /\ rule_of_line l = None.
Proof.
  induction lines as [|l lines IH]; cbn [rules_of_lines].
  - split; [discriminate | intros [l [[] _]]].
  - destruct (rule_of_line l) as [a|] eqn:E.
    + destruct (rules_of_lines lines) as [b|].
      * split; [discriminate|]. intros [x [[<-|Hx] Hn]]; [congruence|].
        assert (K : Some b = None) by (apply IH; eauto). discriminate.
      * split; [|reflexivity]. intros _.
        destruct (proj1 IH eq_refl) as [x [Hx Hn]]. exists x. split; [right|]; assumption.
    + split; [|reflexivity]. intros _. exists l. split; [left; reflexivity | exact E].
Qed.

Lemma rules_of_lines_some (lines : list str) (rules : list rule) :
  rules_of_lines lines = Some rules ->
  forall r, In r rules -> exists l a, In l lines /\ rule_of_line l = Some a /\ In r a.
Proof.
  revert rules. induction lines as [|l lines IH]; intros rules; cbn [rules_of_lines].
  - intros H; inversion H; subst. intros r [].
  - destruct (rule_of_line l) as [a|] eqn:E; [|discriminate].
    destruct (rules_of_lines lines) as [b|]; [|discriminate].
    intros H; inversion H; subst. intros r Hr.
    apply in_app_or in Hr. destruct Hr as [Hr|Hr].
    + exists l, a. split; [left; reflexivity | auto].
    + destruct (IH b eq_refl r Hr) as [l0 [a0 [H1 H2]]].
      exists l0, a0. split; [right; exact H1 | exact H2].
Qed.

End RulesText.

(** X10.  In a line of the rules text the time of the rule is the text
    between the second and the third colon: whatever follows the third colon
    is not read.  So title:day:HH:MM gives a rule whose time normalizes to
    HH:00, whatever MM is. *)
Theorem rule_time_stops_at_third_colon
  (title day hh rest : str) (w : nat) (a b : char) :
  Forall (fun c => c <> 58) title ->
  Forall (fun c => c <> 58) day ->
  Forall (fun c => c <> 58) hh ->
  index_of (lower (firstn 3 (strip day))) day_codes = Some w ->
  rule_of_line (title ++ [58] ++ day ++ [58] ++ hh ++ [58] ++ rest)
  = Some [mkrule (Z.of_nat w) (Some (strip hh)) (strip title)]
  /\ (hh = [a; b] -> isdigit a = true -> isdigit b = true ->
      normalize_time (Some (strip hh)) = Some [a; b; 58; 48; 48]).
Proof.
  intros Ht Hd Hh Hi. split.
  - unfold rule_of_line. cbn [app].
    rewrite (split_app_sep 58 title _ Ht), (split_app_sep 58 day _ Hd),
      (split_app_sep 58 hh _ Hh).
    cbn [map]. rewrite Hi. reflexivity.
  - intros -> Da Db.
    rewrite strip_solid
      by (cbn [forallb]; rewrite (isdigit_not_space a Da), (isdigit_not_space b Db);
          reflexivity).
    rewrite normalize_time_unfold.
    rewrite clean_time_digits by (cbn [forallb]; rewrite Da, Db; reflexivity).
    replace (time_pattern_match _) with (Some ([a; b], @None str)).
    + unfold canonical, zfill. simpl.
      rewrite (isdigit_neq a 43 Da), (isdigit_neq a 45 Da) by lia. reflexivity.
    + symmetry. apply time_pattern_match_complete. apply shape_hour.
      split; [right; reflexivity | simpl; rewrite Da, Db; reflexivity].
Qed.

(** Film Night:Thu:18:30 is entered at 18:00. *)
Lemma rule_time_witness :
  rule_of_line (lit "Film Night:Thu:18:30")
  = Some [mkrule 3 (Some (lit "18")) (lit "Film Night")]
  /\ normalize_time (Some (lit "18")) = Some (lit "18:00").
Proof.
  destruct (rule_time_stops_at_third_colon
              (lit "Film Night") (lit "Thu") (lit "18") (lit "30") 3 49 56)
    as [E N].
  - repeat constructor; discriminate.
  - repeat constructor; discriminate.
  - repeat constructor; discriminate.
  - reflexivity.
  - split; [exact E | apply N; reflexivity].
Defined.

(** X11.  The rules text is read line by line.  A line without a colon adds
    no rule.  The reading fails with [ValueError] exactly when some line has
    a colon and the first three characters of its second field, lowercased,
    are not one of mon, tue, wed, thu, fri, sat, sun.  When it succeeds every
    rule has a weekday from 0 to 6 and a time text. *)
Theorem rules_text_reading (text : str) :
  (forall line, Forall (fun c => c <> 58) line -> rule_of_line line = Some [])
  /\ (parse_rules text = None <->
      exists line title p1 rest,
        In line (splitlines text)
        /\ map strip (split 58 line) = title :: p1 :: rest
        /\ ~ In (lower (firstn 3 p1)) day_codes)
  /\ (forall rules, parse_rules text = Some rules ->
        Forall (fun r => (0 <= rule_weekday r <= 6)%Z
                         /\ exists t, rule_time r = Some t) rules).
Proof.
  assert (L : forall line,
    rule_of_line line = None <->
    exists title p1 rest,
      map strip (split 58 line) = title :: p1 :: rest
      /\ ~ In (lower (firstn 3 p1)) day_codes).
  { intros line. unfold rule_of_line.
    destruct (map strip (split 58 line)) as [|title [|p1 rest]].
    - split; [discriminate | intros [? [? [? [H _]]]]; discriminate].
    - split; [discriminate | intros [? [? [? [H _]]]]; discriminate].
    - destruct (index_of (lower (firstn 3 p1)) day_codes) as [w|] eqn:E.
      + split; [discriminate|]. intros [t [q [r [H Hn]]]].
        inversion H; subst. apply index_of_none in Hn. congruence.
      + split; [|reflexivity]. intros _. exists title, p1, rest.
        split; [reflexivity | apply index_of_none, E]. }
  split; [|split].
  - intros line Hl. unfold rule_of_line. rewrite (split_no_sep 58 line Hl).
    reflexivity.
  - unfold parse_rules. rewrite rules_of_lines_none. split.
    + intros [l [Hl Hn]]. apply L in Hn. destruct Hn as [t [q [r H]]].
      exists l, t, q, r. tauto.
    + intros [l [t [q [r [Hl H]]]]]. exists l. split; [exact Hl|].
      apply L. eauto.
  - intros rules H. unfold parse_rules in H. apply Forall_forall. intros r Hr.
    destruct (rules_of_lines_some _ _ H r Hr) as [l [a [_ [Ha Hin]]]].
    unfold rule_of_line in Ha.
    destruct (map strip (split 58 l)) as [|title [|p1 rest]];
      try (inversion Ha; subst; destruct Hin).
    destruct (index_of (lower (firstn 3 p1)) day_codes) as [w|] eqn:E;
      [|discriminate].
    inversion Ha; subst. destruct Hin as [<-|[]]. cbn [rule_weekday rule_time].
    apply index_of_some in E. destruct E as [E _]. simpl in E.
    split; [lia | eauto].
Qed.

(* ================================================================= *)
(** ** Further properties: the cell loop *)

Section CellLoop.

Import Render.

Variable wrap : nat -> str -> list str.

Lemma placed_push (h : Z) (st : state) (o : draw_op) :
  placed h st -> op_y o = fst st ->
  placed h ((fst st - line_spacing)%Z, snd st ++ [o]).
Proof.
  intros [Hy Hc] Ho. unfold placed. cbn [fst snd].
  rewrite length_app. cbn [List.length]. rewrite Nat.add_1_r.
  rewrite seq_S, !map_app. cbn [map plus]. rewrite Hy, Ho, Hc.
  split; [reflexivity|]. unfold line_spacing. lia.
Qed.

Lemma placed_draw_holiday (h : Z) (st : state) (wh : str) :
  placed h st -> placed h (draw_holiday st wh).
Proof.
  intros H. unfold draw_holiday. destruct (strip wh) as [|c r]; [exact H|].
  apply placed_push; [exact H | reflexivity].
Qed.

Lemma placed_draw_holidays (h : Z) (whs : list str) (st : state) :
  placed h st -> placed h (fold_left draw_holiday whs st).
Proof.
  revert st. induction whs as [|wh whs IH]; intros st H; cbn [fold_left];
    [exact H | apply IH, placed_draw_holiday, H].
Qed.

Lemma placed_draw_sublines (h : Z) (subs : list str) (st : state) :
  placed h st -> placed h (draw_sublines wrap subs st).
Proof.
  revert st. induction subs as [|s subs IH]; intros st H; cbn [draw_sublines];
    [exact H|].
  destruct (strip s) as [|c r]; [apply IH, H|].
  destruct (str_isupper (c :: r)); [apply IH, placed_draw_holidays, H|].
  destruct (startswith (lit "staff:") (lower (c :: r)));
    [apply IH, placed_push; [exact H | reflexivity]|].
  match goal with |- context [snd st ++ [?o]] =>
    assert (P : placed h ((fst st - line_spacing)%Z, snd st ++ [o])) end.
  { apply placed_push; [exact H|]. destruct (time_match (c :: r)) as [[tp rs]|]; reflexivity. }
  destruct (fst st - line_spacing <? 40)%Z; [exact P | apply IH, P].
Qed.

Lemma placed_draw_line (h : Z) (st : state) (line : str) :
  placed h st -> placed h (draw_line wrap st line).
Proof.
  intros H. unfold draw_line. destruct (strip (clean_text line)); [exact H|].
  apply placed_draw_sublines, H.
Qed.

End CellLoop.

(** X12.  Whatever the wrapping does and whatever the text, the baselines
    of the sub-lines drawn in a cell go down from 6 mm under the upper edge
    in steps of 4 mm, one step for each sub-line drawn: no two sub-lines
    share a baseline and none is skipped. *)
Theorem cell_baselines_step_down (wrap : nat -> str -> list str) (h : Z) (text : str) :
  map Render.op_y (Render.draw_cell wrap h text)
  = map (fun i => (h - 60 - 40 * Z.of_nat i)%Z)
        (seq 0 (List.length (Render.draw_cell wrap h text))).
Proof.
  unfold Render.draw_cell.
  assert (P : forall lines st, placed h st ->
                placed h (fold_left (Render.draw_line wrap) lines st)).
  { induction lines as [|l lines IH]; intros st H; cbn [fold_left];
      [exact H | apply IH, placed_draw_line, H]. }
  apply (P (split 10 text) ((h - 60)%Z, [])).
  split; [reflexivity | simpl; lia].
Qed.

(** X13.  Within one logical line whose sub-lines are timed or plain text,
    the truncation works: if the cursor is inside the budget (at least 4 mm
    above the lower edge) when the line starts, every sub-line drawn for it
    is inside the budget, the others are dropped, and the cursor does not
    leave the cell. *)
Theorem one_line_is_truncated
  (wrap : nat -> str -> list str) (subs : list str) (st : Render.state) :
  (40 <= fst st)%Z ->
  Forall plain_or_timed subs ->
  exists new,
    snd (Render.draw_sublines wrap subs st) = snd st ++ new
    /\ Forall (fun o => (40 <= Render.op_y o)%Z) new
    /\ (List.length new <= List.length subs)%nat
    /\ (0 <= fst (Render.draw_sublines wrap subs st))%Z.
Proof.
  intros Hc Hf. revert st Hc.
  induction Hf as [|s subs [Hu Hs] Hf IH]; intros st Hc;
    cbn [Render.draw_sublines].
  - exists []. rewrite app_nil_r. split; [reflexivity|].
    split; [constructor|]. split; [simpl; lia | lia].
  - destruct (strip s) as [|c r].
    + destruct (IH st Hc) as [new [En [Fn [Ln Cn]]]].
      exists new. repeat split; try assumption. simpl. lia.
    + rewrite Hu, Hs.
      set (o := match Render.time_match (c :: r) with
                | Some (time_part, rest_text) =>
                    Render.DrawTimed (fst st) time_part rest_text
                | None => Render.DrawPlain (fst st) (c :: r)
                end).
      assert (Ho : Render.op_y o = fst st)
        by (unfold o; destruct (Render.time_match (c :: r)) as [[tp rs]|];
            reflexivity).
      destruct (fst st - Render.line_spacing <? 40)%Z eqn:E.
      * exists [o]. cbn [fst snd]. split; [reflexivity|].
        split; [constructor; [rewrite Ho; exact Hc | constructor]|].
        split; [simpl; lia | unfold Render.line_spacing; lia].
      * apply Z.ltb_ge in E.
        destruct (IH ((fst st - Render.line_spacing)%Z, snd st ++ [o]) E)
          as [new [En [Fn [Ln Cn]]]].
        exists (o :: new). cbn [fst snd] in En. rewrite En, <- app_assoc.
        split; [reflexivity|].
        split; [constructor; [rewrite Ho; exact Hc | exact Fn]|].
        split; [simpl; lia | exact Cn].
Qed.

(** A paragraph wrapped to twelve sub-lines in the 52.7 mm cell: eleven are
    drawn, the last at 6.7 mm, and the twelfth is dropped. *)
Lemma one_line_is_truncated_witness :
  map Render.op_y
      (snd (Render.draw_sublines Render.wrap_word (repeat [97] 12)
              ((Render.row_h - 60)%Z, [])))
  = [467; 427; 387; 347; 307; 267; 227; 187; 147; 107; 67]%Z.
Proof.
  destruct (one_line_is_truncated Render.wrap_word (repeat [97] 12)
              ((Render.row_h - 60)%Z, [])) as [new [E _]].
  - vm_compute. discriminate.
  - repeat constructor.
  - rewrite E. cbn [snd app]. cbn [snd app] in E. rewrite <- E. reflexivity.
Defined.

(* ================================================================= *)
(** ** Further properties: from the preview line to the style of the cell *)

Section PreviewStyle.

Import Render.

Variable wrap : nat -> str -> list str.

Lemma rstrip_solid_prefix (p r : str) :
  forallb (fun c => negb (isspace c)) p = true -> rstrip (p ++ r) = p ++ rstrip r.
Proof.
  induction p as [|c p IH]; [reflexivity|].
  cbn [forallb app]. intros H. apply andb_true_iff in H. destruct H as [Hc Hp].
  apply negb_true_iff in Hc.
  rewrite rstrip_cons_solid by exact Hc. rewrite (IH Hp). reflexivity.
Qed.

Lemma strip_solid_prefix (c : char) (p r : str) :
  forallb (fun x => negb (isspace x)) (c :: p) = true ->
  strip ((c :: p) ++ r) = (c :: p) ++ rstrip r.
Proof.
  intros H. pose proof H as H'. cbn [forallb] in H'.
  apply andb_true_iff in H'. destruct H' as [Hc _]. apply negb_true_iff in Hc.
  unfold strip. cbn [app lstrip]. rewrite Hc.
  apply (rstrip_solid_prefix (c :: p) r H).
Qed.

Lemma existsb_rstrip (p : char -> bool) (s : str) :
  (forall c, p c = true -> isspace c = false) ->
  existsb p (rstrip s) = existsb p s.
Proof.
  intros Hp. induction s as [|c r IH]; [reflexivity|].
  cbn [rstrip]. destruct (rstrip r) as [|x r'] eqn:E.
  - cbn [existsb] in *. rewrite <- IH, orb_false_r.
    destruct (isspace c) eqn:W; cbn [existsb]; [|apply orb_false_r].
    destruct (p c) eqn:Pc; [|reflexivity].
    rewrite (Hp c Pc) in W. discriminate.
  - cbn [existsb] in *. rewrite IH. reflexivity.
Qed.

Lemma existsb_lstrip (p : char -> bool) (s : str) :
  (forall c, p c = true -> isspace c = false) ->
  existsb p (lstrip s) = existsb p s.
Proof.
  intros Hp. induction s as [|c r IH]; [reflexivity|].
  cbn [lstrip]. destruct (isspace c) eqn:W; [|reflexivity].
  rewrite IH. cbn [existsb]. destruct (p c) eqn:Pc; [|reflexivity].
  rewrite (Hp c Pc) in W. discriminate.
Qed.

Lemma existsb_strip (p : char -> bool) (s : str) :
  (forall c, p c = true -> isspace c = false) ->
  existsb p (strip s) = existsb p s.
Proof.
  intros Hp. unfold strip. rewrite existsb_rstrip, existsb_lstrip by exact Hp.
  reflexivity.
Qed.

Lemma islower_not_space (c : char) : islower_char c = true -> isspace c = false.
Proof.
  unfold islower_char. rewrite andb_true_iff, !N.leb_le. intros H.
  unfold isspace.
  repeat (apply orb_false_intro);
    try (apply andb_false_iff; rewrite !N.leb_gt; lia);
    apply N.eqb_neq; lia.
Qed.

Lemma isupper_not_space (c : char) : isupper_char c = true -> isspace c = false.
Proof.
  unfold isupper_char. rewrite andb_true_iff, !N.leb_le. intros H.
  unfold isspace.
  repeat (apply orb_false_intro);
    try (apply andb_false_iff; rewrite !N.leb_gt; lia);
    apply N.eqb_neq; lia.
Qed.

Lemma startswith_app (p r : str) : startswith p (p ++ r) = true.
Proof.
  induction p as [|c p IH]; [reflexivity|].
  cbn [app startswith]. rewrite N.eqb_refl. exact IH.
Qed.

Lemma startswith_head (a b : char) (p s : str) :
  (a =? b) = false -> startswith (a :: p) (b :: s) = false.
Proof. intros H. cbn [startswith]. rewrite H. reflexivity. Qed.

Lemma time_match_nondigit (c : char) (r : str) :
  isdigit c = false -> time_match (c :: r) = None.
Proof.
  intros H. unfold time_match.
  destruct r as [|b [|c2 [|d [|e r']]]]; try reflexivity; rewrite H; reflexivity.
Qed.

Lemma time_match_canonical (a b c d : char) (r : str) :
  isdigit a = true -> isdigit b = true -> isdigit c = true -> isdigit d = true ->
  exists x rest, time_match ([a; b; 58; c; d] ++ r) = Some ([a; b; 58; c; d] ++ x, rest).
Proof.
  intros Da Db Dc Dd. unfold time_match. cbn [app].
  rewrite Da, Db, Dc, Dd. change (58 =? 58) with true. cbn [andb].
  destruct r as [|c0 r0].
  - exists [], []. reflexivity.
  - destruct (isspace c0).
    + destruct r0 as [|a1 [|b1 r1]].
      * exists [c0], []. reflexivity.
      * eexists. eexists. reflexivity.
      * destruct (existsb (str_eqb [a1; b1]) [lit "am"; lit "pm"; lit "AM"; lit "PM"]);
          eexists; eexists; reflexivity.
    + destruct r0 as [|b1 r1].
      * eexists. eexists. reflexivity.
      * destruct (existsb (str_eqb [c0; b1]) [lit "am"; lit "pm"; lit "AM"; lit "PM"]);
          eexists; eexists; reflexivity.
Qed.

(** The loop on a single sub-line, by its class. *)
Lemma draw_one_holiday (sub : str) (st : state) :
  str_isupper (strip sub) = true ->
  draw_sublines wrap [sub] st = fold_left draw_holiday (wrap 28 (strip sub)) st.
Proof.
  intros H. cbn [draw_sublines].
  destruct (strip sub) as [|c r]; [discriminate|]. rewrite H. reflexivity.
Qed.

Lemma draw_one_staff (sub : str) (st : state) :
  strip sub <> [] ->
  str_isupper (strip sub) = false ->
  startswith (lit "staff:") (lower (strip sub)) = true ->
  draw_sublines wrap [sub] st
  = ((fst st - line_spacing)%Z, snd st ++ [DrawStaff (fst st) (strip sub)]).
Proof.
  intros Hne Hu Hs. cbn [draw_sublines].
  destruct (strip sub) as [|c r]; [contradiction|]. rewrite Hu, Hs. reflexivity.
Qed.

Lemma draw_one_text (sub : str) (st : state) :
  strip sub <> [] ->
  str_isupper (strip sub) = false ->
  startswith (lit "staff:") (lower (strip sub)) = false ->
  draw_sublines wrap [sub] st
  = ((fst st - line_spacing)%Z,
     snd st ++ [match time_match (strip sub) with
                | Some (time_part, rest_text) => DrawTimed (fst st) time_part rest_text
                | None => DrawPlain (fst st) (strip sub)
                end]).
Proof.
  intros Hne Hu Hs. cbn [draw_sublines].
  destruct (strip sub) as [|c r]; [contradiction|]. rewrite Hu, Hs.
  destruct (fst st - line_spacing <? 40)%Z; reflexivity.
Qed.

Lemma isupper_with_lower (s : str) :
  existsb islower_char s = true -> str_isupper s = false.
Proof. intros H. unfold str_isupper. rewrite H. apply andb_false_r. Qed.

Lemma upper_char_class (c : char) :
  isupper_char (upper_char c) = isalpha_char c
  /\ islower_char (upper_char c) = false.
Proof.
  unfold upper_char, isalpha_char. destruct (islower_char c) eqn:L.
  - unfold islower_char in L. apply andb_true_iff in L. rewrite !N.leb_le in L.
    unfold isupper_char, islower_char. rewrite orb_true_r. split.
    + apply andb_true_iff. rewrite !N.leb_le. lia.
    + apply andb_false_iff. rewrite !N.leb_gt. lia.
  - rewrite orb_false_r. split; [reflexivity | exact L].
Qed.

Lemma upper_classes (s : str) :
  existsb isupper_char (upper s) = existsb isalpha_char s
  /\ existsb islower_char (upper s) = false.
Proof.
  unfold upper. induction s as [|c r [IH1 IH2]]; [split; reflexivity|].
  cbn [map existsb]. destruct (upper_char_class c) as [-> ->].
  rewrite IH1, IH2. split; reflexivity.
Qed.

End PreviewStyle.

Section PreviewLines.

Lemma normalize_time_digits (raw : option str) (t : str) :
  normalize_time raw = Some t ->
  exists a b c d,
    t = [a; b; 58; c; d]
    /\ isdigit a = true /\ isdigit b = true
    /\ isdigit c = true /\ isdigit d = true.
Proof.
  intros H. destruct raw as [raw|]; [|discriminate].
  rewrite normalize_time_unfold in H.
  destruct (time_pattern_match (clean_time raw)) as [[hour minute]|] eqn:E;
    [|discriminate].
  inversion H; subst; clear H.
  apply time_pattern_match_sound in E. destruct E as [body [tail [_ [_ Hs]]]].
  exact (canonical_chars _ _ _ Hs).
Qed.

Lemma isdigit_not_letter (c : char) :
  isdigit c = true -> islower_char c = false /\ isupper_char c = false.
Proof.
  intros H. apply isdigit_range in H. unfold islower_char, isupper_char.
  split; apply andb_false_iff; rewrite !N.leb_gt; lia.
Qed.

Lemma merged_preview_line (e : event) :
  merged_entry e ->
  preview_line e
  = strip (match ev_time e with Some t => t | None => lit "None" end
           ++ [32] ++ ev_title e).
Proof. unfold preview_line. intros [-> | ->]; reflexivity. Qed.

End PreviewLines.

(** X14.  A fixed or activity entry without a time is previewed as the word
    None followed by its title, and the cell loop, given that line as a
    sub-line, draws it as plain text. *)
Theorem untimed_entry_shows_none
  (wrap : nat -> str -> list str) (e : event) (st : Render.state) :
  merged_entry e -> ev_time e = None ->
  preview_line e = lit "None" ++ rstrip (32 :: ev_title e)
  /\ Render.draw_sublines wrap [preview_line e] st
     = ((fst st - Render.line_spacing)%Z,
        snd st ++ [Render.DrawPlain (fst st) (preview_line e)]).
Proof.
  intros Hm Ht.
  assert (E : preview_line e = lit "None" ++ rstrip (32 :: ev_title e)).
  { rewrite (merged_preview_line e Hm), Ht.
    change (lit "None") with [78; 111; 110; 101].
    apply (strip_solid_prefix 78 [111; 110; 101]). reflexivity. }
  split; [exact E|].
  assert (S : strip (preview_line e) = preview_line e)
    by (rewrite (merged_preview_line e Hm); apply strip_idem).
  rewrite (draw_one_text wrap (preview_line e) st); rewrite S.
  - replace (Render.time_match (preview_line e)) with (@None (str * str));
      [reflexivity|].
    rewrite E. symmetry. apply time_match_nondigit. reflexivity.
  - rewrite E. discriminate.
  - apply isupper_with_lower. rewrite E. apply existsb_exists.
    exists 111. split; [right; left; reflexivity | reflexivity].
  - rewrite E. change (lit "None") with [78; 111; 110; 101].
    unfold lower. cbn [app map]. apply startswith_head. reflexivity.
Qed.

(** Quiet Hour, whose time cell reads evening, is previewed as None Quiet
    Hour. *)
Lemma untimed_entry_witness :
  preview_line (mkevent None (lit "Quiet Hour") Activity) = lit "None Quiet Hour".
Proof.
  destruct (untimed_entry_shows_none Render.wrap_word
              (mkevent None (lit "Quiet Hour") Activity) (0%Z, []))
    as [E _]; [right; reflexivity | reflexivity |].
  rewrite E. reflexivity.
Defined.

Section StaffLine.

Lemma replace1_app (bad : char) (good a b : str) :
  replace1 bad good (a ++ b) = replace1 bad good a ++ replace1 bad good b.
Proof. unfold replace1. apply flat_map_app. Qed.

(** Cleaning a staff line keeps its first word and trims what follows. *)
Lemma clean_text_staff (t : str) :
  exists body, clean_text (lit "Staff: " ++ t) = lit "Staff:" ++ rstrip (32 :: body).
Proof.
  unfold clean_text, replacements. cbn [fold_left fst snd].
  repeat (rewrite replace1_app,
            (replace1_absent _ _ (lit "Staff: "))
            by (repeat constructor; discriminate)).
  rewrite filter_app.
  change (filter (fun c => c <=? 127) (lit "Staff: ")) with (lit "Staff: ").
  eexists.
  change (lit "Staff: " ++ ?x)
    with ((83 :: [116; 97; 102; 102; 58]) ++ 32 :: x).
  apply (strip_solid_prefix 83 [116; 97; 102; 102; 58]). reflexivity.
Qed.

Lemma draw_line_solid (wrap : nat -> str -> list str) (st : Render.state)
  (line0 : str) (c : char) (r : str) :
  strip (clean_text line0) = c :: r ->
  Render.draw_line wrap st line0
  = Render.draw_sublines wrap (wrap 31%nat (c :: r)) st.
Proof. unfold Render.draw_line. intros ->. reflexivity. Qed.

End StaffLine.

(** X15.  A staff-shift entry is previewed as Staff: and its title.  The
    cell loop cleans and trims that line, which leaves a text opening with
    Staff:, and hands it to the wrapper; when the wrapper returns it in one
    piece, the cell loop draws it in the staff style whatever the title is,
    even one in capitals. *)
Theorem staff_entry_is_drawn_as_staff
  (wrap : nat -> str -> list str) (e : event) (st : Render.state) :
  ev_notes e = StaffShift ->
  exists rest,
    strip (clean_text (preview_line e)) = lit "Staff:" ++ rest
    /\ (wrap 31%nat (lit "Staff:" ++ rest) = [lit "Staff:" ++ rest] ->
        Render.draw_line wrap st (preview_line e)
        = ((fst st - Render.line_spacing)%Z,
           snd st ++ [Render.DrawStaff (fst st) (lit "Staff:" ++ rest)])).
Proof.
  intros Hn. unfold preview_line. rewrite Hn.
  destruct (clean_text_staff (ev_title e)) as [body E].
  assert (S : strip (clean_text (lit "Staff: " ++ ev_title e))
              = lit "Staff:" ++ rstrip (32 :: body)).
  { unfold clean_text in *. rewrite strip_idem. exact E. }
  exists (rstrip (32 :: body)). split; [exact S|].
  intros W.
  change (lit "Staff:" ++ rstrip (32 :: body))
    with (83 :: lit "taff:" ++ rstrip (32 :: body)) in *.
  rewrite (draw_line_solid wrap st _ _ _ S).
  replace (wrap 31%nat _) with [83 :: lit "taff:" ++ rstrip (32 :: body)]
    by (symmetry; exact W).
  assert (I : strip (83 :: lit "taff:" ++ rstrip (32 :: body))
              = 83 :: lit "taff:" ++ rstrip (32 :: body))
    by (rewrite <- S; apply strip_idem).
  rewrite (draw_one_staff wrap _ st); rewrite I.
  - reflexivity.
  - discriminate.
  - apply isupper_with_lower. apply existsb_exists.
    exists 116. split; [right; left; reflexivity | reflexivity].
  - reflexivity.
Qed.

(** LUCY (09:00 - 16:30), with the dash of the shift stage, fits the width:
    it is drawn in the staff style, its dash cleaned to a hyphen. *)
Lemma staff_entry_witness :
  snd (Render.draw_line Render.wrap_word (467%Z, [])
         (preview_line lucy_shift))
  = [Render.DrawStaff 467 (lit "Staff: LUCY (09:00 - 16:30)")].
Proof.
  destruct (staff_entry_is_drawn_as_staff Render.wrap_word lucy_shift
              (467%Z, [])) as [rest [E D]]; [reflexivity|].
  assert (R : lit "Staff:" ++ rest = lit "Staff: LUCY (09:00 - 16:30)")
    by (rewrite <- E; reflexivity).
  rewrite D; rewrite R; reflexivity.
Defined.

(** A longer staff line is broken by the wrapper, and each piece is judged
    on its own: when Staff: Elizabeth (09:00 - 16:30), of 32 characters, is
    returned as the two pieces that fit the width, the second piece opens
    with a clock and is drawn in the timed style. *)
Example long_staff_line_is_broken (wrap : nat -> str -> list str) :
  wrap 31%nat (lit "Staff: Elizabeth (09:00 - 16:30)")
  = [lit "Staff: Elizabeth (09:00 -"; lit "16:30)"] ->
  snd (Render.draw_line wrap (467%Z, []) (preview_line elizabeth_shift))
  = [ Render.DrawStaff 467 (lit "Staff: Elizabeth (09:00 -");
      Render.DrawTimed 427 (lit "16:30") (lit ")") ].
Proof.
  intros W.
  rewrite (draw_line_solid wrap (467%Z, []) (preview_line elizabeth_shift) 83
             (lit "taff: Elizabeth (09:00 - 16:30)") eq_refl).
  replace (wrap 31%nat _)
    with [lit "Staff: Elizabeth (09:00 -"; lit "16:30)"]
    by (symmetry; exact W).
  reflexivity.
Qed.

(** X16.  A fixed or activity entry with a normalized time is previewed as
    the time, a space and the title.  When the title has a lowercase letter
    the cell loop, given that line as a sub-line, draws it in the timed
    style, the time opening the first capture.  When the title has an uppercase letter and no lowercase
    one, the line counts as uppercase and is drawn in the holiday style. *)
Theorem timed_entry_style_follows_title_case
  (wrap : nat -> str -> list str) (e : event) (raw : option str) (t : str)
  (st : Render.state) :
  merged_entry e ->
  normalize_time raw = Some t -> ev_time e = Some t ->
  preview_line e = t ++ rstrip (32 :: ev_title e)
  /\ (existsb islower_char (ev_title e) = true ->
      exists x rest,
        Render.draw_sublines wrap [preview_line e] st
        = ((fst st - Render.line_spacing)%Z,
           snd st ++ [Render.DrawTimed (fst st) (t ++ x) rest]))
  /\ (existsb islower_char (ev_title e) = false ->
      existsb isupper_char (ev_title e) = true ->
      Render.draw_sublines wrap [preview_line e] st
      = fold_left Render.draw_holiday (wrap 28%nat (preview_line e)) st).
Proof.
  intros Hm Hn Ht.
  destruct (normalize_time_digits raw t Hn) as [a [b [c [d [-> [Da [Db [Dc Dd]]]]]]]].
  destruct (isdigit_not_letter a Da) as [La Ua].
  destruct (isdigit_not_letter b Db) as [Lb Ub].
  destruct (isdigit_not_letter c Dc) as [Lc Uc].
  destruct (isdigit_not_letter d Dd) as [Ld Ud].
  assert (E : preview_line e = [a; b; 58; c; d] ++ rstrip (32 :: ev_title e)).
  { rewrite (merged_preview_line e Hm), Ht.
    apply (strip_solid_prefix a [b; 58; c; d]). cbn [forallb].
    rewrite (isdigit_not_space a Da), (isdigit_not_space b Db),
      (isdigit_not_space c Dc), (isdigit_not_space d Dd). reflexivity. }
  assert (S : strip (preview_line e) = preview_line e)
    by (rewrite (merged_preview_line e Hm); apply strip_idem).
  assert (Llow : existsb islower_char (preview_line e)
                 = existsb islower_char (ev_title e)).
  { rewrite E, existsb_app, (existsb_rstrip _ _ islower_not_space).
    cbn [existsb]. rewrite La, Lb, Lc, Ld. reflexivity. }
  assert (Lup : existsb isupper_char (preview_line e)
                = existsb isupper_char (ev_title e)).
  { rewrite E, existsb_app, (existsb_rstrip _ _ isupper_not_space).
    cbn [existsb]. rewrite Ua, Ub, Uc, Ud. reflexivity. }
  split; [exact E|]. split.
  - intros Hl.
    assert (Hx : exists x rest,
               Render.time_match (preview_line e) = Some ([a; b; 58; c; d] ++ x, rest))
      by (rewrite E; apply time_match_canonical; assumption).
    destruct Hx as [x [rest Hx]].
    exists x, rest.
    rewrite (draw_one_text wrap (preview_line e) st); rewrite S.
    + rewrite Hx. reflexivity.
    + rewrite E. discriminate.
    + apply isupper_with_lower. rewrite Llow. exact Hl.
    + rewrite E. unfold lower. cbn [app map]. apply startswith_head.
      rewrite (isdigit_lower a Da). rewrite N.eqb_sym.
      apply (isdigit_neq a 115 Da). lia.
  - intros Hl Hu.
    rewrite (draw_one_holiday wrap (preview_line e) st); rewrite S; [reflexivity|].
    unfold str_isupper. rewrite Llow, Lup, Hl, Hu. reflexivity.
Qed.

(** 10:00 Bingo is drawn as a timed line; 10:00 BINGO counts as uppercase. *)
Lemma timed_entry_style_witness :
  (exists x rest,
      Render.draw_sublines Render.wrap_word
        [preview_line (mkevent (Some (lit "10:00")) (lit "Bingo") Activity)]
        (467%Z, [])
      = (427%Z, [Render.DrawTimed 467 (lit "10:00" ++ x) rest]))
  /\ snd (Render.draw_sublines Render.wrap_word
            [preview_line (mkevent (Some (lit "10:00")) (lit "BINGO") Activity)]
            (467%Z, []))
     = [Render.DrawHoliday 467 (lit "10:00 BINGO")].
Proof.
  split.
  - destruct (timed_entry_style_follows_title_case Render.wrap_word
                (mkevent (Some (lit "10:00")) (lit "Bingo") Activity)
                (Some (lit "10")) (lit "10:00") (467%Z, []))
      as [_ [H _]]; [right; reflexivity | reflexivity | reflexivity |].
    apply H. reflexivity.
  - destruct (timed_entry_style_follows_title_case Render.wrap_word
                (mkevent (Some (lit "10:00")) (lit "BINGO") Activity)
                (Some (lit "10")) (lit "10:00") (467%Z, []))
      as [_ [_ H]]; [right; reflexivity | reflexivity | reflexivity |].
    rewrite H; reflexivity.
Defined.

(** X17.  A holiday entry is previewed as its title in capitals, and that
    line counts as uppercase - the holiday style of the cell loop - exactly
    when the title has a letter. *)
Theorem holiday_entry_style_needs_a_letter
  (wrap : nat -> str -> list str) (e : event) (st : Render.state) :
  ev_notes e = Holiday ->
  preview_line e = upper (ev_title e)
  /\ str_isupper (strip (preview_line e)) = existsb isalpha_char (ev_title e)
  /\ (existsb isalpha_char (ev_title e) = true ->
      Render.draw_sublines wrap [preview_line e] st
      = fold_left Render.draw_holiday (wrap 28%nat (strip (preview_line e))) st).
Proof.
  intros Hn.
  assert (E : preview_line e = upper (ev_title e))
    by (unfold preview_line; rewrite Hn; reflexivity).
  assert (U : str_isupper (strip (preview_line e)) = existsb isalpha_char (ev_title e)).
  { rewrite E. unfold str_isupper.
    rewrite (existsb_strip _ _ isupper_not_space),
      (existsb_strip _ _ islower_not_space).
    destruct (upper_classes (ev_title e)) as [-> ->]. apply andb_true_r. }
  split; [exact E|]. split; [exact U|].
  intros Ha. apply draw_one_holiday. rewrite U. exact Ha.
Qed.

(** Bonfire Night (UK) is drawn in the holiday style. *)
Lemma holiday_entry_style_witness :
  snd (Render.draw_sublines Render.wrap_word
         [preview_line (mkevent None (lit "Bonfire Night (UK)") Holiday)]
         (467%Z, []))
  = [Render.DrawHoliday 467 (lit "BONFIRE NIGHT (UK)")].
Proof.
  destruct (holiday_entry_style_needs_a_letter Render.wrap_word
              (mkevent None (lit "Bonfire Night (UK)") Holiday) (467%Z, []))
    as [_ [_ H]]; [reflexivity|].
  rewrite H; reflexivity.
Defined.

(* ================================================================= *)
(** ** Further properties: the grid of day cells *)

Section GridFacts.

Lemma day_cells_by_cases (w n : Z) :
  (0 <= w <= 6)%Z -> (28 <= n <= 31)%Z ->
  flat_map (fun rw =>
    flat_map (fun cd =>
      if (snd cd =? 0)%Z then [] else [(snd cd, fst rw, fst cd)])
      (enumerate (snd rw)))
    (enumerate
       (let days :=
          repeat 0%Z (Z.to_nat (w mod 7))
          ++ map (fun i => Z.of_nat i) (seq 1 (Z.to_nat n))
          ++ repeat 0%Z (Z.to_nat ((0 - w - n) mod 7)) in
        chunks (List.length days) days))
  = map (fun k => (k, ((w + k - 1) / 7)%Z, ((w + k - 1) mod 7)%Z))
        (map Z.of_nat (seq 1 (Z.to_nat n))).
Proof.
  intros Hw Hn.
  assert (W : (w = 0 \/ w = 1 \/ w = 2 \/ w = 3 \/ w = 4 \/ w = 5 \/ w = 6)%Z) by lia.
  assert (N : (n = 28 \/ n = 29 \/ n = 30 \/ n = 31)%Z) by lia.
  clear Hw Hn.
  repeat (destruct W as [->|W]); try subst w;
    repeat (destruct N as [->|N]); try subst n;
      vm_compute; reflexivity.
Qed.

End GridFacts.

(** X18.  For a valid year and month the two loops over the month calendar
    visit each day of the month once, in order; day [k] gets the column
    [(w + k - 1) mod 7] and the row [(w + k - 1) / 7], where [w] is the
    weekday of day 1.  Rows 0 to 4 lie on the page.  A day with
    [w + k > 35] falls in a sixth week: its row is 5 and the lower edge of
    its cell is below the lower edge of the page. *)
Theorem day_cell_rows (y m : Z) :
  valid_year_month y m = true ->
  let w := weekday (mkdate y m 1) in
  day_cells y m
  = map (fun k => (k, ((w + k - 1) / 7)%Z, ((w + k - 1) mod 7)%Z))
        (map Z.of_nat (seq 1 (Z.to_nat (days_in_month y m))))
  /\ forall k r c,
      In (k, r, c) (day_cells y m) ->
      (1 <= k <= days_in_month y m)%Z
      /\ (0 <= c <= 6)%Z /\ (0 <= r <= 5)%Z
      /\ (r <= 4 -> Render.bottom <= cell_y r)%Z
      /\ (cell_y r < 0 <-> 35 < w + k)%Z.
Proof.
  intros Hv w.
  assert (Hw : (0 <= w <= 6)%Z) by apply weekday_range.
  pose proof (days_in_month_pos y m Hv) as Hn.
  assert (E : day_cells y m
    = map (fun k => (k, ((w + k - 1) / 7)%Z, ((w + k - 1) mod 7)%Z))
          (map Z.of_nat (seq 1 (Z.to_nat (days_in_month y m))))).
  { unfold day_cells, monthcalendar. fold w.
    exact (day_cells_by_cases w (days_in_month y m) Hw Hn). }
  split; [exact E|].
  intros k r c Hin. rewrite E in Hin.
  apply in_map_iff in Hin. destruct Hin as [k0 [Hk Hin]].
  inversion Hk; subst; clear Hk.
  apply in_map_iff in Hin. destruct Hin as [i [<- Hi]]. apply in_seq in Hi.
  unfold cell_y, Render.bottom, Render.rows.
  change Render.row_h with 527%Z.
  assert (Hk : (1 <= Z.of_nat i <= days_in_month y m)%Z) by lia.
  pose proof (Z.mod_pos_bound (w + Z.of_nat i - 1) 7).
  assert (Hq : (0 <= (w + Z.of_nat i - 1) / 7 <= 5)%Z).
  { split; [apply Z.div_pos; lia|].
    assert ((w + Z.of_nat i - 1) / 7 < 6)%Z
      by (apply Z.div_lt_upper_bound; lia).
    lia. }
  split; [exact Hk|]. split; [lia|]. split; [exact Hq|]. split; [lia|].
  split.
  - intros Hlow.
    assert (5 <= (w + Z.of_nat i - 1) / 7)%Z by lia.
    destruct (Z_lt_le_dec 35 (w + Z.of_nat i)) as [G|G]; [exact G|].
    assert ((w + Z.of_nat i - 1) / 7 < 5)%Z
      by (apply Z.div_lt_upper_bound; lia).
    lia.
  - intros Hsix.
    assert (5 <= (w + Z.of_nat i - 1) / 7)%Z
      by (apply Z.div_le_lower_bound; lia).
    lia.
Qed.

(** March 2025 starts on a Saturday: the 31st is alone in a sixth week, and
    its cell starts 51.7 mm under the lower edge of the page. *)
Lemma day_cell_rows_witness :
  In (31, 5, 0)%Z (day_cells 2025 3) /\ cell_y 5 = (-517)%Z.
Proof.
  destruct (day_cell_rows 2025 3) as [E _]; [reflexivity|].
  split; [|reflexivity]. rewrite E. vm_compute. tauto.
Defined.

(* ================================================================= *)
(** ** Further properties: weekday codes, sort keys, sorting twice *)

Section CodesAndKeys.

Lemma dow3_is_code (d : date) :
  nth_error day_codes (Z.to_nat (weekday d)) = Some (dow3 d).
Proof.
  unfold dow3. pose proof (weekday_range d) as H.
  assert (W : (weekday d = 0 \/ weekday d = 1 \/ weekday d = 2 \/ weekday d = 3
               \/ weekday d = 4 \/ weekday d = 5 \/ weekday d = 6)%Z) by lia.
  repeat (destruct W as [W|W]; [rewrite W; reflexivity|]).
  rewrite W. reflexivity.
Qed.

Lemma dow3_nonempty (d : date) : dow3 d <> [].
Proof.
  pose proof (nth_error_In _ _ (dow3_is_code d)) as H.
  unfold day_codes in H. cbn [In] in H. intros E. rewrite E in H.
  repeat (destruct H as [H|H]; [discriminate H|]). exact H.
Qed.

Lemma py_int_two_digits (a b : char) :
  isdigit a = true -> isdigit b = true ->
  py_int [a; b] = Some (10 * Z.of_N (a - 48) + Z.of_N (b - 48))%Z.
Proof.
  intros Da Db. unfold py_int.
  assert (Sa : int_space a = false)
    by (unfold int_space; rewrite (isdigit_not_space a Da); reflexivity).
  assert (Sb : int_space b = false)
    by (unfold int_space; rewrite (isdigit_not_space b Db); reflexivity).
  cbn [int_lstrip]. rewrite Sa. cbn [int_rstrip]. rewrite Sb.
  rewrite (isdigit_neq a 45 Da), (isdigit_neq a 43 Da) by lia.
  cbn [int_digits]. rewrite Da, Db. f_equal; lia.
Qed.

End CodesAndKeys.

(** X19.  A date matches the preferred days of an activity row exactly when
    some field of the cell, cut at the semicolons, trimmed, cut to three
    characters and lowercased, is the code of the date's weekday in
    mon, tue, wed, thu, fri, sat, sun - so Monday, MON and mon all mean
    Monday, and these are the codes of the rules text too. *)
Theorem preferred_day_matches_by_code (r : activity_row) (d : date) :
  nth_error day_codes (Z.to_nat (weekday d)) = Some (dow3 d)
  /\ (day_matches (pref_days_of r) d = true <->
      exists p, In p (split 59 (a_preferred_days r))
                /\ lower (firstn 3 (strip p)) = dow3 d).
Proof.
  split; [apply dow3_is_code|].
  unfold day_matches, pref_days_of. rewrite existsb_exists. split.
  - intros [x [Hx He]]. apply str_eqb_eq in He.
    apply in_map_iff in Hx. destruct Hx as [p [Hp Hin]].
    apply filter_In in Hin. exists p. split; [apply Hin | congruence].
  - intros [p [Hin Hp]]. exists (lower (firstn 3 (strip p))).
    split; [|apply str_eqb_eq; symmetry; exact Hp].
    apply in_map_iff. exists p. split; [reflexivity|].
    apply filter_In. split; [exact Hin|].
    destruct (strip p) as [|c s] eqn:E; [|reflexivity].
    exfalso. apply (dow3_nonempty d). rewrite <- Hp. reflexivity.
Qed.

(** X20.  The sort key of an entry whose time is two digits, a colon and two
    digits is the clock those digits spell when the hour is at most 23 and
    the minute at most 59, and the end of the day otherwise: valid times sort
    in clock order. *)
Theorem sort_key_of_canonical_time (e : event) (a b c d : char) :
  isdigit a = true -> isdigit b = true -> isdigit c = true -> isdigit d = true ->
  ev_time e = Some [a; b; 58; c; d] ->
  let h := (10 * Z.of_N (a - 48) + Z.of_N (b - 48))%Z in
  let m := (10 * Z.of_N (c - 48) + Z.of_N (d - 48))%Z in
  sort_key e = if ((h <=? 23) && (m <=? 59))%Z then (h, m) else end_of_day.
Proof.
  intros Da Db Dc Dd Ht h m. unfold sort_key. rewrite Ht. cbn [truthy negb].
  unfold parse_clock.
  assert (Sp : split 58 [a; b; 58; c; d] = [[a; b]; [c; d]]).
  { change [a; b; 58; c; d] with ([a; b] ++ 58 :: [c; d]).
    rewrite split_app_sep, split_no_sep; [reflexivity| |];
      repeat constructor; intros ->; discriminate. }
  rewrite Sp, (py_int_two_digits a b Da Db), (py_int_two_digits c d Dc Dd).
  fold h m.
  assert (Hh : (0 <= h)%Z) by (unfold h; lia).
  assert (Hm : (0 <= m)%Z) by (unfold m; lia).
  replace (0 <=? h)%Z with true by (symmetry; apply Z.leb_le; exact Hh).
  replace (0 <=? m)%Z with true by (symmetry; apply Z.leb_le; exact Hm).
  cbn [andb].
  destruct (h <=? 23)%Z; cbn [andb]; [|reflexivity].
  destruct (m <=? 59)%Z; reflexivity.
Qed.

(** 09:30 has the key (9, 30); 24:00 has the key of the end of the day. *)
Lemma sort_key_witness :
  sort_key (mkevent (Some (lit "09:30")) (lit "Tea") Fixed) = (9, 30)%Z
  /\ sort_key (mkevent (Some (lit "24:00")) (lit "Tea") Fixed) = end_of_day.
Proof.
  split.
  - apply (sort_key_of_canonical_time
             (mkevent (Some (lit "09:30")) (lit "Tea") Fixed) 48 57 51 48);
      reflexivity.
  - apply (sort_key_of_canonical_time
             (mkevent (Some (lit "24:00")) (lit "Tea") Fixed) 50 52 48 48);
      reflexivity.
Defined.

(** X21.  Sorting a day that is already sorted leaves it as it is, so
    sorting the days of a map twice is sorting them once. *)
Theorem sorting_twice_is_sorting_once (dm : daymap) :
  (forall l, py_sort (py_sort l) = py_sort l)
  /\ sort_days (sort_days dm) = sort_days dm.
Proof.
  assert (A : forall l, py_sort (py_sort l) = py_sort l)
    by (intros l; apply py_sort_sorted_id, py_sort_sorted).
  split; [exact A|].
  unfold sort_days. rewrite map_map. apply map_ext.
  intros [k evs]. cbn [fst snd]. rewrite A. reflexivity.
Qed.

(* ================================================================= *)
(** ** Digits of every script: the time pattern *)

Section DecimalFacts.

Variable U : runtime.

Lemma is_decimal_ascii (c : char) : c < 128 -> Uni.is_decimal U c = isdigit c.
Proof.
  intros H. unfold Uni.is_decimal. rewrite (decimal_ascii U c H).
  destruct (isdigit c); reflexivity.
Qed.

Lemma is_decimal_of_isdigit (c : char) :
  isdigit c = true -> Uni.is_decimal U c = true.
Proof.
  intros H. rewrite is_decimal_ascii; [exact H|].
  apply isdigit_range in H. lia.
Qed.

Lemma is_decimal_neq (c k : char) :
  Uni.is_decimal U c = true -> k < 128 -> isdigit k = false -> (c =? k) = false.
Proof.
  intros H Hk Dk. apply N.eqb_neq. intros ->.
  rewrite is_decimal_ascii in H by exact Hk. congruence.
Qed.

Lemma is_decimal_not_space (c : char) :
  Uni.is_decimal U c = true -> isspace c = false.
Proof.
  unfold Uni.is_decimal. destruct (decimal U c) as [v|] eqn:E; [|discriminate].
  intros _. exact (decimal_not_space U c v E).
Qed.

Lemma is_decimal_lower (c : char) :
  Uni.is_decimal U c = true -> lower_char c = c.
Proof.
  intros H. unfold lower_char. destruct (isupper_char c) eqn:E; [|reflexivity].
  exfalso. unfold isupper_char in E. apply andb_true_iff in E.
  rewrite !N.leb_le in E.
  rewrite is_decimal_ascii in H by lia. apply isdigit_range in H. lia.
Qed.

Lemma is_decimal_arabic_indic (i : N) :
  i <= 9 -> Uni.is_decimal U (1632 + i) = true.
Proof.
  intros H. unfold Uni.is_decimal. rewrite (decimal_arabic_indic U i H).
  reflexivity.
Qed.

Lemma match_minute_decimal_sound (s m : str) :
  Uni.match_minute U s = Some m ->
  Uni.minute_digits U m /\ exists tail, at_end tail = true /\ s = m ++ tail.
Proof.
  destruct s as [|a [|b r]]; simpl; try discriminate.
  destruct (Uni.is_decimal U a) eqn:Da; simpl; [|discriminate].
  destruct (Uni.is_decimal U b) eqn:Db; simpl; [|discriminate].
  destruct (at_end r) eqn:Er; [|discriminate].
  intros H. inversion H; subst. split.
  - split; [reflexivity|]. simpl. rewrite Da, Db. reflexivity.
  - exists r. auto.
Qed.

Lemma match_tail_decimal_sound (s : str) (mo : option str) :
  Uni.match_tail U s = Some mo ->
  exists tail, at_end tail = true /\
    match mo with
    | None => s = tail
    | Some m =>
        Uni.minute_digits U m /\ (s = [58] ++ m ++ tail \/ s = m ++ tail)
    end.
Proof.
  unfold Uni.match_tail.
  destruct (match s with
            | [] => None
            | c :: r => if c =? 58 then Uni.match_minute U r else None
            end) as [m|] eqn:E1.
  - intros H; inversion H; subst; clear H.
    destruct s as [|c r]; [discriminate|].
    destruct (c =? 58) eqn:Ec; [|discriminate].
    apply N.eqb_eq in Ec; subst c.
    apply match_minute_decimal_sound in E1.
    destruct E1 as [Hm [tail [Ht ->]]].
    exists tail. auto.
  - destruct (Uni.match_minute U s) as [m|] eqn:E2.
    + intros H; inversion H; subst; clear H.
      apply match_minute_decimal_sound in E2.
      destruct E2 as [Hm [tail [Ht ->]]].
      exists tail. auto.
    + destruct (at_end s) eqn:E3; [|discriminate].
      intros H; inversion H; subst. exists s. auto.
Qed.

(** A successful match reads the text as one of the three shapes, followed
    by what [$] tolerates. *)
Lemma time_pattern_decimal_sound (s hour : str) (minute : option str) :
  Uni.time_pattern_match U s = Some (hour, minute) ->
  exists body tail,
    s = body ++ tail /\ at_end tail = true /\ Uni.time_shape U body hour minute.
Proof.
  unfold Uni.time_pattern_match.
  assert (K : forall (h r : str), Uni.hour_digits U h ->
            option_map (pair h) (Uni.match_tail U r) = Some (hour, minute) ->
            exists body tail, h ++ r = body ++ tail /\ at_end tail = true
                              /\ Uni.time_shape U body hour minute).
  { intros h r Hh H.
    destruct (Uni.match_tail U r) as [mo|] eqn:E; [|discriminate].
    simpl in H. inversion H; subst; clear H.
    apply match_tail_decimal_sound in E. destruct E as [tail [Ht E]].
    destruct minute as [m|].
    - destruct E as [Hm [-> | ->]].
      + exists (hour ++ [58] ++ m), tail. rewrite <- !app_assoc.
        repeat split; auto. apply Uni.shape_colon; assumption.
      + exists (hour ++ m), tail. rewrite <- !app_assoc.
        repeat split; auto. apply Uni.shape_joined; assumption.
    - subst r. exists hour, tail. repeat split; auto.
      apply Uni.shape_hour; assumption. }
  destruct (match s with
            | a :: b :: r =>
                if Uni.is_decimal U a && Uni.is_decimal U b
                then option_map (pair [a; b]) (Uni.match_tail U r) else None
            | _ => None
            end) as [g|] eqn:E1.
  - intros H; inversion H; subst; clear H.
    destruct s as [|a [|b r]]; try discriminate.
    destruct (Uni.is_decimal U a) eqn:Da; simpl in E1; [|discriminate].
    destruct (Uni.is_decimal U b) eqn:Db; simpl in E1; [|discriminate].
    apply (K [a; b] r); [|exact E1].
    split; [right; reflexivity|]. simpl. rewrite Da, Db. reflexivity.
  - destruct s as [|a r]; [discriminate|].
    destruct (Uni.is_decimal U a) eqn:Da; [|discriminate].
    intros H. apply (K [a] r); [|exact H].
    split; [left; reflexivity|]. simpl. rewrite Da. reflexivity.
Qed.

(** Every text of one of the three shapes is matched, with those captures. *)
Lemma time_pattern_decimal_complete (s hour : str) (minute : option str) :
  Uni.time_shape U s hour minute ->
  Uni.time_pattern_match U s = Some (hour, minute).
Proof.
  assert (D10 : forall c, Uni.is_decimal U c = true -> (c =? 10) = false)
    by (intros; apply is_decimal_neq; [assumption | reflexivity | reflexivity]).
  assert (D58 : forall c, Uni.is_decimal U c = true -> (c =? 58) = false)
    by (intros; apply is_decimal_neq; [assumption | reflexivity | reflexivity]).
  intros H.
  destruct H as [h [Hl Hd] | h m [Hl Hd] [Hml Hmd] | h m [Hl Hd] [Hml Hmd]].
  - destruct h as [|a [|b [|c r]]]; simpl in Hl; try lia;
      simpl in Hd; rewrite ?andb_true_iff in Hd.
    + destruct Hd as [Da _].
      unfold Uni.time_pattern_match, Uni.match_tail; simpl. rewrite Da.
      reflexivity.
    + destruct Hd as [Da [Db _]].
      unfold Uni.time_pattern_match, Uni.match_tail; simpl. rewrite Da, Db.
      reflexivity.
  - destruct m as [|c [|d [|x mr]]]; simpl in Hml; try lia.
    simpl in Hmd; rewrite ?andb_true_iff in Hmd. destruct Hmd as [Dc [Dd _]].
    destruct h as [|a [|b [|y r]]]; simpl in Hl; try lia;
      simpl in Hd; rewrite ?andb_true_iff in Hd.
    + destruct Hd as [Da _].
      unfold Uni.time_pattern_match, Uni.match_tail, Uni.match_minute; simpl.
      rewrite Da, Dc, Dd.
      replace (Uni.is_decimal U 58) with false
        by (symmetry; apply is_decimal_ascii; reflexivity).
      reflexivity.
    + destruct Hd as [Da [Db _]].
      unfold Uni.time_pattern_match, Uni.match_tail, Uni.match_minute; simpl.
      rewrite Da, Db, Dc, Dd. reflexivity.
  - destruct m as [|c [|d [|x mr]]]; simpl in Hml; try lia.
    simpl in Hmd; rewrite ?andb_true_iff in Hmd. destruct Hmd as [Dc [Dd _]].
    destruct h as [|a [|b [|y r]]]; simpl in Hl; try lia;
      simpl in Hd; rewrite ?andb_true_iff in Hd.
    + destruct Hd as [Da _].
      unfold Uni.time_pattern_match, Uni.match_tail, Uni.match_minute; simpl.
      rewrite Da, Dc, Dd. simpl. rewrite (D58 d Dd), (D10 d Dd), (D58 c Dc).
      reflexivity.
    + destruct Hd as [Da [Db _]].
      unfold Uni.time_pattern_match, Uni.match_tail, Uni.match_minute; simpl.
      rewrite Da, Db. simpl. rewrite (D58 c Dc), Dc, Dd. reflexivity.
Qed.

Lemma zfill_decimal_hour (h : str) :
  Uni.hour_digits U h ->
  List.length (zfill 2 h) = 2%nat
  /\ forallb (Uni.is_decimal U) (zfill 2 h) = true.
Proof.
  assert (Z : Uni.is_decimal U 48 = true)
    by (apply is_decimal_of_isdigit; reflexivity).
  intros [Hl Hd].
  destruct h as [|a [|b [|c r]]]; simpl in Hl; try lia;
    simpl in Hd; rewrite ?andb_true_iff in Hd.
  - destruct Hd as [Da _]. unfold zfill. simpl.
    rewrite (is_decimal_neq a 43 Da), (is_decimal_neq a 45 Da) by reflexivity.
    simpl. rewrite Z, Da. auto.
  - destruct Hd as [Da [Db _]]. unfold zfill. simpl.
    rewrite (is_decimal_neq a 43 Da), (is_decimal_neq a 45 Da) by reflexivity.
    simpl. rewrite Da, Db. auto.
Qed.

(** The five characters of a canonical time. *)
Lemma canonical_decimal_chars (body hour : str) (minute : option str) :
  Uni.time_shape U body hour minute ->
  exists a b c d,
    canonical hour minute = [a; b; 58; c; d]
    /\ Uni.is_decimal U a = true /\ Uni.is_decimal U b = true
    /\ Uni.is_decimal U c = true /\ Uni.is_decimal U d = true.
Proof.
  assert (Z : Uni.is_decimal U 48 = true)
    by (apply is_decimal_of_isdigit; reflexivity).
  intros H.
  assert (Hh : Uni.hour_digits U hour) by (destruct H; assumption).
  destruct (zfill_decimal_hour hour Hh) as [Zl Zd].
  destruct (zfill 2 hour) as [|a [|b [|x r]]] eqn:Ez; simpl in Zl; try lia.
  simpl in Zd. rewrite !andb_true_iff in Zd. destruct Zd as [Da [Db _]].
  unfold canonical. rewrite Ez.
  assert (M : exists c d,
             match minute with Some m => m | None => lit "00" end = [c; d]
             /\ Uni.is_decimal U c = true /\ Uni.is_decimal U d = true).
  { destruct H as [h Hd | h m Hd [Hl Hm] | h m Hd [Hl Hm]].
    - exists 48, 48. repeat split; exact Z.
    - destruct m as [|c [|d [|x r]]]; simpl in Hl; try lia.
      simpl in Hm. rewrite !andb_true_iff in Hm. exists c, d. tauto.
    - destruct m as [|c [|d [|x r]]]; simpl in Hl; try lia.
      simpl in Hm. rewrite !andb_true_iff in Hm. exists c, d. tauto. }
  destruct M as [c [d [Em [Dc Dd]]]].
  exists a, b, c, d. split; [|tauto].
  cbn [app]. do 3 f_equal. exact Em.
Qed.

Lemma clean_time_decimal_canonical (a b c d : char) :
  Uni.is_decimal U a = true -> Uni.is_decimal U b = true ->
  Uni.is_decimal U c = true -> Uni.is_decimal U d = true ->
  clean_time [a; b; 58; c; d] = [a; b; 58; c; d].
Proof.
  intros Da Db Dc Dd. unfold clean_time.
  rewrite strip_solid
    by (cbn [forallb];
        rewrite (is_decimal_not_space a Da), (is_decimal_not_space b Db),
          (is_decimal_not_space c Dc), (is_decimal_not_space d Dd);
        reflexivity).
  unfold lower, replace_char. cbn [map].
  rewrite (is_decimal_lower a Da), (is_decimal_lower b Db),
    (is_decimal_lower c Dc), (is_decimal_lower d Dd).
  change (lower_char 58) with 58.
  rewrite (is_decimal_neq a 46 Da), (is_decimal_neq b 46 Db),
    (is_decimal_neq c 46 Dc), (is_decimal_neq d 46 Dd) by reflexivity.
  change (58 =? 46) with false. cbn iota.
  apply remove_char_solid. cbn [forallb].
  rewrite (is_decimal_neq a 32 Da), (is_decimal_neq b 32 Db),
    (is_decimal_neq c 32 Dc), (is_decimal_neq d 32 Dd) by reflexivity.
  reflexivity.
Qed.

(** The normalizer on a text, through its cleaned form. *)
Lemma normalize_decimal_unfold (t : str) :
  Uni.normalize_time U (Some t) =
  match Uni.time_pattern_match U (clean_time t) with
  | Some (hour, minute) => Some (canonical hour minute)
  | None => None
  end.
Proof.
  destruct t as [|c r]; [reflexivity|]. reflexivity.
Qed.

(** The normalizer answers the canonical text of a shape exactly when the
    cleaned text has that shape. *)
Lemma normalize_decimal_shape (t r : str) :
  Uni.normalize_time U (Some t) = Some r <->
  exists hour minute,
    Uni.time_shape U (clean_time t) hour minute /\ r = canonical hour minute.
Proof.
  rewrite normalize_decimal_unfold. split.
  - destruct (Uni.time_pattern_match U (clean_time t)) as [[hour minute]|] eqn:E;
      [|discriminate].
    intros H. inversion H; subst; clear H.
    apply time_pattern_decimal_sound in E.
    destruct E as [body [tail [Eq [Ht Hs]]]].
    exists hour, minute. split; [|reflexivity].
    destruct (at_end_cases tail Ht) as [->| ->].
    + rewrite app_nil_r in Eq. rewrite Eq. exact Hs.
    + exfalso. exact (clean_time_no_final_newline t body Eq).
  - intros [hour [minute [Hs ->]]].
    rewrite (time_pattern_decimal_complete _ _ _ Hs). reflexivity.
Qed.

(** An ASCII digit is a decimal digit, so a shape in ASCII digits is a
    shape. *)
Lemma time_shape_of_ascii (s hour : str) (minute : option str) :
  time_shape s hour minute -> Uni.time_shape U s hour minute.
Proof.
  assert (F : forall l, forallb isdigit l = true ->
                        forallb (Uni.is_decimal U) l = true).
  { intros l. rewrite !forallb_forall. intros H c Hc.
    apply is_decimal_of_isdigit, H, Hc. }
  intros H. destruct H as [h [Hl Hd] | h m [Hl Hd] [Ml Md] | h m [Hl Hd] [Ml Md]].
  - apply Uni.shape_hour. split; [exact Hl | apply F, Hd].
  - apply Uni.shape_colon; split; auto.
  - apply Uni.shape_joined; split; auto.
Qed.

(** What the normalizer restricted to ASCII digits accepts, the normalizer
    accepts, with the same answer. *)
Lemma normalize_time_of_ascii (t : option str) (r : str) :
  normalize_time t = Some r -> Uni.normalize_time U t = Some r.
Proof.
  destruct t as [t|]; [|discriminate].
  rewrite normalize_time_unfold.
  destruct (time_pattern_match (clean_time t)) as [[hour minute]|] eqn:E;
    [|discriminate].
  intros H. inversion H; subst; clear H.
  apply time_pattern_match_sound in E.
  destruct E as [body [tail [Eq [Ht Hs]]]].
  apply normalize_decimal_shape. exists hour, minute. split; [|reflexivity].
  apply time_shape_of_ascii.
  destruct (at_end_cases tail Ht) as [->| ->].
  - rewrite app_nil_r in Eq. rewrite Eq. exact Hs.
  - exfalso. exact (clean_time_no_final_newline t body Eq).
Qed.

End DecimalFacts.

(* ================================================================= *)
(** ** [int] on decimal digits *)

Section IntFacts.

Variable U : runtime.

Lemma to_ascii_decimal (c v : N) :
  decimal U c = Some v -> Uni.to_ascii U c = 48 + v /\ v <= 9.
Proof.
  intros H. pose proof (decimal_below_ten U c v H) as Hv. split; [|exact Hv].
  unfold Uni.to_ascii. destruct (c <? 127) eqn:E.
  - apply N.ltb_lt in E.
    assert (A : c < 128) by lia.
    rewrite (decimal_ascii U c A) in H.
    destruct (isdigit c) eqn:D; [|discriminate].
    apply isdigit_range in D. injection H as <-. lia.
  - rewrite (decimal_not_space U c v H), H. reflexivity.
Qed.

Lemma within_limit_small (n : nat) : (n <= 640)%nat -> Uni.within_limit U n = true.
Proof.
  intros H. unfold Uni.within_limit.
  destruct (int_max_str_digits U) as [m|] eqn:E; [|reflexivity].
  apply Nat.leb_le. pose proof (int_max_str_digits_floor U m E). lia.
Qed.

Lemma isdigit_shifted (v : N) : v <= 9 -> isdigit (48 + v) = true.
Proof. intros H. apply isdigit_range. lia. Qed.

Lemma c_isspace_digit (c : char) : isdigit c = true -> Uni.c_isspace c = false.
Proof.
  intros H. apply isdigit_range in H. unfold Uni.c_isspace.
  apply orb_false_iff. split.
  - apply andb_false_iff. right. apply N.leb_gt. lia.
  - apply N.eqb_neq. lia.
Qed.

(** The digits of a run of decimal digits: its value and its length. *)
Lemma int_digits_decimals (s : str) (prev : bool) (acc : Z) (n : nat) :
  forallb (Uni.is_decimal U) s = true ->
  s <> [] \/ prev = true ->
  Uni.int_digits prev (map (Uni.to_ascii U) s) acc n
  = Some (fold_left (fun a c =>
                       (10 * a + match decimal U c with
                                 | Some v => Z.of_N v
                                 | None => 0
                                 end)%Z) s acc,
          (n + List.length s)%nat).
Proof.
  revert prev acc n. induction s as [|c s IH]; intros prev acc n Hd Hp.
  - destruct Hp as [Hp| ->]; [contradiction|].
    cbn [map Uni.int_digits fold_left List.length]. rewrite Nat.add_0_r.
    reflexivity.
  - cbn [forallb] in Hd. apply andb_true_iff in Hd. destruct Hd as [Dc Ds].
    unfold Uni.is_decimal in Dc.
    destruct (decimal U c) as [v|] eqn:E; [|discriminate].
    destruct (to_ascii_decimal c v E) as [T Hv].
    cbn [map Uni.int_digits fold_left List.length]. rewrite T, E.
    rewrite (isdigit_shifted v Hv).
    rewrite (IH true _ (S n) Ds) by (right; reflexivity).
    replace (48 + v - 48) with v by lia.
    f_equal. f_equal. lia.
Qed.

(** [int] of a run of decimal digits within the limit is its value. *)
Lemma py_int_decimals (s : str) :
  Uni.decimal_string U s -> Uni.py_int U s = Some (Uni.decimal_value U s).
Proof.
  intros [Hne [Hd Hl]]. unfold Uni.py_int.
  destruct s as [|c s]; [contradiction|].
  pose proof Hd as Hd'.
  cbn [forallb] in Hd'. apply andb_true_iff in Hd'. destruct Hd' as [Dc _].
  unfold Uni.is_decimal in Dc.
  destruct (decimal U c) as [v|] eqn:E; [|discriminate].
  destruct (to_ascii_decimal c v E) as [T Hv].
  assert (I := int_digits_decimals (c :: s) false 0%Z 0%nat Hd
                 (or_introl Hne)).
  cbn [map] in I |- *. rewrite T in I |- *.
  cbn [Uni.skip_spaces]. rewrite (c_isspace_digit _ (isdigit_shifted v Hv)).
  replace (48 + v =? 45) with false by (symmetry; apply N.eqb_neq; lia).
  replace (48 + v =? 43) with false by (symmetry; apply N.eqb_neq; lia).
  cbn [orb]. rewrite I. cbn [Nat.add]. rewrite Hl. reflexivity.
Qed.

(** [int] of two decimal digits. *)
Lemma py_int_two_decimals (a b va vb : N) :
  decimal U a = Some va -> decimal U b = Some vb ->
  Uni.py_int U [a; b] = Some (10 * Z.of_N va + Z.of_N vb)%Z.
Proof.
  intros Ea Eb. rewrite py_int_decimals.
  - unfold Uni.decimal_value. cbn [fold_left]. rewrite Ea, Eb. f_equal; lia.
  - split; [discriminate|]. split.
    + unfold Uni.is_decimal. cbn [forallb]. rewrite Ea, Eb. reflexivity.
    + apply within_limit_small. simpl. lia.
Qed.

(** The [try] block on two decimal digits, a colon and two decimal digits:
    the clock they spell, when it is one. *)
Lemma parse_clock_decimals (a b c d va vb vc vd : N) :
  decimal U a = Some va -> decimal U b = Some vb ->
  decimal U c = Some vc -> decimal U d = Some vd ->
  let h := (10 * Z.of_N va + Z.of_N vb)%Z in
  let m := (10 * Z.of_N vc + Z.of_N vd)%Z in
  Uni.parse_clock U [a; b; 58; c; d]
  = if ((h <=? 23) && (m <=? 59))%Z then Some (h, m) else None.
Proof.
  intros Ea Eb Ec Ed h m. unfold Uni.parse_clock.
  assert (N58 : forall x v, decimal U x = Some v -> x <> 58).
  { intros x v E ->. rewrite (decimal_ascii U 58) in E by reflexivity.
    discriminate. }
  assert (Sp : split 58 [a; b; 58; c; d] = [[a; b]; [c; d]]).
  { change [a; b; 58; c; d] with ([a; b] ++ 58 :: [c; d]).
    rewrite split_app_sep, split_no_sep; [reflexivity| |];
      repeat constructor; eauto. }
  rewrite Sp, (py_int_two_decimals a b va vb Ea Eb),
    (py_int_two_decimals c d vc vd Ec Ed).
  fold h m.
  assert (Hh : (0 <= h)%Z) by (unfold h; lia).
  assert (Hm : (0 <= m)%Z) by (unfold m; lia).
  replace (0 <=? h)%Z with true by (symmetry; apply Z.leb_le; exact Hh).
  replace (0 <=? m)%Z with true by (symmetry; apply Z.leb_le; exact Hm).
  cbn [andb].
  destruct (h <=? 23)%Z; cbn [andb]; [|reflexivity].
  destruct (m <=? 59)%Z; reflexivity.
Qed.

Lemma decimal_of_ascii_digit (c : char) :
  isdigit c = true -> decimal U c = Some (c - 48).
Proof.
  intros H. pose proof H as R. apply isdigit_range in R.
  rewrite (decimal_ascii U c) by lia. rewrite H. reflexivity.
Qed.

End IntFacts.

(* ================================================================= *)
(** ** The per-day sort over the sort key *)

Section DecimalSort.

Variable U : runtime.

Lemma decimal_key_le_trans (a b c : event) :
  Uni.key_le U a b -> Uni.key_le U b c -> Uni.key_le U a c.
Proof.
  unfold Uni.key_le. rewrite !key_ltb_false. lia.
Qed.

Lemma decimal_key_le_of_lt (a b : event) :
  key_ltb (Uni.key_of U a) (Uni.key_of U b) = true -> Uni.key_le U a b.
Proof.
  unfold Uni.key_le. rewrite key_ltb_false, key_ltb_spec. lia.
Qed.

Lemma decimal_insert_perm (x : event) (l : list event) :
  Permutation (x :: l) (Uni.insert_event U x l).
Proof.
  induction l as [|y r IH]; cbn [Uni.insert_event]; [apply Permutation_refl|].
  destruct (key_ltb (Uni.key_of U y) (Uni.key_of U x)); [|apply Permutation_refl].
  eapply perm_trans; [apply perm_swap|]. apply perm_skip, IH.
Qed.

Lemma decimal_sort_perm (l : list event) : Permutation l (Uni.py_sort U l).
Proof.
  induction l as [|x r IH]; [apply perm_nil|].
  cbn [Uni.py_sort fold_right]. fold (Uni.py_sort U r).
  eapply perm_trans; [apply perm_skip, IH | apply decimal_insert_perm].
Qed.

Lemma decimal_insert_sorted (x : event) (l : list event) :
  StronglySorted (Uni.key_le U) l ->
  StronglySorted (Uni.key_le U) (Uni.insert_event U x l).
Proof.
  induction 1 as [|y r Hs IH Hy]; cbn [Uni.insert_event].
  - constructor; constructor.
  - destruct (key_ltb (Uni.key_of U y) (Uni.key_of U x)) eqn:E.
    + constructor; [exact IH|].
      rewrite Forall_forall in *. intros z Hz.
      apply (Permutation_in _ (Permutation_sym (decimal_insert_perm x r))) in Hz.
      destruct Hz as [<-|Hz]; [apply decimal_key_le_of_lt, E | apply Hy, Hz].
    + constructor; [constructor; assumption|].
      constructor; [exact E|].
      rewrite Forall_forall in *. intros z Hz.
      apply decimal_key_le_trans with y; [exact E | apply Hy, Hz].
Qed.

Lemma decimal_sort_sorted (l : list event) :
  StronglySorted (Uni.key_le U) (Uni.py_sort U l).
Proof.
  induction l as [|x r IH]; [constructor|].
  cbn [Uni.py_sort fold_right]. fold (Uni.py_sort U r).
  apply decimal_insert_sorted, IH.
Qed.

Lemma decimal_insert_stable (k : Z * clock) (x : event) (l : list event) :
  filter (fun e => key_eqb (Uni.key_of U e) k) (Uni.insert_event U x l)
  = filter (fun e => key_eqb (Uni.key_of U e) k) (x :: l).
Proof.
  induction l as [|y r IH]; [reflexivity|].
  cbn [Uni.insert_event].
  destruct (key_ltb (Uni.key_of U y) (Uni.key_of U x)) eqn:E; [|reflexivity].
  cbn [filter] in *. rewrite IH.
  destruct (key_eqb (Uni.key_of U x) k) eqn:Ex,
           (key_eqb (Uni.key_of U y) k) eqn:Ey;
    try reflexivity.
  exfalso. unfold key_eqb in Ex, Ey.
  rewrite andb_true_iff, !negb_true_iff, !key_ltb_false in Ex, Ey.
  rewrite key_ltb_spec in E. lia.
Qed.

Lemma decimal_sort_stable (k : Z * clock) (l : list event) :
  filter (fun e => key_eqb (Uni.key_of U e) k) (Uni.py_sort U l)
  = filter (fun e => key_eqb (Uni.key_of U e) k) l.
Proof.
  induction l as [|x r IH]; [reflexivity|].
  cbn [Uni.py_sort fold_right]. fold (Uni.py_sort U r).
  rewrite decimal_insert_stable. cbn [filter]. rewrite IH. reflexivity.
Qed.

(** The [try] block answers valid clock times only. *)
Lemma parse_clock_valid (t : str) (h m : Z) :
  Uni.parse_clock U t = Some (h, m) -> (0 <= h <= 23 /\ 0 <= m <= 59)%Z.
Proof.
  unfold Uni.parse_clock.
  destruct (split 58 t) as [|a [|b [|c r]]]; try discriminate.
  destruct (Uni.py_int U a) as [h'|]; [|discriminate].
  destruct (Uni.py_int U b) as [m'|]; [|discriminate].
  destruct ((0 <=? h') && (h' <=? 23) && (0 <=? m') && (m' <=? 59))%Z eqn:V;
    [|discriminate].
  rewrite !andb_true_iff, !Z.leb_le in V.
  intros H. inversion H; subst. lia.
Qed.

Lemma decimal_sort_key_untimed (e : event) :
  ev_time e = None -> Uni.sort_key U e = end_of_day.
Proof. intros H. unfold Uni.sort_key. rewrite H. reflexivity. Qed.

Lemma decimal_sort_key_unparsed (e : event) (t : str) :
  ev_time e = Some t -> Uni.parse_clock U t = None ->
  Uni.sort_key U e = end_of_day.
Proof.
  intros H P. unfold Uni.sort_key. rewrite H, P.
  destruct (negb (truthy (Some t))); reflexivity.
Qed.

Lemma decimal_sort_key_parsed (e : event) (t : str) (c : clock) :
  ev_time e = Some t -> Uni.parse_clock U t = Some c -> Uni.sort_key U e = c.
Proof.
  intros H P. unfold Uni.sort_key. rewrite H.
  destruct t as [|x r]; [discriminate P|].
  cbn [truthy negb]. rewrite P. reflexivity.
Qed.

Lemma decimal_sort_key_valid (e : event) :
  (0 <= fst (Uni.sort_key U e) <= 23 /\ 0 <= snd (Uni.sort_key U e) <= 59)%Z.
Proof.
  unfold Uni.sort_key.
  destruct (negb (truthy (ev_time e))); [simpl; lia|].
  destruct (ev_time e) as [t|]; [|simpl; lia].
  destruct (Uni.parse_clock U t) as [[h m]|] eqn:E; [|simpl; lia].
  apply parse_clock_valid in E. simpl. lia.
Qed.

(** In a sorted day, whatever follows an end-of-day entry within its category
    group is keyed end-of-day too. *)
Lemma decimal_after_end_of_day (l l1 l2 : list event) (e e' : event) :
  StronglySorted (Uni.key_le U) l ->
  l = l1 ++ e :: l2 -> In e' l2 ->
  category_priority e' = category_priority e ->
  Uni.sort_key U e = end_of_day -> Uni.sort_key U e' = end_of_day.
Proof.
  intros Hs -> Hin Hp Hk.
  assert (Hle : Uni.key_le U e e').
  { clear Hp Hk. induction l1 as [|z l1 IH]; simpl in Hs.
    - apply StronglySorted_inv in Hs. destruct Hs as [_ Hf].
      rewrite Forall_forall in Hf. apply Hf, Hin.
    - apply StronglySorted_inv in Hs. destruct Hs as [Hs _]. apply IH, Hs. }
  unfold Uni.key_le in Hle. rewrite key_ltb_false in Hle.
  unfold Uni.key_of in Hle. simpl in Hle. rewrite Hp, Hk in Hle.
  pose proof (decimal_sort_key_valid e') as V.
  destruct (Uni.sort_key U e') as [h m]. unfold end_of_day in *. simpl in *.
  f_equal; lia.
Qed.

Lemma parse_clock_ascii (a b c d : char) :
  isdigit a = true -> isdigit b = true -> isdigit c = true -> isdigit d = true ->
  let h := (10 * Z.of_N (a - 48) + Z.of_N (b - 48))%Z in
  let m := (10 * Z.of_N (c - 48) + Z.of_N (d - 48))%Z in
  Uni.parse_clock U [a; b; 58; c; d]
  = if ((h <=? 23) && (m <=? 59))%Z then Some (h, m) else None.
Proof.
  intros Da Db Dc Dd.
  apply parse_clock_decimals; apply decimal_of_ascii_digit; assumption.
Qed.

End DecimalSort.

(* ================================================================= *)
(** ** ASCII text: the two normalizers agree *)

Section AsciiText.

Variable U : runtime.

Lemma match_minute_on_ascii (s : str) :
  Forall (fun c => c < 128) s -> Uni.match_minute U s = match_minute s.
Proof.
  intros H. destruct s as [|a [|b r]]; try reflexivity.
  inversion H as [|? ? Ha H1]; subst. inversion H1 as [|? ? Hb _]; subst.
  unfold Uni.match_minute, match_minute.
  rewrite (is_decimal_ascii U a Ha), (is_decimal_ascii U b Hb). reflexivity.
Qed.

Lemma match_tail_on_ascii (s : str) :
  Forall (fun c => c < 128) s -> Uni.match_tail U s = match_tail s.
Proof.
  intros H. unfold Uni.match_tail, match_tail.
  rewrite (match_minute_on_ascii s H).
  destruct s as [|c r]; [reflexivity|].
  inversion H as [|? ? _ Hr]; subst.
  rewrite (match_minute_on_ascii r Hr). reflexivity.
Qed.

Lemma time_pattern_on_ascii (s : str) :
  Forall (fun c => c < 128) s ->
  Uni.time_pattern_match U s = time_pattern_match s.
Proof.
  intros H. unfold Uni.time_pattern_match, time_pattern_match.
  destruct s as [|a [|b r]]; [reflexivity| |].
  - inversion H as [|? ? Ha _]; subst.
    rewrite (is_decimal_ascii U a Ha), (match_tail_on_ascii [] (Forall_nil _)).
    reflexivity.
  - inversion H as [|? ? Ha H1]; subst. inversion H1 as [|? ? Hb Hr]; subst.
    rewrite (is_decimal_ascii U a Ha), (is_decimal_ascii U b Hb),
      (match_tail_on_ascii r Hr), (match_tail_on_ascii (b :: r) H1).
    reflexivity.
Qed.

Lemma clean_time_ascii (t : str) :
  Forall (fun c => c < 128) t -> Forall (fun c => c < 128) (clean_time t).
Proof.
  intros H. unfold clean_time, remove_char, replace_char, lower.
  apply Forall_forall. intros c Hc.
  apply filter_In in Hc. destruct Hc as [Hc _].
  apply in_map_iff in Hc. destruct Hc as [x [<- Hx]].
  apply in_map_iff in Hx. destruct Hx as [y [<- Hy]].
  assert (Y : y < 128).
  { pose proof (strip_forall _ t H) as S. rewrite Forall_forall in S.
    apply S, Hy. }
  assert (L : lower_char y < 128).
  { unfold lower_char, isupper_char.
    destruct ((65 <=? y) && (y <=? 90)) eqn:E; [|exact Y].
    apply andb_true_iff in E. rewrite !N.leb_le in E. lia. }
  destruct (lower_char y =? 46); [reflexivity | exact L].
Qed.

(** On a text of ASCII characters the normalizer is the one restricted to
    ASCII digits. *)
Lemma normalize_time_on_ascii (t : str) :
  Forall (fun c => c < 128) t ->
  Uni.normalize_time U (Some t) = normalize_time (Some t).
Proof.
  intros H. rewrite normalize_decimal_unfold, normalize_time_unfold.
  rewrite (time_pattern_on_ascii _ (clean_time_ascii t H)). reflexivity.
Qed.

End AsciiText.

(* ================================================================= *)
(** ** The time normalizer: what it accepts and what it returns *)

(** Where the worded shape accepts, the normalizer answers the same text:
    the normalizer accepts more, never less. *)
Lemma worded_shape_is_accepted (U : runtime) (t r : str) :
  spec_normalize_time t = Some r -> Uni.normalize_time U (Some t) = Some r.
Proof.
  intros H. apply normalize_time_of_ascii, spec_shape_refined, H.
Qed.

(** C3, as the specification words it, fails on a run of four digits: with
    no colon the text is not of the worded shape, yet the normalizer answers
    a time.  It fails as well on a text with a space inside, which the
    normalizer removes. *)
Lemma spec_shape_rejects_1445 :
  spec_normalize_time (lit "1445") = None
  /\ (forall U, Uni.normalize_time U (Some (lit "1445")) = Some (lit "14:45"))
  /\ spec_normalize_time (lit "1 4:45") = None
  /\ (forall U, Uni.normalize_time U (Some (lit "1 4:45")) = Some (lit "14:45")).
Proof.
  split; [reflexivity|].
  split; [intros U; apply normalize_time_of_ascii; reflexivity|].
  split; [reflexivity|].
  intros U; apply normalize_time_of_ascii; reflexivity.
Qed.

(** C3 (amended).  The normalizer strips the text, lowercases it, turns dots
    into colons and removes every space; it answers the canonical HH:MM (hour
    padded with a zero to two digits, minute 00 when absent) exactly when the
    cleaned text is a one- or two-digit hour, alone or followed by a
    two-digit minute with or without a colon between them, and no time for
    every other text.  A digit is a decimal digit of any script, as [\d]
    reads it: the Arabic-Indic text for 12:30 is accepted and returned, and
    the Arabic-Indic 9 is padded with an ASCII zero.  2:30 gives 02:30, 14.45
    gives 14:45, 2:30pm and the empty text give no time. *)
Theorem normalize_time_contract (U : runtime) :
  (forall t r : str,
      Uni.normalize_time U (Some t) = Some r <->
      exists hour minute,
        Uni.time_shape U (clean_time t) hour minute
        /\ r = canonical hour minute)
  /\ (forall t : str,
        Uni.normalize_time U (Some t) = None <->
        ~ exists hour minute, Uni.time_shape U (clean_time t) hour minute)
  /\ Uni.normalize_time U None = None
  /\ Uni.normalize_time U (Some (lit "2:30")) = Some (lit "02:30")
  /\ Uni.normalize_time U (Some (lit "14.45")) = Some (lit "14:45")
  /\ Uni.normalize_time U (Some (lit "2:30pm")) = None
  /\ Uni.normalize_time U (Some []) = None
  /\ Uni.normalize_time U (Some [1633; 1634; 58; 1635; 1632])
     = Some [1633; 1634; 58; 1635; 1632]
  /\ Uni.normalize_time U (Some [1641]) = Some [48; 1641; 58; 48; 48].
Proof.
  assert (A : forall i c, i <= 9 -> c = 1632 + i -> Uni.is_decimal U c = true)
    by (intros i c Hi ->; apply is_decimal_arabic_indic, Hi).
  assert (A0 := A 0 1632 ltac:(compute; discriminate) eq_refl).
  assert (A1 := A 1 1633 ltac:(compute; discriminate) eq_refl).
  assert (A2 := A 2 1634 ltac:(compute; discriminate) eq_refl).
  assert (A3 := A 3 1635 ltac:(compute; discriminate) eq_refl).
  assert (A9 := A 9 1641 ltac:(compute; discriminate) eq_refl).
  split; [apply normalize_decimal_shape|].
  split.
  { intros t. split.
    - intros HN [hour [minute Hs]].
      assert (E : Uni.normalize_time U (Some t) = Some (canonical hour minute))
        by (apply normalize_decimal_shape; eauto).
      congruence.
    - intros HN.
      destruct (Uni.normalize_time U (Some t)) as [r|] eqn:E; [|reflexivity].
      exfalso. apply HN. apply normalize_decimal_shape in E.
      destruct E as [h [m [Hs _]]]. eauto. }
  split; [reflexivity|].
  split; [apply normalize_time_of_ascii; reflexivity|].
  split; [apply normalize_time_of_ascii; reflexivity|].
  split; [rewrite normalize_time_on_ascii;
          [reflexivity | repeat constructor]|].
  split; [reflexivity|].
  split.
  - apply normalize_decimal_shape.
    exists [1633; 1634], (Some [1635; 1632]). split; [|reflexivity].
    replace (clean_time [1633; 1634; 58; 1635; 1632])
      with ([1633; 1634] ++ [58] ++ [1635; 1632]) by reflexivity.
    apply Uni.shape_colon; (split; [auto|]); cbn [forallb].
    + rewrite A1, A2. reflexivity.
    + rewrite A3, A0. reflexivity.
  - apply normalize_decimal_shape.
    exists [1641], None. split; [|reflexivity].
    replace (clean_time [1641]) with [1641] by reflexivity.
    apply Uni.shape_hour. split; [auto|]. cbn [forallb].
    rewrite A9. reflexivity.
Qed.

(** With the ASCII and the Arabic-Indic digits: 12:30 in Arabic-Indic
    digits is returned as it is, 9 is padded with an ASCII zero, 2:30pm is
    no time. *)
Lemma normalize_time_contract_witness :
  Uni.normalize_time small_runtime (Some [1633; 1634; 58; 1635; 1632])
  = Some [1633; 1634; 58; 1635; 1632]
  /\ Uni.normalize_time small_runtime (Some [1641]) = Some [48; 1641; 58; 48; 48]
  /\ Uni.normalize_time small_runtime (Some (lit "2:30pm")) = None
  /\ (exists hour minute,
        Uni.time_shape small_runtime (clean_time (lit " 14.45 ")) hour minute
        /\ canonical hour minute = lit "14:45").
Proof.
  destruct (normalize_time_contract small_runtime)
    as [Main [_ [_ [_ [_ [Pm [_ [Ar Nine]]]]]]]].
  split; [exact Ar|]. split; [exact Nine|]. split; [exact Pm|].
  destruct (proj1 (Main (lit " 14.45 ") (lit "14:45")) eq_refl)
    as [hour [minute [Hs Hc]]].
  exists hour, minute. split; [exact Hs | symmetry; exact Hc].
Defined.

(* ================================================================= *)
(** ** The answers of the normalizer *)

(** X2.  Whatever the normalizer accepts, its answer is two decimal digits,
    a colon and two decimal digits, and normalizing that answer gives it
    back. *)
Theorem normalize_time_canonical_fixed_point
  (U : runtime) (t : option str) (r : str) :
  Uni.normalize_time U t = Some r ->
  (exists a b c d,
      r = [a; b; 58; c; d]
      /\ Uni.is_decimal U a = true /\ Uni.is_decimal U b = true
      /\ Uni.is_decimal U c = true /\ Uni.is_decimal U d = true)
  /\ Uni.normalize_time U (Some r) = Some r.
Proof.
  intros H. destruct t as [t|]; [|discriminate].
  rewrite normalize_decimal_unfold in H.
  destruct (Uni.time_pattern_match U (clean_time t)) as [[hour minute]|] eqn:E;
    [|discriminate].
  inversion H; subst; clear H.
  apply time_pattern_decimal_sound in E.
  destruct E as [body [tail [_ [_ Hs]]]].
  destruct (canonical_decimal_chars U _ _ _ Hs)
    as [a [b [c [d [Ec [Da [Db [Dc Dd]]]]]]]].
  rewrite Ec. split; [exists a, b, c, d; repeat split; assumption|].
  rewrite normalize_decimal_unfold, (clean_time_decimal_canonical U)
    by assumption.
  replace (Uni.time_pattern_match U _) with (Some ([a; b], Some [c; d])).
  - unfold canonical, zfill. simpl.
    rewrite (is_decimal_neq U a 43 Da), (is_decimal_neq U a 45 Da)
      by reflexivity.
    reflexivity.
  - symmetry. apply time_pattern_decimal_complete.
    apply (Uni.shape_colon U [a; b] [c; d]); split; simpl;
      rewrite ?Da, ?Db, ?Dc, ?Dd; auto.
Qed.

(** 9.05 is read as five past nine, in ASCII digits and in Arabic-Indic
    ones: the answer comes back as it is. *)
Lemma normalize_time_fixed_point_witness :
  Uni.normalize_time small_runtime (Some (lit "9.05")) = Some (lit "09:05")
  /\ Uni.normalize_time small_runtime (Some (lit "09:05")) = Some (lit "09:05")
  /\ Uni.normalize_time small_runtime (Some [1641; 46; 1632; 1637])
     = Some [48; 1641; 58; 1632; 1637]
  /\ Uni.normalize_time small_runtime (Some [48; 1641; 58; 1632; 1637])
     = Some [48; 1641; 58; 1632; 1637].
Proof.
  split; [reflexivity|]. split.
  - apply (normalize_time_canonical_fixed_point
             small_runtime (Some (lit "9.05")) (lit "09:05")).
    reflexivity.
  - split; [reflexivity|].
    apply (normalize_time_canonical_fixed_point
             small_runtime (Some [1641; 46; 1632; 1637])
             [48; 1641; 58; 1632; 1637]).
    reflexivity.
Defined.

(* ================================================================= *)
(** ** The sort key never fails *)

(** C9.  The sort key is defined on every entry and the sort returns a
    rearrangement of every list, in key order, entries of equal key in the
    order they had.  The key is the clock the time spells when the [try]
    block reads one - two decimal digits, a colon and two decimal digits
    give hour and minute when they are at most 23 and 59 - and the end of
    the day, 23:59, when the entry has no time or the [try] block fails, as
    on 99:00, which the normalizer makes from 99.  So in the sorted day no
    entry with a clock time other than 23:59 comes after an entry of its
    category group whose time is absent or does not parse: 10:00 goes before
    99:00, and 99:00 stays among the untimed entries and those at 23:59, in
    the order they had. *)
Theorem sort_never_fails (U : runtime) :
  (forall e, ev_time e = None -> Uni.sort_key U e = end_of_day)
  /\ (forall e t, ev_time e = Some t -> Uni.parse_clock U t = None ->
                  Uni.sort_key U e = end_of_day)
  /\ (forall e t c, ev_time e = Some t -> Uni.parse_clock U t = Some c ->
                    Uni.sort_key U e = c)
  /\ (forall t h m, Uni.parse_clock U t = Some (h, m) ->
                    0 <= h <= 23 /\ 0 <= m <= 59)%Z
  /\ (forall a b c d va vb vc vd,
        decimal U a = Some va -> decimal U b = Some vb ->
        decimal U c = Some vc -> decimal U d = Some vd ->
        Uni.parse_clock U [a; b; 58; c; d]
        = if ((10 * Z.of_N va + Z.of_N vb <=? 23)
              && (10 * Z.of_N vc + Z.of_N vd <=? 59))%Z
          then Some (10 * Z.of_N va + Z.of_N vb,
                     10 * Z.of_N vc + Z.of_N vd)%Z
          else None)
  /\ Uni.normalize_time U (Some (lit "99")) = Some (lit "99:00")
  /\ Uni.parse_clock U (lit "99:00") = None
  /\ (forall l, Permutation l (Uni.py_sort U l))
  /\ (forall l, StronglySorted (Uni.key_le U) (Uni.py_sort U l))
  /\ (forall k l,
        filter (fun e => key_eqb (Uni.key_of U e) k) (Uni.py_sort U l)
        = filter (fun e => key_eqb (Uni.key_of U e) k) l)
  /\ (forall l l1 e l2 e' t' c,
        Uni.py_sort U l = l1 ++ e :: l2 -> In e' l2 ->
        category_priority e' = category_priority e ->
        (ev_time e = None
         \/ exists t, ev_time e = Some t /\ Uni.parse_clock U t = None) ->
        ev_time e' = Some t' -> Uni.parse_clock U t' = Some c ->
        c = end_of_day)
  /\ Uni.py_sort U odd_day
     = [ mkevent (Some (lit "10:00")) (lit "Quiz") Activity;
         mkevent None (lit "Walk") Fixed;
         mkevent (Some (lit "99:00")) (lit "Late Tea") Activity;
         mkevent (Some (lit "23:59")) (lit "Night Round") Activity ].
Proof.
  assert (P99 : Uni.parse_clock U (lit "99:00") = None)
    by exact (parse_clock_ascii U 57 57 48 48 eq_refl eq_refl eq_refl eq_refl).
  assert (P10 : Uni.parse_clock U (lit "10:00") = Some (10, 0)%Z)
    by exact (parse_clock_ascii U 49 48 48 48 eq_refl eq_refl eq_refl eq_refl).
  assert (P23 : Uni.parse_clock U (lit "23:59") = Some (23, 59)%Z)
    by exact (parse_clock_ascii U 50 51 53 57 eq_refl eq_refl eq_refl eq_refl).
  split; [exact (decimal_sort_key_untimed U)|].
  split; [exact (decimal_sort_key_unparsed U)|].
  split; [exact (decimal_sort_key_parsed U)|].
  split; [exact (parse_clock_valid U)|].
  split; [exact (parse_clock_decimals U)|].
  split; [apply normalize_time_of_ascii; reflexivity|].
  split; [exact P99|].
  split; [exact (decimal_sort_perm U)|].
  split; [exact (decimal_sort_sorted U)|].
  split; [exact (decimal_sort_stable U)|].
  split.
  - intros l l1 e l2 e' t' c Hl Hin Hc He Ht' Hp'.
    assert (Ke : Uni.sort_key U e = end_of_day).
    { destruct He as [He|[t [He Hp]]].
      - apply decimal_sort_key_untimed, He.
      - apply (decimal_sort_key_unparsed U e t He Hp). }
    rewrite <- (decimal_sort_key_parsed U e' t' c Ht' Hp').
    apply (decimal_after_end_of_day U (Uni.py_sort U l) l1 l2 e e');
      [apply decimal_sort_sorted | exact Hl | exact Hin | exact Hc | exact Ke].
  - assert (Kw : Uni.key_of U (mkevent None (lit "Walk") Fixed)
                 = (2, (23, 59))%Z) by reflexivity.
    assert (Kl : Uni.key_of U (mkevent (Some (lit "99:00")) (lit "Late Tea") Activity)
                 = (2, (23, 59))%Z).
    { unfold Uni.key_of. f_equal.
      apply (decimal_sort_key_unparsed U _ (lit "99:00")); [reflexivity | exact P99]. }
    assert (Kq : Uni.key_of U (mkevent (Some (lit "10:00")) (lit "Quiz") Activity)
                 = (2, (10, 0))%Z).
    { unfold Uni.key_of. f_equal.
      apply (decimal_sort_key_parsed U _ (lit "10:00")); [reflexivity | exact P10]. }
    assert (Kn : Uni.key_of U (mkevent (Some (lit "23:59")) (lit "Night Round") Activity)
                 = (2, (23, 59))%Z).
    { unfold Uni.key_of. f_equal.
      apply (decimal_sort_key_parsed U _ (lit "23:59")); [reflexivity | exact P23]. }
    unfold Uni.py_sort, odd_day. cbn [fold_right].
    repeat (cbn [Uni.insert_event]; rewrite ?Kw, ?Kl, ?Kq, ?Kn;
            repeat match goal with
                   | |- context [key_ltb (?p, ?a) (?q, ?b)] =>
                       let v := eval vm_compute in (key_ltb (p, a) (q, b)) in
                       change (key_ltb (p, a) (q, b)) with v
                   end;
            cbn iota).
    reflexivity.
Qed.

(** A rule with a time cell of 99 and a rule at 10:00 on the Thursdays of
    November 2025: on the 6th the builder puts Quiz at 10:00 first and Late
    Tea, at 99:00, after it. *)
Lemma sort_never_fails_witness :
  Uni.py_sort small_runtime odd_day
  = [ mkevent (Some (lit "10:00")) (lit "Quiz") Activity;
      mkevent None (lit "Walk") Fixed;
      mkevent (Some (lit "99:00")) (lit "Late Tea") Activity;
      mkevent (Some (lit "23:59")) (lit "Night Round") Activity ]
  /\ option_map (get (mkdate 2025 11 6))
       (Uni.seat_activity_into_calendar small_runtime [] 2025 11 None None
          odd_rules false)
     = Some [ mkevent (Some (lit "10:00")) (lit "Quiz") Fixed;
              mkevent (Some (lit "99:00")) (lit "Late Tea") Fixed ].
Proof.
  split.
  - apply (sort_never_fails small_runtime).
  - reflexivity.
Defined.

(* ================================================================= *)
(** ** The frequency cell *)

Section Frequency.

Variable U : runtime.

Lemma not_digits_isdigit (s : str) :
  Uni.not_digits U s <-> Uni.str_isdigit U s = false.
Proof.
  unfold Uni.not_digits, Uni.str_isdigit. split.
  - intros [->|H]; [reflexivity|].
    destruct s as [|c r]; [reflexivity|].
    apply Exists_exists in H. destruct H as [x [Hx Dx]].
    destruct (forallb (digit_class U) (c :: r)) eqn:E; [|reflexivity].
    rewrite forallb_forall in E. rewrite (E x Hx) in Dx. discriminate.
  - destruct s as [|c r]; [left; reflexivity|].
    intros H. right. apply Exists_exists.
    destruct (forallb (digit_class U) (c :: r)) eqn:E; [discriminate|].
    clear H. induction (c :: r) as [|x l IH]; [discriminate|].
    cbn [forallb] in E. apply andb_false_iff in E. destruct E as [E|E].
    + exists x. split; [left; reflexivity | exact E].
    + destruct (IH E) as [y [Hy Dy]]. exists y. split; [right; exact Hy | exact Dy].
Qed.

(** A cell of decimal digits, of any script, is read as its value. *)
Lemma decimal_frequency (r : activity_row) :
  Uni.decimal_string U (a_frequency r) ->
  Uni.frequency_of U r
  = Some (Z.to_nat (Uni.decimal_value U (a_frequency r))).
Proof.
  intros H. unfold Uni.frequency_of.
  rewrite (py_int_decimals U _ H).
  destruct H as [Hne [Hd _]].
  assert (D : Uni.str_isdigit U (a_frequency r) = true).
  { unfold Uni.str_isdigit. destruct (a_frequency r) as [|c s]; [contradiction|].
    rewrite forallb_forall in *. intros x Hx. specialize (Hd x Hx).
    unfold Uni.is_decimal in Hd.
    destruct (decimal U x) as [v|] eqn:E; [|discriminate].
    exact (digit_class_decimal U x v E). }
  rewrite D. reflexivity.
Qed.

Lemma to_ascii_without_value (c : char) :
  digit_class U c = true -> decimal U c = None -> Uni.to_ascii U c = 63.
Proof.
  intros D V. unfold Uni.to_ascii. destruct (c <? 127) eqn:E.
  - apply N.ltb_lt in E. assert (A : c < 128) by lia.
    rewrite (digit_class_ascii U c A) in D.
    rewrite (decimal_ascii U c A), D in V. discriminate.
  - rewrite (digit_class_not_space U c D), V. reflexivity.
Qed.

Lemma skip_spaces_question (s : str) : In 63 s -> In 63 (Uni.skip_spaces s).
Proof.
  induction s as [|c r IH]; [intros []|].
  intros H. cbn [Uni.skip_spaces].
  destruct (Uni.c_isspace c) eqn:E; [|exact H].
  destruct H as [->|H]; [discriminate E | apply IH, H].
Qed.

(** No literal has a question mark in it. *)
Lemma int_digits_question (s : str) (prev : bool) (acc : Z) (n : nat) :
  In 63 s -> Uni.int_digits prev s acc n = None.
Proof.
  revert prev acc n. induction s as [|c r IH]; intros prev acc n H; [destruct H|].
  cbn [Uni.int_digits].
  destruct (isdigit c) eqn:Dc.
  - destruct H as [->|H]; [discriminate Dc | apply IH, H].
  - destruct ((c =? 95) && prev) eqn:Eu.
    + apply andb_true_iff in Eu. destruct Eu as [Eu _]. apply N.eqb_eq in Eu.
      destruct H as [H|H]; [rewrite H in Eu; discriminate Eu|].
      destruct r as [|d r']; [reflexivity|].
      destruct (isdigit d); [apply IH, H | reflexivity].
    + replace (forallb Uni.c_isspace (c :: r)) with false;
        [rewrite andb_false_r; reflexivity|].
      symmetry. apply not_true_is_false. intros F.
      rewrite forallb_forall in F. specialize (F 63 H). discriminate F.
Qed.

Lemma py_int_question (s : str) :
  In 63 (map (Uni.to_ascii U) s) -> Uni.py_int U s = None.
Proof.
  intros H. apply skip_spaces_question in H. unfold Uni.py_int.
  destruct (Uni.skip_spaces (map (Uni.to_ascii U) s)) as [|c r]; [reflexivity|].
  assert (B : In 63 (if (c =? 45) || (c =? 43) then r else c :: r)).
  { destruct ((c =? 45) || (c =? 43)) eqn:E; [|exact H].
    destruct H as [->|H]; [discriminate E | exact H]. }
  pose proof (int_digits_question _ false 0%Z 0%nat B) as I.
  cbv zeta. unfold str, char in *. rewrite I. reflexivity.
Qed.

(** A cell that passes the guard with a digit character of no decimal
    value: [int] raises. *)
Lemma frequency_without_value (r : activity_row) :
  Uni.str_isdigit U (a_frequency r) = true ->
  Exists (fun c => decimal U c = None) (a_frequency r) ->
  Uni.frequency_of U r = None.
Proof.
  intros D E. unfold Uni.frequency_of. rewrite D.
  rewrite py_int_question; [reflexivity|].
  apply Exists_exists in E. destruct E as [c [Hc V]].
  apply in_map_iff. exists c. split; [|exact Hc].
  apply to_ascii_without_value; [|exact V].
  unfold Uni.str_isdigit in D.
  destruct (a_frequency r) as [|x l]; [discriminate|].
  rewrite forallb_forall in D. apply D, Hc.
Qed.

(** The exception of one row ends the activities loop. *)
Lemma place_rows_raises (rows : list activity_row) (dm : daymap)
  (r : activity_row) :
  In r rows -> Uni.frequency_of U r = None -> Uni.place_rows U rows dm = None.
Proof.
  intros Hin F. induction rows as [|x rows IH]; [destruct Hin|].
  cbn [Uni.place_rows]. destruct Hin as [->|Hin].
  - unfold Uni.place_activity. rewrite F. reflexivity.
  - destruct (Uni.place_activity U x dm); [|reflexivity].
    rewrite (IH Hin). reflexivity.
Qed.

End Frequency.

(** C10, as the specification words it, fails on a cell holding the
    Arabic-Indic digit three: it is not a string of the digits 0 to 9, yet
    the frequency is 3 and the row is placed on the first three matching
    dates of November 2025 and not on all 17. *)
Lemma arabic_three_is_a_frequency :
  ~ plain_digit_string (a_frequency arabic_three_row)
  /\ (forall U, Uni.frequency_of U arabic_three_row = Some 3%nat)
  /\ (forall U,
        option_map (map (fun ev => day (d_date ev)))
                   (Uni.place_activity U arabic_three_row november_2025)
        = Some [2; 3; 5]%Z)
  /\ List.length (filter (day_matches (pref_days_of arabic_three_row))
                         (sorted_dates (keys november_2025))) = 17%nat.
Proof.
  assert (F : forall U, Uni.frequency_of U arabic_three_row = Some 3%nat).
  { intros U. rewrite decimal_frequency.
    - unfold Uni.decimal_value, arabic_three_row. cbn [a_frequency fold_left].
      change 1635 with (1632 + 3).
      rewrite (decimal_arabic_indic U 3) by (compute; discriminate).
      reflexivity.
    - split; [discriminate|]. split.
      + unfold arabic_three_row. cbn [a_frequency forallb].
        change 1635 with (1632 + 3).
        rewrite (is_decimal_arabic_indic U 3) by (compute; discriminate).
        reflexivity.
      + apply within_limit_small. simpl. lia. }
  split.
  - intros [_ H]. inversion H as [|c s Hc Hs]; subst. lia.
  - split; [exact F|]. split; [|reflexivity].
    intros U. unfold Uni.place_activity. rewrite F. reflexivity.
Qed.

(** C10 (amended).  When [str.isdigit] rejects the frequency cell - it is
    empty or has a character that is not a digit character - the frequency
    is 0 and the row is placed on every matching date the loop visits. *)
Theorem non_digit_frequency_is_unbounded
  (U : runtime) (r : activity_row) (dm : daymap) :
  Uni.not_digits U (a_frequency r) ->
  Uni.frequency_of U r = Some 0%nat
  /\ Uni.place_activity U r dm
     = Some (map (activity_event r)
                 (filter (day_matches (pref_days_of r))
                         (sorted_dates (keys dm)))).
Proof.
  intros H. apply not_digits_isdigit in H.
  assert (F : Uni.frequency_of U r = Some 0%nat)
    by (unfold Uni.frequency_of; rewrite H; reflexivity).
  split; [exact F|].
  unfold Uni.place_activity. rewrite F. rewrite place_from_unbounded.
  reflexivity.
Qed.

(** A frequency cell reading -3: every one of the 17 matching dates of
    November 2025 is taken. *)
Lemma non_digit_frequency_witness :
  Uni.frequency_of small_runtime minus_three_row = Some 0%nat
  /\ option_map (@List.length dated)
       (Uni.place_activity small_runtime minus_three_row november_2025)
     = Some 17%nat.
Proof.
  destruct (non_digit_frequency_is_unbounded
              small_runtime minus_three_row november_2025) as [F P].
  - right. apply Exists_cons_hd. reflexivity.
  - split; [exact F|]. rewrite P. reflexivity.
Defined.

(* ================================================================= *)
(** ** ASCII text: the two sort keys and the two frequencies agree *)

Section AsciiAgreement.

Variable U : runtime.

(** On an entry with no time, or with a time of two ASCII digits, a colon
    and two ASCII digits, the sort key is the one restricted to ASCII
    digits. *)
Lemma sort_key_on_ascii (e : event) :
  ev_time e = None
  \/ (exists a b c d,
        ev_time e = Some [a; b; 58; c; d]
        /\ isdigit a = true /\ isdigit b = true
        /\ isdigit c = true /\ isdigit d = true) ->
  Uni.sort_key U e = sort_key e.
Proof.
  intros [H|[a [b [c [d [Ht [Da [Db [Dc Dd]]]]]]]]].
  - rewrite (decimal_sort_key_untimed U e H), (sort_key_untimed e H).
    reflexivity.
  - pose proof (parse_clock_ascii U a b c d Da Db Dc Dd) as PU. cbv zeta in PU.
    assert (PO : parse_clock [a; b; 58; c; d]
                 = if ((10 * Z.of_N (a - 48) + Z.of_N (b - 48) <=? 23)
                       && (10 * Z.of_N (c - 48) + Z.of_N (d - 48) <=? 59))%Z
                   then Some (10 * Z.of_N (a - 48) + Z.of_N (b - 48),
                              10 * Z.of_N (c - 48) + Z.of_N (d - 48))%Z
                   else None).
    { unfold parse_clock.
      assert (Sp : split 58 [a; b; 58; c; d] = [[a; b]; [c; d]]).
      { change [a; b; 58; c; d] with ([a; b] ++ 58 :: [c; d]).
        rewrite split_app_sep, split_no_sep; [reflexivity| |];
          repeat constructor; intros ->; discriminate. }
      pose proof (py_int_two_digits a b Da Db) as Iab.
      pose proof (py_int_two_digits c d Dc Dd) as Icd.
      rewrite Sp. unfold str, char in *. rewrite Iab, Icd.
      set (h := (10 * Z.of_N (a - 48) + Z.of_N (b - 48))%Z).
      set (m := (10 * Z.of_N (c - 48) + Z.of_N (d - 48))%Z).
      assert (Hh : (0 <= h)%Z) by (unfold h; lia).
      assert (Hm : (0 <= m)%Z) by (unfold m; lia).
      replace (0 <=? h)%Z with true by (symmetry; apply Z.leb_le; exact Hh).
      replace (0 <=? m)%Z with true by (symmetry; apply Z.leb_le; exact Hm).
      cbn [andb].
      destruct (h <=? 23)%Z; cbn [andb]; [|reflexivity].
      destruct (m <=? 59)%Z; reflexivity. }
    unfold Uni.sort_key, sort_key. rewrite Ht. cbn [truthy negb].
    replace (Uni.parse_clock U _) with (parse_clock [a; b; 58; c; d]);
      [reflexivity|].
    rewrite PO. symmetry. exact PU.
Qed.

Lemma decimal_value_ascii (s : str) (acc : Z) :
  forallb isdigit s = true ->
  fold_left (fun a c =>
               (10 * a + match decimal U c with
                         | Some v => Z.of_N v
                         | None => 0
                         end)%Z) s acc
  = fold_left (fun a c => (10 * a + Z.of_N (c - 48))%Z) s acc.
Proof.
  revert acc. induction s as [|c s IH]; intros acc H; [reflexivity|].
  cbn [forallb] in H. apply andb_true_iff in H. destruct H as [Dc Ds].
  cbn [fold_left]. rewrite (decimal_of_ascii_digit U c Dc). apply IH, Ds.
Qed.

(** On a cell of ASCII characters no longer than the interpreter reads, the
    frequency is the one restricted to ASCII digits. *)
Lemma frequency_on_ascii (r : activity_row) :
  Forall (fun c => c < 128) (a_frequency r) ->
  Uni.within_limit U (List.length (a_frequency r)) = true ->
  Uni.frequency_of U r = Some (frequency_of r).
Proof.
  intros A L. unfold frequency_of.
  assert (Same : forall l, Forall (fun c => c < 128) l ->
                   forallb (digit_class U) l = forallb isdigit l).
  { induction 1 as [|c s Hc Hs IH]; [reflexivity|].
    cbn [forallb]. rewrite (digit_class_ascii U c Hc), IH. reflexivity. }
  specialize (Same _ A).
  destruct (str_isdigit (a_frequency r)) eqn:D.
  - unfold str_isdigit in D.
    destruct (a_frequency r) as [|c s] eqn:Ef; [discriminate|].
    rewrite <- Ef in *.
    rewrite decimal_frequency.
    + unfold Uni.decimal_value, digits_value.
      rewrite (decimal_value_ascii _ _ D). reflexivity.
    + split; [rewrite Ef; discriminate|]. split; [|exact L].
      rewrite forallb_forall in *. intros x Hx.
      apply is_decimal_of_isdigit, D, Hx.
  - unfold Uni.frequency_of.
    replace (Uni.str_isdigit U (a_frequency r)) with false; [reflexivity|].
    unfold Uni.str_isdigit, str_isdigit in *.
    destruct (a_frequency r); [reflexivity|]. rewrite Same, D. reflexivity.
Qed.

End AsciiAgreement.

(* ================================================================= *)
(** ** A digit character that is no decimal digit *)

(** X22.  When every character of a frequency cell is a digit character and
    one of them has no decimal value - superscript two, for one - the guard
    [isdigit] lets the cell through and [int] raises: the frequency has no
    value and the builder ends with the exception, whatever the other
    arguments and the other rows are. *)
Theorem digit_without_value_raises
  (U : runtime) (bank : list holiday) (y m : Z) (rows : list activity_row)
  (rota_df : option (list rota_row)) (rules : list rule)
  (include_holidays : bool) (r : activity_row) :
  In r rows ->
  Uni.str_isdigit U (a_frequency r) = true ->
  Exists (fun c => decimal U c = None) (a_frequency r) ->
  Uni.frequency_of U r = None
  /\ Uni.seat_activity_into_calendar U bank y m (Some rows) rota_df rules
       include_holidays = None.
Proof.
  intros Hin D E.
  assert (F := frequency_without_value U r D E).
  split; [exact F|].
  unfold Uni.seat_activity_into_calendar.
  destruct (month_date_range y m) as [[first last]|]; [|reflexivity].
  cbv zeta. unfold Uni.activities_of.
  rewrite (place_rows_raises U rows _ r Hin F). reflexivity.
Qed.

(** A frequency cell holding superscript two, in the second row of the
    sheet for November 2025. *)
Lemma digit_without_value_witness :
  Uni.frequency_of small_runtime superscript_two_row = None
  /\ Uni.seat_activity_into_calendar small_runtime [] 2025 11
       (Some [coffee_row; superscript_two_row]) None [] true = None.
Proof.
  apply (digit_without_value_raises small_runtime [] 2025 11
           [coffee_row; superscript_two_row] None [] true superscript_two_row).
  - right; left; reflexivity.
  - reflexivity.
  - apply Exists_cons_hd. reflexivity.
Defined.

(** The cells of the examples, whatever the tables are. *)
Example frequency_examples_every_script (U : runtime) :
  map (fun s => Uni.frequency_of U (mkactivity [] [] [] s))
      [lit "-3"; []; lit "abc"; lit "3.0"; lit "12"; lit "007"]
  = [Some 0; Some 0; Some 0; Some 0; Some 12; Some 7]%nat.
Proof.
  assert (K : forall s, Forall (fun c => c < 128) s ->
                        (List.length s <= 640)%nat ->
                        Uni.frequency_of U (mkactivity [] [] [] s)
                        = Some (frequency_of (mkactivity [] [] [] s))).
  { intros s A L. apply frequency_on_ascii; [exact A|].
    apply within_limit_small. exact L. }
  cbn [map].
  rewrite !K by (first [repeat constructor | simpl; lia]).
  reflexivity.
Qed.
